(** * MindFlow: the DSI score engine, the behaviour monitor and the tab registry

    A shallow embedding of the background service worker (the revised
    [background.js]: [calculateEntropyScore], [calculateDSIDelta],
    [updateDSI], [handleBehaviorData], [handleTherapyCompletion],
    [handleReaderModeExit], the [READER_MODE_STATE] handler, the timer
    management, the [chrome.tabs.onRemoved] listener and
    [detectPageType]) and of the content script: its [BehaviorMonitor], the
    level and mode logic of its [InterventionManager], and the functions by
    which [DigitalAvatar], [StatusBubble] and [SidebarPanel] turn a score
    into what they display.

    JavaScript numbers are IEEE 754 binary64 values; they are modelled by
    Rocq's primitive floats, so that [NaN], signed zeros, infinities and
    rounding behave as in the program.  [Date.now()] is an argument [now] of
    every function that reads the clock.  A handler returns the effects it
    requested (messages sent to the tab, storage writes, badge updates) in
    program order.  [Engine.updateDSI] is a call of the [async] function
    [updateDSI] that runs to its end before any other handler runs;
    [Engine.updateDSI_start] and [Engine.updateDSI_resume] are the same call
    segment by segment, from one [await] to the next, and [Schedule] lets
    calls overlap as [setInterval] allows.

    Further conventions.  A level is a natural number (the program only
    assigns the literals 0 to 3).  A page type is a string; the object
    literals [CONTEXT_WEIGHTS] and [DECAY_MULTIPLIERS] are finite maps from
    their own keys, and a lookup [o[name]] is [JS.get]: the own property, or
    what [Object.prototype] holds under [name], or [undefined].  A message
    payload reaches its handler as the sender built it: the listener is
    modelled on the values it is called with, [NaN] included. *)

From Stdlib Require Import Floats ZArith Lia.
From stdpp Require Import base option list gmap strings pretty.

Set Warnings "-inexact-float".
Set Default Proof Using "Type".

Local Open Scope float_scope.

(** ** JavaScript number semantics *)

Module JS.

(** [ToBoolean] on a number: [0], [-0] and [NaN] are falsy. *)
Definition truthy (x : float) : bool := negb (x =? 0) && negb (is_nan x).

(** [x || d] on numbers. *)
Definition or_else (x d : float) : float := if truthy x then x else d.

(** [Math.max(a, b)]: [NaN] if either argument is [NaN]; [+0] is larger
    than [-0]. *)
Definition Math_max (a b : float) : float :=
  if is_nan a || is_nan b then nan
  else if a <? b then b
  else if b <? a then a
  else match classify a with NZero => b | _ => a end.

(** [Math.min(a, b)]: [NaN] if either argument is [NaN]; [-0] is smaller
    than [+0]. *)
Definition Math_min (a b : float) : float :=
  if is_nan a || is_nan b then nan
  else if a <? b then a
  else if b <? a then b
  else match classify a with PZero => b | _ => a end.

Definition Math_abs (x : float) : float := abs x.
Definition Math_sqrt (x : float) : float := sqrt x.

(** [a > b], [a >= b] as the program writes them. *)
Definition gt (a b : float) : bool := b <? a.
Definition ge (a b : float) : bool := b <=? a.

(** What [o[name]] can be for an object literal [o] whose own properties
    hold numbers: [undefined], a number, or what the literal inherits from
    [Object.prototype] under [name] (a function; for [__proto__] the prototype
    object itself). *)
Inductive Value :=
  | Undefined
  | Num (x : float)
  | Inherited (name : string).

(** The property names of [Object.prototype]. *)
Definition Object_prototype : list string :=
  ["constructor"; "__defineGetter__"; "__defineSetter__"; "hasOwnProperty";
   "__lookupGetter__"; "__lookupSetter__"; "isPrototypeOf";
   "propertyIsEnumerable"; "toString"; "valueOf"; "__proto__";
   "toLocaleString"].

Definition inherited (name : string) : bool :=
  existsb (String.eqb name) Object_prototype.

(** [o[name]]: an own property first, then the prototype. *)
Definition get (o : gmap string float) (name : string) : Value :=
  match o !! name with
  | Some x => Num x
  | None => if inherited name then Inherited name else Undefined
  end.

(** [ToBoolean]: a function and an object are truthy. *)
Definition ToBoolean (v : Value) : bool :=
  match v with
  | Undefined => false
  | Num x => truthy x
  | Inherited _ => true
  end.

(** [ToNumber], which the arithmetic operators apply to their operands:
    [undefined], a function and the prototype object all give [NaN]. *)
Definition ToNumber (v : Value) : float :=
  match v with
  | Num x => x
  | Undefined | Inherited _ => nan
  end.

(** [v || d] for a number [d]. *)
Definition or_default (v : Value) (d : float) : Value :=
  if ToBoolean v then v else Num d.

End JS.

Infix ">?" := JS.gt (at level 70, no associativity) : float_scope.
Infix ">=?" := JS.ge (at level 70, no associativity) : float_scope.
Infix "|||" := JS.or_else (at level 50, left associativity) : float_scope.

(** ** Classes of binary64 values

    [Prim2SF] maps a primitive float to its [SpecFloat] description: a
    signed zero, a signed infinity, [NaN], or a finite non-zero number. *)

Module Number.

(** A finite value: a zero or a finite non-zero number. *)
Definition SFfinite (f : spec_float) : bool :=
  match f with
  | S754_zero _ | S754_finite _ _ _ => true
  | _ => false
  end.

Definition SFnonzero (f : spec_float) : bool :=
  match f with
  | S754_finite _ _ _ => true
  | _ => false
  end.

Definition finite (x : float) : Prop := SFfinite (Prim2SF x) = true.
Definition finite_nonzero (x : float) : Prop := SFnonzero (Prim2SF x) = true.
Definition not_nan (x : float) : Prop := is_nan x = false.

(** Not below zero: a zero of either sign, a positive number, [+Infinity]
    or [NaN]. *)
Definition SFnot_negative (f : spec_float) : bool :=
  match f with
  | S754_infinity true | S754_finite true _ _ => false
  | _ => true
  end.

(** Neither zero nor below: a positive number, [+Infinity] or [NaN]. *)
Definition SFnot_nonpositive (f : spec_float) : bool :=
  match f with
  | S754_infinity false | S754_finite false _ _ | S754_nan => true
  | _ => false
  end.

(** Not the negative zero [-0]. *)
Definition not_negative_zero (x : float) : Prop :=
  Prim2SF x <> S754_zero true.

End Number.

(** ** Configuration: [DSI_CONFIG] of the revised background script *)

Module DSI_CONFIG.

Definition SCROLL_SPEED_THRESHOLD : float := 2000.
Definition SCROLL_SPEED_CHAOTIC : float := 3000.
Definition CLICK_FREQUENCY_THRESHOLD : float := 3.
Definition CLICK_FREQUENCY_CHAOTIC : float := 5.
Definition DIRECTION_CHANGE_CHAOTIC : float := 2.
Definition RAGE_CLICK_THRESHOLD : float := 2.

Definition SCROLL_INCREMENT : float := 1.5.
Definition SCROLL_CHAOTIC_INCREMENT : float := 5.
Definition CLICK_INCREMENT : float := 2.
Definition CLICK_CHAOTIC_INCREMENT : float := 8.
Definition NATURAL_INCREMENT : float := 0.0.
Definition FLOW_RECOVERY : float := 1.0.
Definition ACTIVE_RECOVERY_BASE : float := 0.5.

Definition FLOW_ZONE_MIN : float := 40.
Definition FLOW_ZONE_MAX : float := 60.

Definition DECAY_DELAY : float := 2500.
Definition IDLE_THRESHOLD : float := 5000.
Definition DEEP_READING_THRESHOLD : float := 10000.
Definition READER_MODE_DECAY_RATE : float := 1.0.

Definition DECAY_BASE_RATE : float := 0.6.
Definition DECAY_FACTOR : float := 0.05.
Definition THERAPY_BONUS : float := 3.0.
Definition MIN_BASELINE : float := 0.

Definition DECAY_MULTIPLIERS : gmap string float :=
  <["video" := 0.5]> (<["document" := 0.3]> (<["shopping" := 0.8]>
    (<["other" := 1.0]> ∅))).

Definition CONTEXT_WEIGHTS : gmap string float :=
  <["social" := 1.3]> (<["news" := 1.2]> (<["video" := 0.6]>
    (<["document" := 0.5]> (<["shopping" := 1.1]> (<["other" := 1.0]> ∅))))).

Definition LEVEL_1_THRESHOLD : float := 35.
Definition LEVEL_1_SUGGEST : float := 50.
Definition LEVEL_2_THRESHOLD : float := 65.
Definition LEVEL_2_SUGGEST : float := 72.
Definition LEVEL_3_THRESHOLD : float := 85.

Definition MAX_DSI : float := 100.
Definition MIN_DSI : float := 0.

Definition UPDATE_INTERVAL : float := 1000.

End DSI_CONFIG.

(** ** Messages and effects *)

(** The payload of a [BEHAVIOR_DATA] message.  A field that the sender left
    out ([undefined]) is [None]. *)
Module BehaviorData.
Record t := mk {
  scrollSpeed : option float;
  clickFrequency : option float;
  pageType : option string;
  directionChanges : option float;
  rageClickCount : option float;
  timestamp : option float
}.
End BehaviorData.

Inductive SuggestionType := gentle | strong.

(** The payload of an [INTERVENTION] message sent to the content script. *)
Record Intervention := mkIntervention {
  iv_level : nat;
  iv_dsi : float;
  iv_suggestion : option SuggestionType;
  iv_entropyScore : float;
  iv_isInFlowZone : bool;
  iv_pageType : string;
  iv_timestamp : float
}.

Inductive StorageValue :=
  | VNumber (x : float)
  | VLevel (n : nat)
  | VBoolean (b : bool).

(** What a handler asks of the browser, in program order.  The badge text
    is [Math.round(dsi).toString()] and its colour is [colors[level]]; the
    effect records the score and the level they are derived from. *)
Inductive Effect :=
  | SendIntervention (tabId : N) (payload : Intervention)
  | SendSuggestion (tabId : N) (dsi : float) (suggestionType : SuggestionType)
      (timestamp : float)
  | StorageSet (items : list (string * StorageValue))
  | StorageRemove (keys : list string)
  | SetBadge (tabId : N) (dsi : float) (level : nat).

(** The keys of [chrome.storage.local]: the template literals
    [`dsi_${tabId}`] and so on. *)
Definition key (prefix : string) (tabId : N) : string := prefix +:+ pretty tabId.

(** The messages of [chrome.runtime.onMessage] that reach the engine.  For
    [CONTENT_READY] and [PAGE_INFO] the argument is [detectPageType(url)]
    when the payload carries a url.  [THERAPY_ACTIVE] carries
    [payload.active || false]; [READER_MODE_STATE] carries [false] exactly
    when [payload.active === false]. *)
Inductive Message :=
  | BEHAVIOR_DATA (payload : BehaviorData.t)
  | GET_DSI
  | RESET_DSI
  | CONTENT_READY (detected : option string)
  | PAGE_INFO (detected : option string)
  | THERAPY_COMPLETED
  | THERAPY_ACTIVE (active : bool)
  | READER_MODE_STATE (active : bool)
  | DEBUG_SET_DSI (dsi : float).

(** ** The score engine: one tab's state and its transitions *)

Module Engine.
Import DSI_CONFIG JS.

Record TabState := mkTabState {
  dsi : float;
  lastActivityTime : float;
  isTherapyActive : bool;
  isReaderModeActive : bool;
  currentLevel : nat;
  scrollSpeed : float;
  clickFrequency : float;
  directionChanges : float;
  rageClickCount : float;
  isIdle : bool;
  idleStartTime : option float;
  pageType : string;
  isDeepReading : bool;
  entropyScore : float;
  contextCoefficient : Value;
  suggestionShown : bool
}.

(** Assignments to one field of the (mutable) state object. *)
Definition set_dsi (v : float) (s : TabState) : TabState :=
  mkTabState v (lastActivityTime s) (isTherapyActive s) (isReaderModeActive s)
    (currentLevel s) (scrollSpeed s) (clickFrequency s) (directionChanges s)
    (rageClickCount s) (isIdle s) (idleStartTime s) (pageType s)
    (isDeepReading s) (entropyScore s) (contextCoefficient s) (suggestionShown s).
Definition set_lastActivityTime (v : float) (s : TabState) : TabState :=
  mkTabState (dsi s) v (isTherapyActive s) (isReaderModeActive s)
    (currentLevel s) (scrollSpeed s) (clickFrequency s) (directionChanges s)
    (rageClickCount s) (isIdle s) (idleStartTime s) (pageType s)
    (isDeepReading s) (entropyScore s) (contextCoefficient s) (suggestionShown s).
Definition set_isTherapyActive (v : bool) (s : TabState) : TabState :=
  mkTabState (dsi s) (lastActivityTime s) v (isReaderModeActive s)
    (currentLevel s) (scrollSpeed s) (clickFrequency s) (directionChanges s)
    (rageClickCount s) (isIdle s) (idleStartTime s) (pageType s)
    (isDeepReading s) (entropyScore s) (contextCoefficient s) (suggestionShown s).
Definition set_isReaderModeActive (v : bool) (s : TabState) : TabState :=
  mkTabState (dsi s) (lastActivityTime s) (isTherapyActive s) v
    (currentLevel s) (scrollSpeed s) (clickFrequency s) (directionChanges s)
    (rageClickCount s) (isIdle s) (idleStartTime s) (pageType s)
    (isDeepReading s) (entropyScore s) (contextCoefficient s) (suggestionShown s).
Definition set_currentLevel (v : nat) (s : TabState) : TabState :=
  mkTabState (dsi s) (lastActivityTime s) (isTherapyActive s) (isReaderModeActive s)
    v (scrollSpeed s) (clickFrequency s) (directionChanges s)
    (rageClickCount s) (isIdle s) (idleStartTime s) (pageType s)
    (isDeepReading s) (entropyScore s) (contextCoefficient s) (suggestionShown s).
Definition set_scrollSpeed (v : float) (s : TabState) : TabState :=
  mkTabState (dsi s) (lastActivityTime s) (isTherapyActive s) (isReaderModeActive s)
    (currentLevel s) v (clickFrequency s) (directionChanges s)
    (rageClickCount s) (isIdle s) (idleStartTime s) (pageType s)
    (isDeepReading s) (entropyScore s) (contextCoefficient s) (suggestionShown s).
Definition set_clickFrequency (v : float) (s : TabState) : TabState :=
  mkTabState (dsi s) (lastActivityTime s) (isTherapyActive s) (isReaderModeActive s)
    (currentLevel s) (scrollSpeed s) v (directionChanges s)
    (rageClickCount s) (isIdle s) (idleStartTime s) (pageType s)
    (isDeepReading s) (entropyScore s) (contextCoefficient s) (suggestionShown s).
Definition set_directionChanges (v : float) (s : TabState) : TabState :=
  mkTabState (dsi s) (lastActivityTime s) (isTherapyActive s) (isReaderModeActive s)
    (currentLevel s) (scrollSpeed s) (clickFrequency s) v
    (rageClickCount s) (isIdle s) (idleStartTime s) (pageType s)
    (isDeepReading s) (entropyScore s) (contextCoefficient s) (suggestionShown s).
Definition set_rageClickCount (v : float) (s : TabState) : TabState :=
  mkTabState (dsi s) (lastActivityTime s) (isTherapyActive s) (isReaderModeActive s)
    (currentLevel s) (scrollSpeed s) (clickFrequency s) (directionChanges s)
    v (isIdle s) (idleStartTime s) (pageType s)
    (isDeepReading s) (entropyScore s) (contextCoefficient s) (suggestionShown s).
Definition set_isIdle (v : bool) (s : TabState) : TabState :=
  mkTabState (dsi s) (lastActivityTime s) (isTherapyActive s) (isReaderModeActive s)
    (currentLevel s) (scrollSpeed s) (clickFrequency s) (directionChanges s)
    (rageClickCount s) v (idleStartTime s) (pageType s)
    (isDeepReading s) (entropyScore s) (contextCoefficient s) (suggestionShown s).
Definition set_pageType (v : string) (s : TabState) : TabState :=
  mkTabState (dsi s) (lastActivityTime s) (isTherapyActive s) (isReaderModeActive s)
    (currentLevel s) (scrollSpeed s) (clickFrequency s) (directionChanges s)
    (rageClickCount s) (isIdle s) (idleStartTime s) v
    (isDeepReading s) (entropyScore s) (contextCoefficient s) (suggestionShown s).
Definition set_isDeepReading (v : bool) (s : TabState) : TabState :=
  mkTabState (dsi s) (lastActivityTime s) (isTherapyActive s) (isReaderModeActive s)
    (currentLevel s) (scrollSpeed s) (clickFrequency s) (directionChanges s)
    (rageClickCount s) (isIdle s) (idleStartTime s) (pageType s)
    v (entropyScore s) (contextCoefficient s) (suggestionShown s).
Definition set_entropyScore (v : float) (s : TabState) : TabState :=
  mkTabState (dsi s) (lastActivityTime s) (isTherapyActive s) (isReaderModeActive s)
    (currentLevel s) (scrollSpeed s) (clickFrequency s) (directionChanges s)
    (rageClickCount s) (isIdle s) (idleStartTime s) (pageType s)
    (isDeepReading s) v (contextCoefficient s) (suggestionShown s).
Definition set_contextCoefficient (v : Value) (s : TabState) : TabState :=
  mkTabState (dsi s) (lastActivityTime s) (isTherapyActive s) (isReaderModeActive s)
    (currentLevel s) (scrollSpeed s) (clickFrequency s) (directionChanges s)
    (rageClickCount s) (isIdle s) (idleStartTime s) (pageType s)
    (isDeepReading s) (entropyScore s) v (suggestionShown s).
Definition set_suggestionShown (v : bool) (s : TabState) : TabState :=
  mkTabState (dsi s) (lastActivityTime s) (isTherapyActive s) (isReaderModeActive s)
    (currentLevel s) (scrollSpeed s) (clickFrequency s) (directionChanges s)
    (rageClickCount s) (isIdle s) (idleStartTime s) (pageType s)
    (isDeepReading s) (entropyScore s) (contextCoefficient s) v.

(** [initTabState]: the object stored for a tab ([Date.now()] is [now]). *)
Definition initTabState (now : float) : TabState :=
  {| dsi := 0;
     lastActivityTime := now;
     isTherapyActive := false;
     isReaderModeActive := false;
     currentLevel := 0%nat;
     scrollSpeed := 0;
     clickFrequency := 0;
     directionChanges := 0;
     rageClickCount := 0;
     isIdle := false;
     idleStartTime := None;
     pageType := "other";
     isDeepReading := false;
     entropyScore := 0;
     contextCoefficient := Num 1.0;
     suggestionShown := false |}.

(** [DSI_CONFIG.CONTEXT_WEIGHTS[pageType] || 1.0]: the weight of a page
    type of the table, [1.0] for a name that is no property at all, and for a
    name that the table inherits from [Object.prototype] (['constructor'],
    ['toString'], ...) the inherited function, which is truthy. *)
Definition getContextCoefficient (pageType : string) : Value :=
  or_default (get CONTEXT_WEIGHTS pageType) 1.0.

(** [DSI_CONFIG.DECAY_MULTIPLIERS[pageType] || 1.0] *)
Definition pageDecayMultiplier (pageType : string) : Value :=
  or_default (get DECAY_MULTIPLIERS pageType) 1.0.

Definition calculateEntropyScore (state : TabState) : float :=
  let entropy := 0 in
  let entropy :=
    if directionChanges state >? DIRECTION_CHANGE_CHAOTIC
    then entropy + 0.5 else entropy in
  let entropy :=
    if rageClickCount state >? RAGE_CLICK_THRESHOLD
    then entropy + 0.5 else entropy in
  let entropy :=
    if scrollSpeed state >? SCROLL_SPEED_CHAOTIC then entropy + 0.3
    else if scrollSpeed state >? SCROLL_SPEED_THRESHOLD then entropy + 0.1
    else entropy in
  let entropy :=
    if clickFrequency state >? CLICK_FREQUENCY_CHAOTIC
    then entropy + 0.3 else entropy in
  Math_min 1 entropy.

Definition isInFlowZone (dsi : float) : bool :=
  (dsi >=? FLOW_ZONE_MIN) && (dsi <=? FLOW_ZONE_MAX).

(** [calculateDSIDelta]: the change of the score for this tick, and the
    state object with the fields the function assigns ([entropyScore],
    [isIdle], [isDeepReading]). *)
Definition calculateDSIDelta (now : float) (state : TabState)
  : float * TabState :=
  let delta := 0 in
  let timeSinceLastActivity := now - lastActivityTime state in
  let contextCoeff := or_default (contextCoefficient state) 1.0 in
  let state := set_entropyScore (calculateEntropyScore state) state in
  (* 1. therapy: highest priority, returns at once *)
  if isTherapyActive state then
    let therapyDecay := - (THERAPY_BONUS + dsi state * DECAY_FACTOR) in
    (therapyDecay, state)
  (* 2. reader mode *)
  else if isReaderModeActive state then
    let READER_MODE_TARGET_MIN := 45 in
    let READER_MODE_TARGET_MAX := 55 in
    let baseDecay := DECAY_BASE_RATE * 0.3 in
    let baseDecay :=
      baseDecay * ToNumber (pageDecayMultiplier (pageType state)) in
    if (dsi state >=? READER_MODE_TARGET_MIN)
       && (dsi state <=? READER_MODE_TARGET_MAX) then (0, state)
    else if dsi state >? READER_MODE_TARGET_MAX then (- baseDecay, state)
    else (0.2, state)
  else
    let isMeaningfulActivity :=
      (scrollSpeed state >? 50) || (clickFrequency state >? 0) in
    (* 3. active or idle *)
    let '(delta, state) :=
      if isMeaningfulActivity then
        let state :=
          if isIdle state || isDeepReading state
          then set_isDeepReading false (set_isIdle false state)
          else state in
        let inFlowZone := isInFlowZone (dsi state) in
        if directionChanges state >? DIRECTION_CHANGE_CHAOTIC then
          (delta + SCROLL_CHAOTIC_INCREMENT * ToNumber contextCoeff, state)
        else if rageClickCount state >? RAGE_CLICK_THRESHOLD then
          (delta + CLICK_CHAOTIC_INCREMENT * ToNumber contextCoeff, state)
        else if scrollSpeed state >? SCROLL_SPEED_CHAOTIC then
          (delta + SCROLL_INCREMENT * ToNumber contextCoeff, state)
        else if clickFrequency state >? CLICK_FREQUENCY_THRESHOLD then
          (delta + CLICK_INCREMENT * ToNumber contextCoeff, state)
        else
          let activeRecovery := ACTIVE_RECOVERY_BASE ||| 0.5 in
          let activeRecovery :=
            if dsi state >? 70 then activeRecovery * 1.5 else activeRecovery in
          let delta :=
            if inFlowZone then - FLOW_RECOVERY else - activeRecovery in
          let delta :=
            if (scrollSpeed state >? SCROLL_SPEED_THRESHOLD)
               && (scrollSpeed state <=? SCROLL_SPEED_CHAOTIC)
            then 0.5 * ToNumber contextCoeff else delta in
          (delta, state)
      else
        if timeSinceLastActivity <? DECAY_DELAY then (0, state)
        else if (String.eqb (pageType state) "document"
                 || String.eqb (pageType state) "news")
                && (timeSinceLastActivity >? DEEP_READING_THRESHOLD) then
          let state :=
            if negb (isDeepReading state)
            then set_isDeepReading true state else state in
          (- 0.4, state)
        else
          let decay := DECAY_BASE_RATE + dsi state * DECAY_FACTOR in
          let decay :=
            decay * ToNumber (pageDecayMultiplier (pageType state)) in
          let decay := if isInFlowZone (dsi state) then decay * 0.5 else decay in
          let decay :=
            if (decay <? 0.1) && (decay >? 0) && (dsi state >? 0)
            then 0.1 else decay in
          let state :=
            if negb (isIdle state) then set_isIdle true state else state in
          (- decay, state) in
    (* 4. the level-1 floor *)
    let delta :=
      if Nat.eqb (currentLevel state) 1%nat && (delta <? 0) then
        let LEVEL_1_FLOOR := 25 in
        if dsi state + delta <? LEVEL_1_FLOOR then
          if dsi state >? LEVEL_1_FLOOR
          then - (dsi state - LEVEL_1_FLOOR)
          else 0
        else delta
      else delta in
    (delta, state).

(** [triggerIntervention]: the [INTERVENTION] message for the tab. *)
Definition triggerIntervention (tabId : N) (now : float) (level : nat)
    (dsi : float) (suggestion : option SuggestionType) (state : TabState)
  : list Effect :=
  [SendIntervention tabId
     {| iv_level := level;
        iv_dsi := dsi;
        iv_suggestion := suggestion;
        iv_entropyScore := entropyScore state;
        iv_isInFlowZone := isInFlowZone dsi;
        iv_pageType := pageType state;
        iv_timestamp := now |}].

Definition sendSuggestion (tabId : N) (now : float) (dsi : float)
    (suggestionType : SuggestionType) : list Effect :=
  [SendSuggestion tabId dsi suggestionType now].

(** The level that [updateDSI] derives outside therapy mode, with the
    suggestion it attaches. *)
Definition deriveLevel (state : TabState) : nat * option SuggestionType :=
  if isReaderModeActive state then
    if dsi state >? LEVEL_3_THRESHOLD then (3%nat, None) else (2%nat, None)
  else
    if dsi state >? LEVEL_3_THRESHOLD then (3%nat, None)
    else if dsi state >? LEVEL_2_SUGGEST then (2%nat, Some strong)
    else if dsi state >? LEVEL_2_THRESHOLD then (1%nat, Some gentle)
    else
      let level1ExitThreshold := 20 in
      let isAlreadyLevel1 := Nat.eqb (currentLevel state) 1%nat in
      if dsi state >? LEVEL_1_THRESHOLD then (1%nat, None)
      else if isAlreadyLevel1 && (dsi state >? level1ExitThreshold)
      then (1%nat, None)
      else (0%nat, None).

(** [updateDSI]: one tick on the tab's state object, the call running to
    its end with no other handler in between (segment by segment:
    [updateDSI_start] and [updateDSI_resume] below). *)
Definition updateDSI (tabId : N) (now : float) (state : TabState)
  : TabState * list Effect :=
  let '(delta, state) := calculateDSIDelta now state in
  let state :=
    set_dsi (Math_max MIN_DSI (Math_min MAX_DSI (dsi state + delta))) state in
  if isTherapyActive state then
    let newLevel := 3%nat in
    if Nat.eqb (currentLevel state) 3%nat then (state, [])
    else
      let state := set_currentLevel newLevel state in
      (state, triggerIntervention tabId now newLevel (dsi state) None state)
  else
    let '(newLevel, suggestion) := deriveLevel state in
    let '(state, sent) :=
      if negb (Nat.eqb newLevel (currentLevel state)) then
        let state := set_currentLevel newLevel state in
        (state,
         triggerIntervention tabId now newLevel (dsi state) suggestion state)
      else
        match suggestion with
        | Some suggestionType =>
            if negb (suggestionShown state) then
              (set_suggestionShown true state,
               sendSuggestion tabId now (dsi state) suggestionType)
            else (state, [])
        | None => (state, [])
        end in
    let state :=
      if dsi state <? LEVEL_2_THRESHOLD
      then set_suggestionShown false state else state in
    let state :=
      set_rageClickCount 0 (set_directionChanges 0
        (set_clickFrequency 0 (set_scrollSpeed 0 state))) in
    (state,
     sent ++
     [StorageSet
        [(key "dsi_" tabId, VNumber (dsi state));
         (key "level_" tabId, VLevel (currentLevel state));
         (key "entropy_" tabId, VNumber (entropyScore state));
         (key "inFlow_" tabId, VBoolean (isInFlowZone (dsi state)))];
      SetBadge tabId (dsi state) newLevel]).

(** *** [updateDSI] segment by segment

    [updateDSI] is an [async] function: at an [await] the call is suspended,
    and until the awaited promise settles other handlers (the next tick of
    [setInterval], a message) run on the same state object.  [Await] names
    the [await] at which a call is suspended, with the local variable
    [newLevel] that the rest of the call still reads: the [await] of
    [triggerIntervention] in the therapy branch, the one after a level change,
    the [await] of [sendSuggestion], and the [await] of
    [chrome.storage.local.set].  (The two badge calls that follow the storage
    write read nothing but [state.dsi] and [newLevel]; they are one segment
    with one effect.) *)
Inductive Await :=
  | AwaitTherapyIntervention
  | AwaitIntervention (newLevel : nat)
  | AwaitSuggestion (newLevel : nat)
  | AwaitStorage (newLevel : nat).

(** From the reset of [suggestionShown] to the call of
    [chrome.storage.local.set]. *)
Definition updateDSI_persist (tabId : N) (newLevel : nat) (state : TabState)
  : TabState * list Effect * option Await :=
  let state :=
    if dsi state <? LEVEL_2_THRESHOLD
    then set_suggestionShown false state else state in
  let state :=
    set_rageClickCount 0 (set_directionChanges 0
      (set_clickFrequency 0 (set_scrollSpeed 0 state))) in
  (state,
   [StorageSet
      [(key "dsi_" tabId, VNumber (dsi state));
       (key "level_" tabId, VLevel (currentLevel state));
       (key "entropy_" tabId, VNumber (entropyScore state));
       (key "inFlow_" tabId, VBoolean (isInFlowZone (dsi state)))]],
   Some (AwaitStorage newLevel)).

(** The call of [updateDSI] up to its first [await] (or to its [return]):
    the state object as the segment leaves it, the effects it requested, and
    the [await] at which the call is suspended. *)
Definition updateDSI_start (tabId : N) (now : float) (state : TabState)
  : TabState * list Effect * option Await :=
  let '(delta, state) := calculateDSIDelta now state in
  let state :=
    set_dsi (Math_max MIN_DSI (Math_min MAX_DSI (dsi state + delta))) state in
  if isTherapyActive state then
    let newLevel := 3%nat in
    if Nat.eqb (currentLevel state) 3%nat then (state, [], None)
    else
      let state := set_currentLevel newLevel state in
      (state, triggerIntervention tabId now newLevel (dsi state) None state,
       Some AwaitTherapyIntervention)
  else
    let '(newLevel, suggestion) := deriveLevel state in
    if negb (Nat.eqb newLevel (currentLevel state)) then
      let state := set_currentLevel newLevel state in
      (state,
       triggerIntervention tabId now newLevel (dsi state) suggestion state,
       Some (AwaitIntervention newLevel))
    else
      match suggestion with
      | Some suggestionType =>
          if negb (suggestionShown state) then
            (state, sendSuggestion tabId now (dsi state) suggestionType,
             Some (AwaitSuggestion newLevel))
          else updateDSI_persist tabId newLevel state
      | None => updateDSI_persist tabId newLevel state
      end.

(** The suspended call continues, on the state object as it is by then,
    up to its next [await] or to its end. *)
Definition updateDSI_resume (tabId : N) (a : Await) (state : TabState)
  : TabState * list Effect * option Await :=
  match a with
  | AwaitTherapyIntervention => (state, [], None)
  | AwaitIntervention newLevel => updateDSI_persist tabId newLevel state
  | AwaitSuggestion newLevel =>
      updateDSI_persist tabId newLevel (set_suggestionShown true state)
  | AwaitStorage newLevel =>
      (state, [SetBadge tabId (dsi state) newLevel], None)
  end.

(** A call with its continuations run at once, nothing else in between. *)
Definition uninterrupted (tabId : N)
    (r : TabState * list Effect * option Await) : TabState * list Effect :=
  let '(state, effects, a) := r in
  match a with
  | None => (state, effects)
  | Some a =>
      let '(state, effects1, a1) := updateDSI_resume tabId a state in
      match a1 with
      | None => (state, effects ++ effects1)
      | Some a1 =>
          let '(state, effects2, _) := updateDSI_resume tabId a1 state in
          (state, effects ++ effects1 ++ effects2)
      end
  end.

(** [handleBehaviorData] *)
Definition handleBehaviorData (now : float) (data : BehaviorData.t)
    (state : TabState) : TabState :=
  let state :=
    match BehaviorData.scrollSpeed data with
    | Some v => set_scrollSpeed (Math_max (scrollSpeed state) v) state
    | None => state
    end in
  let state :=
    match BehaviorData.clickFrequency data with
    | Some v => set_clickFrequency (Math_max (clickFrequency state) v) state
    | None => state
    end in
  let state :=
    match BehaviorData.pageType data with
    | Some pt =>
        if String.eqb pt "" then state
        else set_contextCoefficient (getContextCoefficient pt)
               (set_pageType pt state)
    | None => state
    end in
  let state := set_lastActivityTime now state in
  let state :=
    match BehaviorData.directionChanges data with
    | Some v => set_directionChanges v state
    | None => state
    end in
  match BehaviorData.rageClickCount data with
  | Some v => set_rageClickCount v state
  | None => state
  end.

(** [handleTherapyCompletion] *)
Definition handleTherapyCompletion (tabId : N) (state : TabState)
  : TabState * list Effect :=
  let state := set_isTherapyActive false state in
  if dsi state >? 50 then
    let state := set_dsi 45 state in
    let state := set_currentLevel 0%nat state in
    (state,
     [StorageSet [(key "dsi_" tabId, VNumber (dsi state));
                  (key "level_" tabId, VLevel (currentLevel state))];
      SetBadge tabId 45 0%nat])
  else (state, []).

(** [handleReaderModeExit] *)
Definition handleReaderModeExit (tabId : N) (now : float) (state : TabState)
  : TabState * list Effect :=
  let state := set_isReaderModeActive false state in
  let targetDsiAfterExit := 40 in
  let state :=
    if dsi state >? targetDsiAfterExit
    then set_dsi targetDsiAfterExit state else state in
  let newLevel :=
    if dsi state >? LEVEL_3_THRESHOLD then 3%nat
    else if dsi state >? LEVEL_2_THRESHOLD then 2%nat
    else if dsi state >? LEVEL_1_THRESHOLD then 1%nat
    else 0%nat in
  let state := set_currentLevel newLevel state in
  (state,
   triggerIntervention tabId now (currentLevel state) (dsi state) None state ++
   [StorageSet [(key "dsi_" tabId, VNumber (dsi state));
                (key "level_" tabId, VLevel (currentLevel state))];
    SetBadge tabId (dsi state) (currentLevel state)]).

(** The [READER_MODE_STATE] case of the message listener. *)
Definition onReaderModeState (tabId : N) (now : float) (active : bool)
    (readerState : TabState) : TabState * list Effect :=
  if negb active then handleReaderModeExit tabId now readerState
  else
    let readerState := set_isReaderModeActive true readerState in
    if dsi readerState <? LEVEL_2_THRESHOLD then
      let readerState := set_dsi (LEVEL_2_THRESHOLD + 5) readerState in
      (readerState,
       triggerIntervention tabId now 2%nat (dsi readerState) (Some strong)
         readerState)
    else (readerState, []).

(** The page-type update of [CONTENT_READY] and [PAGE_INFO]. *)
Definition setDetectedPageType (detected : option string) (state : TabState)
  : TabState :=
  match detected with
  | Some pt =>
      set_contextCoefficient (getContextCoefficient pt) (set_pageType pt state)
  | None => state
  end.

(** The switch of [chrome.runtime.onMessage], on the state object that
    [getTabState(tabId)] returned. *)
Definition onMessage (tabId : N) (now : float) (message : Message)
    (state : TabState) : TabState * list Effect :=
  match message with
  | BEHAVIOR_DATA payload => (handleBehaviorData now payload state, [])
  | GET_DSI => (state, [])
  | RESET_DSI => (initTabState now, [])
  | CONTENT_READY detected =>
      (setDetectedPageType detected (initTabState now), [])
  | PAGE_INFO detected => (setDetectedPageType detected state, [])
  | THERAPY_COMPLETED => handleTherapyCompletion tabId state
  | THERAPY_ACTIVE active => (set_isTherapyActive active state, [])
  | READER_MODE_STATE active => onReaderModeState tabId now active state
  | DEBUG_SET_DSI v => updateDSI tabId now (set_dsi v state)
  end.

End Engine.

(** ** The event loop: ticks that overlap *)

Module Schedule.
Import Engine.

(** A tab's state object and the calls of [updateDSI] on it that are
    suspended at an [await], oldest first. *)
Record Tab := mkTab {
  tabState : TabState;
  suspended : list Await
}.

(** One turn of the service worker's event loop for the tab: the interval
    fires and a call of [updateDSI] starts; the promise awaited by the [i]-th
    suspended call settles and that call continues; a [BEHAVIOR_DATA] message
    is handled.  [setInterval] starts a call every second whether or not the
    previous one has finished, and promises settle in any order. *)
Inductive Turn :=
  | Starts (now : float)
  | Resumes (i : nat)
  | Reports (now : float) (payload : BehaviorData.t).

Definition turn (tabId : N) (t : Turn) (tab : Tab) : Tab * list Effect :=
  match t with
  | Starts now =>
      let '(state, effects, a) := updateDSI_start tabId now (tabState tab) in
      (mkTab state (suspended tab ++ option_list a), effects)
  | Resumes i =>
      match suspended tab !! i with
      | None => (tab, [])
      | Some a =>
          let '(state, effects, a') :=
            updateDSI_resume tabId a (tabState tab) in
          (mkTab state (delete i (suspended tab) ++ option_list a'), effects)
      end
  | Reports now payload =>
      (mkTab (handleBehaviorData now payload (tabState tab)) (suspended tab),
       [])
  end.

(** The tabs after each turn, and the effects requested, in order. *)
Fixpoint trace (tabId : N) (turns : list Turn) (tab : Tab) : list Tab :=
  match turns with
  | [] => []
  | t :: rest =>
      let tab' := fst (turn tabId t tab) in
      tab' :: trace tabId rest tab'
  end.

Fixpoint emitted (tabId : N) (turns : list Turn) (tab : Tab) : list Effect :=
  match turns with
  | [] => []
  | t :: rest =>
      snd (turn tabId t tab) ++ emitted tabId rest (fst (turn tabId t tab))
  end.

(** The score is in the band in which a tick attaches the suggestion
    [suggestionType]: above [LEVEL_2_THRESHOLD] and not above
    [LEVEL_2_SUGGEST] for [gentle], above [LEVEL_2_SUGGEST] and not above
    [LEVEL_3_THRESHOLD] for [strong]. *)
Definition in_band (suggestionType : SuggestionType) (dsi : float) : Prop :=
  match suggestionType with
  | gentle =>
      (dsi >? DSI_CONFIG.LEVEL_2_THRESHOLD) = true /\
      (dsi >? DSI_CONFIG.LEVEL_2_SUGGEST) = false
  | strong =>
      (dsi >? DSI_CONFIG.LEVEL_2_SUGGEST) = true /\
      (dsi >? DSI_CONFIG.LEVEL_3_THRESHOLD) = false
  end.

End Schedule.

(** ** The tab registry: [tabStates], [updateIntervals], timers, storage *)

Module Registry.
Import Engine.

(** The service worker's globals together with the parts of the browser
    they act on: [timers] is the host's table of running intervals (interval
    id to the tab whose [updateDSI] it calls), [storage] is
    [chrome.storage.local], [sent] the messages and badge updates issued so
    far, oldest first. *)
Record World := mkWorld {
  tabStates : gmap N TabState;
  updateIntervals : gmap N N;
  timers : gmap N N;
  nextIntervalId : N;
  storage : gmap string StorageValue;
  sent : list Effect
}.

Definition initial : World :=
  {| tabStates := ∅; updateIntervals := ∅; timers := ∅;
     nextIntervalId := 1; storage := ∅; sent := [] |}.

Definition storage_set (items : list (string * StorageValue))
    (m : gmap string StorageValue) : gmap string StorageValue :=
  foldl (fun m kv => <[kv.1 := kv.2]> m) m items.

Definition storage_remove (keys : list string)
    (m : gmap string StorageValue) : gmap string StorageValue :=
  foldl (fun m k => delete k m) m keys.

Definition perform (w : World) (e : Effect) : World :=
  match e with
  | StorageSet items =>
      mkWorld (tabStates w) (updateIntervals w) (timers w) (nextIntervalId w)
        (storage_set items (storage w)) (sent w)
  | StorageRemove keys =>
      mkWorld (tabStates w) (updateIntervals w) (timers w) (nextIntervalId w)
        (storage_remove keys (storage w)) (sent w)
  | _ =>
      mkWorld (tabStates w) (updateIntervals w) (timers w) (nextIntervalId w)
        (storage w) (sent w ++ [e])
  end.

Definition performAll (es : list Effect) (w : World) : World :=
  foldl perform w es.

Definition set_tabState (tabId : N) (state : TabState) (w : World) : World :=
  mkWorld (<[tabId := state]> (tabStates w)) (updateIntervals w) (timers w)
    (nextIntervalId w) (storage w) (sent w).

(** [getTabState]: the tab's state object, created when missing. *)
Definition getTabState (tabId : N) (now : float) (w : World)
  : TabState * World :=
  match tabStates w !! tabId with
  | Some state => (state, w)
  | None => (initTabState now, set_tabState tabId (initTabState now) w)
  end.

(** One call of [updateDSI(tabId)]. *)
Definition updateDSI (tabId : N) (now : float) (w : World) : World :=
  let '(state, w) := getTabState tabId now w in
  let '(state, effects) := Engine.updateDSI tabId now state in
  performAll effects (set_tabState tabId state w).

(** [startDSITimer] *)
Definition startDSITimer (tabId : N) (now : float) (w : World) : World :=
  match updateIntervals w !! tabId with
  | Some _ => w
  | None =>
      let w := set_tabState tabId (initTabState now) w in
      let intervalId := nextIntervalId w in
      mkWorld (tabStates w) (<[tabId := intervalId]> (updateIntervals w))
        (<[intervalId := tabId]> (timers w)) (N.succ intervalId)
        (storage w) (sent w)
  end.

(** [stopDSITimer] *)
Definition stopDSITimer (tabId : N) (w : World) : World :=
  match updateIntervals w !! tabId with
  | Some intervalId =>
      if N.eqb intervalId 0 then w
      else
        mkWorld (tabStates w) (delete tabId (updateIntervals w))
          (delete intervalId (timers w)) (nextIntervalId w)
          (storage w) (sent w)
  | None => w
  end.

(** The [chrome.tabs.onRemoved] listener. *)
Definition onRemoved (tabId : N) (w : World) : World :=
  let w := stopDSITimer tabId w in
  let w :=
    mkWorld (delete tabId (tabStates w)) (updateIntervals w) (timers w)
      (nextIntervalId w) (storage w) (sent w) in
  perform w (StorageRemove [key "dsi_" tabId; key "level_" tabId]).

(** The interval [intervalId] fires. *)
Definition timerFires (intervalId : N) (now : float) (w : World) : World :=
  match timers w !! intervalId with
  | Some tabId => updateDSI tabId now w
  | None => w
  end.

(** The [chrome.runtime.onMessage] listener for a message from tab
    [tabId]; a sender without a tab id is answered with an error. *)
Definition onMessage (tabId : N) (now : float) (message : Message)
    (w : World) : World :=
  if N.eqb tabId 0 then w
  else
    let '(state, w) := getTabState tabId now w in
    let '(state, effects) := Engine.onMessage tabId now message state in
    performAll effects (set_tabState tabId state w).

End Registry.

(** ** The content script's [BehaviorMonitor] *)

Module Monitor.
Import JS.

Module CONFIG.
Definition BEHAVIOR_SAMPLE_INTERVAL : float := 100.
Definition BEHAVIOR_REPORT_INTERVAL : float := 500.
Definition SCROLL_WINDOW_SIZE : float := 500.
Definition CLICK_WINDOW_SIZE : float := 1000.
End CONFIG.
Import CONFIG.

Record ScrollEvent := mkScrollEvent { time : float; position : float }.

(** [lastClickTime] is not assigned by the constructor: it is [undefined]
    ([None]) until the first click, and [now - undefined] is [NaN]. *)
Record BehaviorMonitor := mkBehaviorMonitor {
  scrollEvents : list ScrollEvent;
  clickEvents : list float;
  lastScrollPosition : float;
  lastScrollTime : float;
  scrollDirection : Z;
  directionChanges : float;
  lastClickPosition : float * float;
  lastClickTime : option float;
  rageClickCount : float
}.

(** The constructor, with [window.scrollY] and [Date.now()] as arguments. *)
Definition constructor (scrollY now : float) : BehaviorMonitor :=
  {| scrollEvents := [];
     clickEvents := [];
     lastScrollPosition := scrollY;
     lastScrollTime := now;
     scrollDirection := 0;
     directionChanges := 0;
     lastClickPosition := (0, 0);
     lastClickTime := None;
     rageClickCount := 0 |}.

Definition to_number (o : option float) : float := default nan o.

(** [handleScroll], with [Date.now()] and [window.scrollY] as arguments. *)
Definition handleScroll (now currentPosition : float) (this : BehaviorMonitor)
  : BehaviorMonitor :=
  let currentDirection :=
    if currentPosition >? lastScrollPosition this then 1%Z else (-1)%Z in
  let '(scrollDirection', directionChanges') :=
    if Math_abs (currentPosition - lastScrollPosition this) >? 10 then
      (currentDirection,
       if negb (Z.eqb (scrollDirection this) 0)
          && negb (Z.eqb currentDirection (scrollDirection this))
          && (now - lastScrollTime this <? 1000)
       then directionChanges this + 1 else directionChanges this)
    else (scrollDirection this, directionChanges this) in
  let events := scrollEvents this ++ [mkScrollEvent now currentPosition] in
  let cutoffTime := now - SCROLL_WINDOW_SIZE in
  {| scrollEvents := List.filter (fun e => time e >? cutoffTime) events;
     clickEvents := clickEvents this;
     lastScrollPosition := currentPosition;
     lastScrollTime := now;
     scrollDirection := scrollDirection';
     directionChanges := directionChanges';
     lastClickPosition := lastClickPosition this;
     lastClickTime := lastClickTime this;
     rageClickCount := rageClickCount this |}.

(** [handleClick], with [Date.now()], [event.clientX] and [event.clientY]
    as arguments; [Math.pow(d, 2)] is the product [d * d]. *)
Definition handleClick (now x y : float) (this : BehaviorMonitor)
  : BehaviorMonitor :=
  let dx := x - fst (lastClickPosition this) in
  let dy := y - snd (lastClickPosition this) in
  let dist := Math_sqrt (dx * dx + dy * dy) in
  let rageClickCount' :=
    if (dist <? 20) && (now - to_number (lastClickTime this) <? 500)
    then rageClickCount this + 1 else rageClickCount this in
  let clicks := clickEvents this ++ [now] in
  let cutoffTime := now - CLICK_WINDOW_SIZE in
  {| scrollEvents := scrollEvents this;
     clickEvents := List.filter (fun t => t >? cutoffTime) clicks;
     lastScrollPosition := lastScrollPosition this;
     lastScrollTime := lastScrollTime this;
     scrollDirection := scrollDirection this;
     directionChanges := directionChanges this;
     lastClickPosition := (x, y);
     lastClickTime := Some now;
     rageClickCount := rageClickCount' |}.

(** The loop of [calculateScrollSpeed]: the sum of the absolute
    differences of consecutive positions, from left to right. *)
Fixpoint totalDistance (acc : float) (previous : ScrollEvent)
    (events : list ScrollEvent) : float :=
  match events with
  | [] => acc
  | e :: rest =>
      totalDistance (acc + Math_abs (position e - position previous)) e rest
  end.

(** The length of an array as a number. *)
Definition length_number {A} (l : list A) : float :=
  foldl (fun n _ => n + 1) 0 l.

Definition calculateScrollSpeed (this : BehaviorMonitor) : float :=
  match scrollEvents this with
  | [] | [_] => 0
  | firstEvent :: rest =>
      let lastEvent := List.last rest firstEvent in
      let timeDelta := (time lastEvent - time firstEvent) / 1000 in
      if timeDelta <=? 0 then 0
      else totalDistance 0 firstEvent rest / timeDelta
  end.

Definition calculateClickFrequency (this : BehaviorMonitor) : float :=
  length_number (clickEvents this) / (CLICK_WINDOW_SIZE / 1000).

(** [reportBehavior]: the [BEHAVIOR_DATA] payload it sends, if any.
    [contextValid] is [chrome.runtime?.id]. *)
Definition reportBehavior (contextValid : bool) (now : float)
    (this : BehaviorMonitor) : option BehaviorData.t :=
  if negb contextValid then None
  else
    let scrollSpeed := calculateScrollSpeed this in
    let clickFrequency := calculateClickFrequency this in
    if (scrollSpeed >? 0) || (clickFrequency >? 0) then
      Some {| BehaviorData.scrollSpeed := Some scrollSpeed;
              BehaviorData.clickFrequency := Some clickFrequency;
              BehaviorData.pageType := None;
              BehaviorData.directionChanges := Some (directionChanges this);
              BehaviorData.rageClickCount := Some (rageClickCount this);
              BehaviorData.timestamp := Some now |}
    else None.

(** The callback that [reportBehavior] passes to [sendMessage]; it runs
    when the report has been answered. *)
Definition reportCallback (this : BehaviorMonitor) : BehaviorMonitor :=
  {| scrollEvents := scrollEvents this;
     clickEvents := clickEvents this;
     lastScrollPosition := lastScrollPosition this;
     lastScrollTime := lastScrollTime this;
     scrollDirection := scrollDirection this;
     directionChanges := Math_max 0 (directionChanges this - 1);
     lastClickPosition := lastClickPosition this;
     lastClickTime := lastClickTime this;
     rageClickCount := 0 |}.

(** A report interval: the report, and the monitor once the callback of
    a sent report has run. *)
Definition reportInterval (contextValid : bool) (now : float)
    (this : BehaviorMonitor) : option BehaviorData.t * BehaviorMonitor :=
  match reportBehavior contextValid now this with
  | Some payload => (Some payload, reportCallback this)
  | None => (None, this)
  end.

(** What the page does to the monitor: a scroll event, a click event, or
    the report interval fires (and the callback of a sent report runs). *)
Inductive Action :=
  | Scroll (now currentPosition : float)
  | Click (now x y : float)
  | Report (contextValid : bool) (now : float).

Definition act (a : Action) (this : BehaviorMonitor) : BehaviorMonitor :=
  match a with
  | Scroll now currentPosition => handleScroll now currentPosition this
  | Click now x y => handleClick now x y this
  | Report contextValid now => snd (reportInterval contextValid now this)
  end.

(** The monitors that a page can hold: built by the constructor, then
    changed by events with any clock values and coordinates. *)
Inductive reachable : BehaviorMonitor -> Prop :=
  | reachable_new (scrollY now : float) : reachable (constructor scrollY now)
  | reachable_act (a : Action) (this : BehaviorMonitor) :
      reachable this -> reachable (act a this).

(** Clicks at the times [times], oldest first, all at the point [(x, y)]. *)
Definition clicksAt (x y : float) (times : list float)
    (this : BehaviorMonitor) : BehaviorMonitor :=
  foldl (fun this now => handleClick now x y this) this times.

(** Each click follows the previous one by less than 500 ms, as
    [handleClick] measures it. *)
Fixpoint rapid (previous : float) (times : list float) : bool :=
  match times with
  | [] => true
  | now :: rest => (now - previous <? 500) && rapid now rest
  end.

(** A counter: a number that is neither [NaN] nor negative. *)
Definition counter (x : float) : Prop :=
  Number.not_nan x /\ (x <? 0) = false.

Definition counters (this : BehaviorMonitor) : Prop :=
  counter (directionChanges this) /\ counter (rageClickCount this).

End Monitor.

(** ** Sessions: what happens to one tab's state object *)

Module Session.
Import Engine.

(** Either the tab's interval fires (a tick) or the listener receives a
    message from the tab; [now] is the clock at that moment. *)
Inductive Event :=
  | Tick (now : float)
  | Receive (now : float) (message : Message).

Definition step (tabId : N) (e : Event) (state : TabState)
  : TabState * list Effect :=
  match e with
  | Tick now => updateDSI tabId now state
  | Receive now message => onMessage tabId now message state
  end.

Fixpoint run (tabId : N) (events : list Event) (state : TabState)
  : TabState :=
  match events with
  | [] => state
  | e :: rest => run tabId rest (fst (step tabId e state))
  end.

(** The debugging message [DEBUG_SET_DSI] writes its payload into the
    score; it is admitted with a finite number.  Every other event is
    admitted with any payload, [NaN] and negative numbers included. *)
Definition admissible (e : Event) : Prop :=
  match e with
  | Receive _ (DEBUG_SET_DSI v) => is_finite v = true
  | _ => True
  end.

(** The states a tab's state object can be in: created by [initTabState],
    then changed by admissible events. *)
Inductive reachable (tabId : N) : TabState -> Prop :=
  | reachable_init (now : float) : reachable tabId (initTabState now)
  | reachable_step (e : Event) (state : TabState) :
      reachable tabId state -> admissible e ->
      reachable tabId (fst (step tabId e state)).

(** An event that names no property of [Object.prototype] as a page type.
    ([CONTENT_READY] and [PAGE_INFO] carry a result of [detectPageType],
    which is one of six keys of [CONTEXT_WEIGHTS]; a [BEHAVIOR_DATA] payload
    carries whatever its sender wrote.)  [DEBUG_SET_DSI] is as in
    [admissible]. *)
Definition numeric (e : Event) : Prop :=
  match e with
  | Receive _ (BEHAVIOR_DATA payload) =>
      match BehaviorData.pageType payload with
      | Some pt => JS.inherited pt = false
      | None => True
      end
  | Receive _ (CONTENT_READY (Some pt)) | Receive _ (PAGE_INFO (Some pt)) =>
      JS.inherited pt = false
  | Receive _ (DEBUG_SET_DSI v) => is_finite v = true
  | _ => True
  end.

(** The score is within its limits. *)
Definition within_limits (state : TabState) : Prop :=
  (DSI_CONFIG.MIN_DSI <=? dsi state) = true /\
  (dsi state <=? DSI_CONFIG.MAX_DSI) = true.

(** The invariant of a session that received numeric events only: the
    score is within its limits, the context coefficient is a finite number,
    and the page type is no name inherited from [Object.prototype]. *)
Definition Inv (state : TabState) : Prop :=
  (DSI_CONFIG.MIN_DSI <=? dsi state) = true /\
  (dsi state <=? DSI_CONFIG.MAX_DSI) = true /\
  Number.finite (JS.ToNumber (contextCoefficient state)) /\
  JS.inherited (pageType state) = false.

(** The invariant of every session: the score is [NaN] or within its
    limits. *)
Definition within_limits_or_nan (state : TabState) : Prop :=
  is_nan (dsi state) = true \/ within_limits state.

(** [state'] differs from [state] at most in the fields that
    [calculateDSIDelta] assigns: [entropyScore], which becomes the entropy
    of [state], [isIdle] and [isDeepReading]. *)
Definition delta_frame (state state' : TabState) : Prop :=
  dsi state' = dsi state /\
  isTherapyActive state' = isTherapyActive state /\
  isReaderModeActive state' = isReaderModeActive state /\
  currentLevel state' = currentLevel state /\
  contextCoefficient state' = contextCoefficient state /\
  pageType state' = pageType state /\
  suggestionShown state' = suggestionShown state /\
  lastActivityTime state' = lastActivityTime state /\
  scrollSpeed state' = scrollSpeed state /\
  clickFrequency state' = clickFrequency state /\
  directionChanges state' = directionChanges state /\
  rageClickCount state' = rageClickCount state /\
  idleStartTime state' = idleStartTime state /\
  entropyScore state' = calculateEntropyScore state.

(** The states after each event of a run, in order. *)
Fixpoint trace (tabId : N) (events : list Event) (state : TabState)
  : list TabState :=
  match events with
  | [] => []
  | e :: rest =>
      let state' := fst (step tabId e state) in
      state' :: trace tabId rest state'
  end.

(** Ordinary operation: ticks and behaviour reports only. *)
Definition ordinary (e : Event) : Prop :=
  match e with
  | Tick _ | Receive _ (BEHAVIOR_DATA _) => True
  | _ => False
  end.

(** The score lies strictly between the exit threshold of level 1 (20) and
    its entry threshold [LEVEL_1_THRESHOLD] (35). *)
Definition between_exit_and_entry (state : TabState) : Prop :=
  (20 <? dsi state) = true /\ (dsi state <? DSI_CONFIG.LEVEL_1_THRESHOLD) = true.

(** A [SUGGESTION] message, as opposed to an [INTERVENTION]. *)
Definition is_suggestion (e : Effect) : bool :=
  match e with
  | SendSuggestion _ _ _ _ => true
  | _ => false
  end.

(** The messages that assign the score or rebuild the state object. *)
Definition resets (e : Event) : bool :=
  match e with
  | Receive _ RESET_DSI | Receive _ (CONTENT_READY _)
  | Receive _ (DEBUG_SET_DSI _) => true
  | _ => false
  end.

End Session.

(** ** The service worker: what happens to the registry *)

Module Worker.
Import Engine Registry.

(** A page finished loading or a tab was activated ([startDSITimer]), an
    interval fires, a message arrives from a tab, a tab is closed. *)
Inductive Happening :=
  | TabLoaded (tabId : N) (now : float)
  | IntervalFires (intervalId : N) (now : float)
  | MessageArrives (tabId : N) (now : float) (message : Message)
  | TabRemoved (tabId : N).

Definition happen (h : Happening) (w : World) : World :=
  match h with
  | TabLoaded tabId now => startDSITimer tabId now w
  | IntervalFires intervalId now => timerFires intervalId now w
  | MessageArrives tabId now message => Registry.onMessage tabId now message w
  | TabRemoved tabId => onRemoved tabId w
  end.

Definition admissible (h : Happening) : Prop :=
  match h with
  | MessageArrives _ now message =>
      Session.admissible (Session.Receive now message)
  | _ => True
  end.

Inductive reachable : World -> Prop :=
  | reachable_initial : reachable initial
  | reachable_happen (h : Happening) (w : World) :
      reachable w -> admissible h -> reachable (happen h w).

(** [updateIntervals] records exactly the running intervals: the tab
    recorded for an interval is the tab it ticks, and interval ids are
    positive and below the next id to be handed out. *)
Definition timers_consistent (w : World) : Prop :=
  (forall tabId intervalId,
     updateIntervals w !! tabId = Some intervalId <->
     timers w !! intervalId = Some tabId) /\
  (forall tabId intervalId,
     timers w !! intervalId = Some tabId ->
     (0 < intervalId < nextIntervalId w)%N) /\
  (0 < nextIntervalId w)%N.

(** The tab that a happening concerns; an interval concerns the tab it
    ticks, if it is running. *)
Definition subject (h : Happening) (w : World) : option N :=
  match h with
  | TabLoaded tabId _ | MessageArrives tabId _ _ | TabRemoved tabId =>
      Some tabId
  | IntervalFires intervalId _ => timers w !! intervalId
  end.

(** The prefixes of the per-tab keys of [chrome.storage.local]. *)
Definition key_prefixes : list string :=
  ["dsi_"; "level_"; "entropy_"; "inFlow_"].

(** An effect that concerns only the tab [tabId]: a message or a badge
    update for it, or a storage access to its keys. *)
Definition own_key (tabId : N) (k : string) : Prop :=
  exists prefix, In prefix key_prefixes /\ k = key prefix tabId.

Definition own_effect (tabId : N) (e : Effect) : Prop :=
  match e with
  | SendIntervention t _ | SendSuggestion t _ _ _ | SetBadge t _ _ =>
      t = tabId
  | StorageSet items => Forall (fun kv => own_key tabId (fst kv)) items
  | StorageRemove keys => Forall (own_key tabId) keys
  end.

(** A sequence of happenings, oldest first. *)
Fixpoint run (hs : list Happening) (w : World) : World :=
  match hs with
  | [] => w
  | h :: rest => run rest (happen h w)
  end.

(** Every running interval ticks a tab that has a state object. *)
Definition timers_have_state (w : World) : Prop :=
  forall intervalId tabId,
    timers w !! intervalId = Some tabId -> is_Some (tabStates w !! tabId).

(** A happening whose message, if it is one, is a numeric event of the
    session. *)
Definition numeric (h : Happening) : Prop :=
  match h with
  | MessageArrives _ now message =>
      Session.numeric (Session.Receive now message)
  | _ => True
  end.

(** Every state object in the registry satisfies [P]. *)
Definition sessions_satisfy (P : TabState -> Prop) (w : World) : Prop :=
  forall tabId state, tabStates w !! tabId = Some state -> P state.

End Worker.

(** ** Page types: [detectPageType] *)

Module PageType.

Definition SOCIAL_DOMAINS : list string :=
  ["twitter"; "facebook"; "instagram"; "tiktok"; "weibo"; "douyin";
   "xiaohongshu"; "zhihu"; "bilibili"].
Definition NEWS_DOMAINS : list string :=
  ["news"; "toutiao"; "sina"; "sohu"; "netease"; "163"; "qq.com/news"].
Definition VIDEO_DOMAINS : list string :=
  ["youtube"; "netflix"; "youku"; "iqiyi"; "bilibili"; "twitch"].
Definition DOC_DOMAINS : list string :=
  ["docs.google"; "notion"; "github"; "stackoverflow"; "wikipedia"; "mdn"].

(** [s.includes(d)]: [d] occurs in [s] at some position. *)
Fixpoint includes (s d : string) : bool :=
  String.prefix d s ||
  match s with
  | EmptyString => false
  | String _ rest => includes rest d
  end.

Section Detect.

(** [String.prototype.toLowerCase].  Unicode case mapping is not modelled:
    the function is a parameter, and what is proved of [detectPageType]
    holds for every lower-casing function. *)
Variable toLowerCase : string -> string.

Definition detectPageType (url : string) : string :=
  if String.eqb url "" then "other"
  else
    let lowerUrl := toLowerCase url in
    if existsb (fun d => includes lowerUrl d) SOCIAL_DOMAINS then "social"
    else if existsb (fun d => includes lowerUrl d) NEWS_DOMAINS then "news"
    else if existsb (fun d => includes lowerUrl d) VIDEO_DOMAINS then "video"
    else if existsb (fun d => includes lowerUrl d) DOC_DOMAINS then "document"
    else if includes lowerUrl "shop" || includes lowerUrl "taobao"
            || includes lowerUrl "jd.com" then "shopping"
    else "other".

End Detect.

(** Lower-casing of ASCII text, which is what [toLowerCase] does to a
    serialized URL such as [window.location.href]. *)
Definition lower (c : Ascii.ascii) : Ascii.ascii :=
  let n := Ascii.nat_of_ascii c in
  if (65 <=? n)%nat && (n <=? 90)%nat then Ascii.ascii_of_nat (n + 32)
  else c.

Fixpoint toLowerCaseASCII (s : string) : string :=
  match s with
  | EmptyString => EmptyString
  | String c rest => String (lower c) (toLowerCaseASCII rest)
  end.

End PageType.

(** ** The content script's displays: [DigitalAvatar], [StatusBubble],
    [SidebarPanel] *)

Module Display.
Import JS.

Inductive AvatarState := zen | distract | burnout | sleep | healing.
Inductive Theme := calm | warning | alert.

(** [DigitalAvatar.getStateByDSI] *)
Definition getStateByDSI (dsi : float) : AvatarState :=
  if dsi <=? 30 then zen
  else if dsi <=? 50 then distract
  else if dsi <=? 70 then burnout
  else if dsi <=? 85 then sleep
  else healing.

(** [StatusBubble.getStatusText]; the texts are those of the source, in
    UTF-8. *)
Definition getStatusText (dsi : float) : string :=
  if dsi <=? 30 then "状态极佳"
  else if dsi <=? 50 then "心流区间"
  else if dsi <=? 70 then "压力上升"
  else if dsi <=? 85 then "需要休息"
  else "高压预警".

(** [StatusBubble.getStatusEmoji] *)
Definition getStatusEmoji (dsi : float) : string :=
  if dsi <=? 30 then "😊"
  else if dsi <=? 50 then "🌿"
  else if dsi <=? 70 then "⚡"
  else if dsi <=? 85 then "⚠️"
  else "🚨".

(** [StatusBubble.getTheme] *)
Definition getTheme (dsi : float) : Theme :=
  if dsi <=? 50 then calm
  else if dsi <=? 70 then warning
  else alert.

(** The level that [SidebarPanel.updateDSI] displays: it is computed from
    [response.data.dsi || 0], not taken from the engine's level. *)
Definition calculatedLevel (responseDsi : float) : nat :=
  let dsi := responseDsi ||| 0 in
  if dsi >=? 80 then 3%nat
  else if dsi >=? 60 then 2%nat
  else if dsi >=? 30 then 1%nat
  else 0%nat.

End Display.

(** ** The content script's [InterventionManager]

    The manager is modelled by its level and its three mode flags; what it
    draws on the page is left out.  What the page contributes to its
    decisions is an argument: whether [extractContent()] finds an article,
    and whether the [p5] library is loaded. *)

Module Intervention.

Record InterventionManager := mkInterventionManager {
  currentLevel : nat;
  softModeActive : bool;
  readerModeActive : bool;
  therapyActive : bool;
  (** [p5Instance] is not [null] *)
  p5Instance : bool
}.

Record Page := mkPage {
  (** [extractContent()] returns an article *)
  extractable : bool;
  (** [typeof p5 !== 'undefined'] *)
  p5Defined : bool
}.

(** What the manager asks for, in program order: a message to the
    background script, a call of [askUserForIntervention], a call of
    [showSuggestion]. *)
Inductive Output :=
  | ToBackground (message : Message)
  | AskUserForIntervention (level : nat) (dsi : float)
  | ShowSuggestion (suggestionType : SuggestionType) (dsi : float).

Definition constructor : InterventionManager :=
  {| currentLevel := 0; softModeActive := false; readerModeActive := false;
     therapyActive := false; p5Instance := false |}.

Definition set_currentLevel (v : nat) (this : InterventionManager) :=
  mkInterventionManager v (softModeActive this) (readerModeActive this)
    (therapyActive this) (p5Instance this).
Definition set_softModeActive (v : bool) (this : InterventionManager) :=
  mkInterventionManager (currentLevel this) v (readerModeActive this)
    (therapyActive this) (p5Instance this).
Definition set_readerModeActive (v : bool) (this : InterventionManager) :=
  mkInterventionManager (currentLevel this) (softModeActive this) v
    (therapyActive this) (p5Instance this).
Definition set_therapyActive (v : bool) (this : InterventionManager) :=
  mkInterventionManager (currentLevel this) (softModeActive this)
    (readerModeActive this) v (p5Instance this).
Definition set_p5Instance (v : bool) (this : InterventionManager) :=
  mkInterventionManager (currentLevel this) (softModeActive this)
    (readerModeActive this) (therapyActive this) v.

Definition activateSoftMode (this : InterventionManager)
  : InterventionManager * list Output :=
  if softModeActive this then (this, [])
  else (set_softModeActive true this, []).

Definition deactivateSoftMode (this : InterventionManager)
  : InterventionManager * list Output :=
  (set_softModeActive false this, []).

Definition activateReaderMode (page : Page) (this : InterventionManager)
  : InterventionManager * list Output :=
  if readerModeActive this then (this, [])
  else if negb (extractable page) then (this, [])
  else (set_readerModeActive true this,
        [ToBackground (READER_MODE_STATE true)]).

Definition deactivateReaderMode (this : InterventionManager)
  : InterventionManager * list Output :=
  (set_readerModeActive false this, [ToBackground (READER_MODE_STATE false)]).

(** [deactivateVisualTherapy(completed)]; the function is [async] but
    awaits nothing, so it runs to its end when called. *)
Definition deactivateVisualTherapy (completed : bool)
    (this : InterventionManager) : InterventionManager * list Output :=
  let this := set_p5Instance false this in
  let this := set_therapyActive false this in
  (this,
   ToBackground (THERAPY_ACTIVE false) ::
   (if completed
    then [ToBackground THERAPY_COMPLETED; ShowSuggestion gentle 45]
    else [])).

Definition activateVisualTherapy (page : Page) (this : InterventionManager)
  : InterventionManager * list Output :=
  let '(this, out1) :=
    if p5Instance this then deactivateVisualTherapy false this
    else (this, []) in
  if therapyActive this then (this, out1)
  else
    let this := if p5Defined page then set_p5Instance true this else this in
    let this := set_therapyActive true this in
    (this, out1 ++ [ToBackground (THERAPY_ACTIVE true)]).

(** [executeIntervention]: the user accepted the dialog for [level]. *)
Definition executeIntervention (page : Page) (level : nat)
    (this : InterventionManager) : InterventionManager * list Output :=
  let this := set_currentLevel level this in
  match level with
  | 1%nat => activateSoftMode this
  | 2%nat =>
      let '(this, out1) := activateSoftMode this in
      let '(this, out2) := activateReaderMode page this in
      (this, out1 ++ out2)
  | 3%nat =>
      let '(this, out1) := activateSoftMode this in
      let '(this, out2) := activateVisualTherapy page this in
      (this, out1 ++ out2)
  | _ => (this, [])
  end.

Definition clearHigherInterventions (targetLevel : nat)
    (this : InterventionManager) : InterventionManager * list Output :=
  let '(this, out1) :=
    if (targetLevel <? 3)%nat && therapyActive this
    then deactivateVisualTherapy false this else (this, []) in
  let '(this, out2) :=
    if (targetLevel <? 2)%nat && readerModeActive this
    then deactivateReaderMode this else (this, []) in
  let '(this, out3) :=
    if (targetLevel <? 1)%nat && softModeActive this
    then deactivateSoftMode this else (this, []) in
  (this, out1 ++ out2 ++ out3).

Definition deactivateAll (this : InterventionManager)
  : InterventionManager * list Output :=
  let '(this, out1) := deactivateSoftMode this in
  let '(this, out2) := deactivateReaderMode this in
  let '(this, out3) := deactivateVisualTherapy false this in
  (this, out1 ++ out2 ++ out3).

(** [handleIntervention]: an [INTERVENTION] message arrived. *)
Definition handleIntervention (payload : Intervention)
    (this : InterventionManager) : InterventionManager * list Output :=
  let level := iv_level payload in
  if (level <? currentLevel this)%nat then
    let '(this, out) := clearHigherInterventions level this in
    (set_currentLevel level this, out)
  else if Nat.eqb level 0 then
    let '(this, out) := deactivateAll this in
    (set_currentLevel 0 this, out)
  else if (currentLevel this <? level)%nat then
    (this, [AskUserForIntervention level (iv_dsi payload)])
  else (this, []).

(** An output that turns a mode on at the background script. *)
Definition activates (o : Output) : bool :=
  match o with
  | ToBackground (THERAPY_ACTIVE true)
  | ToBackground (READER_MODE_STATE true) => true
  | _ => false
  end.

End Intervention.

(** ** The exchange between a tab's content script and the background *)

Module Dialogue.
Import Engine Intervention.

(** One tab: the engine's state object, the content script's manager, and
    the messages under way in both directions, oldest first. *)
Record System := mkSystem {
  background : TabState;
  manager : InterventionManager;
  toContent : list Intervention;
  toBackground : list Message
}.

Definition initial (now : float) : System :=
  {| background := initTabState now; manager := constructor;
     toContent := []; toBackground := [] |}.

(** The [INTERVENTION] messages among the effects of a handler. *)
Definition interventions (effects : list Effect) : list Intervention :=
  omap (fun e => match e with
                 | SendIntervention _ payload => Some payload
                 | _ => None
                 end) effects.

(** The messages to the background script among the manager's outputs. *)
Definition messages (out : list Output) : list Message :=
  omap (fun o => match o with
                 | ToBackground message => Some message
                 | _ => None
                 end) out.

(** A script of the page sends [message] to the background script. *)
Definition send (message : Message) (sys : System) : System :=
  mkSystem (background sys) (manager sys) (toContent sys)
    (toBackground sys ++ [message]).

(** The content script's listener receives the oldest [INTERVENTION]. *)
Definition contentReceives (sys : System) : System :=
  match toContent sys with
  | [] => sys
  | payload :: rest =>
      let '(manager', out) := handleIntervention payload (manager sys) in
      mkSystem (background sys) manager' rest (toBackground sys ++ messages out)
  end.

(** The background script's listener receives the oldest message. *)
Definition backgroundReceives (tabId : N) (now : float) (sys : System)
  : System :=
  match toBackground sys with
  | [] => sys
  | message :: rest =>
      let '(state', effects) :=
        Engine.onMessage tabId now message (background sys) in
      mkSystem state' (manager sys) (toContent sys ++ interventions effects)
        rest
  end.

(** A round at clock value [now]: the content script handles one
    [INTERVENTION], then the background script handles two messages. *)
Definition round (tabId : N) (now : float) (sys : System) : System :=
  backgroundReceives tabId now
    (backgroundReceives tabId now (contentReceives sys)).

Definition rounds (tabId : N) (nows : list float) (sys : System) : System :=
  foldl (fun sys now => round tabId now sys) sys nows.

(** A level-0 [INTERVENTION] is under way to a manager whose level is 0,
    nothing is under way to the background script, and the score is not
    above [LEVEL_1_THRESHOLD]. *)
Definition echoing (sys : System) : Prop :=
  Intervention.currentLevel (manager sys) = 0%nat /\
  (exists payload, toContent sys = [payload] /\ iv_level payload = 0%nat) /\
  toBackground sys = [] /\
  (dsi (background sys) >? DSI_CONFIG.LEVEL_1_THRESHOLD) = false.

(** The user accepts the dialog for [level]: [executeIntervention] runs and
    its messages are sent. *)
Definition userAccepts (page : Page) (level : nat) (sys : System) : System :=
  let '(manager', out) := executeIntervention page level (manager sys) in
  mkSystem (background sys) manager' (toContent sys)
    (toBackground sys ++ messages out).

(** The user closes the reader overlay: [deactivateReaderMode] runs. *)
Definition userClosesReader (sys : System) : System :=
  let '(manager', out) := deactivateReaderMode (manager sys) in
  mkSystem (background sys) manager' (toContent sys)
    (toBackground sys ++ messages out).

(** Nothing is under way in either direction. *)
Definition quiet (sys : System) : Prop :=
  toContent sys = [] /\ toBackground sys = [].

(** The interval fires: a tick of the engine, whose [INTERVENTION]
    messages are sent to the content script. *)
Definition timerFires (tabId : N) (now : float) (sys : System) : System :=
  let '(state', effects) := Engine.updateDSI tabId now (background sys) in
  mkSystem state' (manager sys) (toContent sys ++ interventions effects)
    (toBackground sys).

(** The user accepts a 'strong' suggestion: [activateReaderMode] runs. *)
Definition userOpensReader (page : Page) (sys : System) : System :=
  let '(manager', out) := activateReaderMode page (manager sys) in
  mkSystem (background sys) manager' (toContent sys)
    (toBackground sys ++ messages out).

(** The therapy countdown ends ([completed]) or the user skips it:
    [deactivateVisualTherapy] runs. *)
Definition therapyEnds (completed : bool) (sys : System) : System :=
  let '(manager', out) := deactivateVisualTherapy completed (manager sys) in
  mkSystem (background sys) manager' (toContent sys)
    (toBackground sys ++ messages out).

(** [startDSITimer] for a tab that has no running interval (the first page
    load or activation of the tab, possibly after a message has already
    created its state object): [initTabState] replaces the state object. *)
Definition timerStarts (now : float) (sys : System) : System :=
  mkSystem (initTabState now) (manager sys) (toContent sys) (toBackground sys).

(** What can happen in the exchange during the life of one content script.
    The last four moves are the sidebar panel's: its poll ([GET_DSI]), its
    debug slider, and its reset button, which sends [RESET_DSI]. *)
Inductive Move :=
  | ContentReceives
  | BackgroundReceives (now : float)
  | TimerFires (now : float)
  | UserAccepts (page : Page) (level : nat)
  | UserOpensReader (page : Page)
  | UserClosesReader
  | TherapyEnds (completed : bool)
  | MonitorReports (payload : BehaviorData.t)
  | DebugSetsScore (dsi : float)
  | SidebarPolls
  | UserResets
  | TimerStarts (now : float).

Definition move (tabId : N) (sys : System) (m : Move) : System :=
  match m with
  | ContentReceives => contentReceives sys
  | BackgroundReceives now => backgroundReceives tabId now sys
  | TimerFires now => timerFires tabId now sys
  | UserAccepts page level => userAccepts page level sys
  | UserOpensReader page => userOpensReader page sys
  | UserClosesReader => userClosesReader sys
  | TherapyEnds completed => therapyEnds completed sys
  | MonitorReports payload => send (BEHAVIOR_DATA payload) sys
  | DebugSetsScore dsi => send (DEBUG_SET_DSI dsi) sys
  | SidebarPolls => send GET_DSI sys
  | UserResets => send RESET_DSI sys
  | TimerStarts now => timerStarts now sys
  end.

(** The moves that end in [initTabState] without the manager taking part:
    the reset button and the start of the timer. *)
Definition reinitialises (m : Move) : bool :=
  match m with
  | UserResets | TimerStarts _ => true
  | _ => false
  end.

Definition play (tabId : N) (moves : list Move) (sys : System) : System :=
  foldl (move tabId) sys moves.

(** The therapy flag and the reader-mode flag that the background script
    holds once it has handled [pending], given the flags it holds now. *)
Definition flagsAfter (pending : list Message) (flags : bool * bool)
  : bool * bool :=
  foldl (fun flags message =>
           match message with
           | THERAPY_ACTIVE active => (active, snd flags)
           | THERAPY_COMPLETED => (false, snd flags)
           | READER_MODE_STATE active => (fst flags, active)
           | RESET_DSI | CONTENT_READY _ => (false, false)
           | _ => flags
           end) flags pending.

(** The manager's therapy flag and reader-mode flag. *)
Definition flags (this : InterventionManager) : bool * bool :=
  (therapyActive this, readerModeActive this).

(** The background script's mode flags, once the messages under way have
    arrived, are the manager's. *)
Definition mirrored (sys : System) : Prop :=
  flagsAfter (toBackground sys)
    (isTherapyActive (background sys), isReaderModeActive (background sys)) =
  (therapyActive (manager sys), readerModeActive (manager sys)).

(** Each flag of [f] is set only if that of [g] is. *)
Definition flags_le (f g : bool * bool) : bool :=
  implb (fst f) (fst g) && implb (snd f) (snd g).

(** The background script's mode flags, once the messages under way have
    arrived, are set only where the manager's are. *)
Definition covered (sys : System) : Prop :=
  flags_le
    (flagsAfter (toBackground sys)
       (isTherapyActive (background sys), isReaderModeActive (background sys)))
    (flags (manager sys)) = true.

End Dialogue.

(** ** Facts about binary64 arithmetic

    The primitive operations are specified by [FloatAxioms] through
    [SpecFloat]; the lemmas below track which results can be [NaN]. *)

Module FloatFacts.

Import Number.

Section Rounding.
Variables prec emax : Z.

Lemma shr_1_nonneg mrs : (0 <= shr_m mrs)%Z -> (0 <= shr_m (shr_1 mrs))%Z.
Proof.
  destruct mrs as [m r s]; simpl.
  destruct m as [|p|p]; simpl; try lia; destruct p; simpl; lia.
Qed.

Lemma iter_pos_shr_1_nonneg p :
  forall mrs, (0 <= shr_m mrs)%Z -> (0 <= shr_m (SpecFloat.iter_pos shr_1 p mrs))%Z.
Proof.
  induction p as [p IH|p IH|]; intros mrs Hm; simpl.
  - apply IH, IH, shr_1_nonneg, Hm.
  - apply IH, IH, Hm.
  - apply shr_1_nonneg, Hm.
Qed.

Lemma shr_nonneg mrs e n :
  (0 <= shr_m mrs)%Z -> (0 <= shr_m (fst (shr mrs e n)))%Z.
Proof.
  intros Hm. destruct n; simpl; auto using iter_pos_shr_1_nonneg.
Qed.

Lemma shr_record_of_loc_m m l : shr_m (shr_record_of_loc m l) = m.
Proof. destruct l as [|[]]; reflexivity. Qed.

Lemma shr_fexp_nonneg m e l :
  (0 <= m)%Z -> (0 <= shr_m (fst (shr_fexp prec emax m e l)))%Z.
Proof.
  intros Hm. unfold shr_fexp. apply shr_nonneg.
  rewrite shr_record_of_loc_m. exact Hm.
Qed.

Lemma round_nearest_even_nonneg m l :
  (0 <= m)%Z -> (0 <= round_nearest_even m l)%Z.
Proof.
  intros Hm. destruct l as [|[]]; simpl; try lia.
  destruct (Z.even m); lia.
Qed.

Lemma binary_round_aux_not_nan sx mx ex lx :
  (0 <= mx)%Z -> binary_round_aux prec emax sx mx ex lx <> S754_nan.
Proof.
  intros Hm. unfold binary_round_aux.
  pose proof (shr_fexp_nonneg mx ex lx Hm) as H1.
  destruct (shr_fexp prec emax mx ex lx) as [mrs' e']; simpl in H1.
  pose proof (shr_fexp_nonneg
    (round_nearest_even (shr_m mrs') (loc_of_shr_record mrs')) e' loc_Exact
    (round_nearest_even_nonneg _ _ H1)) as H2.
  destruct (shr_fexp prec emax _ e' loc_Exact) as [mrs'' e'']; simpl in H2.
  destruct (shr_m mrs'') as [|m|m]; try discriminate; try lia.
  destruct (e'' <=? emax - prec)%Z; discriminate.
Qed.

Lemma binary_round_not_nan sx mx ex :
  binary_round prec emax sx mx ex <> S754_nan.
Proof.
  unfold binary_round.
  destruct (shl_align mx ex _) as [mz ez].
  apply binary_round_aux_not_nan. lia.
Qed.

Lemma binary_normalize_not_nan m e sz :
  binary_normalize prec emax m e sz <> S754_nan.
Proof.
  destruct m; simpl; [discriminate | apply binary_round_not_nan ..].
Qed.

Lemma SFadd_not_nan a b :
  SFfinite a = true -> b <> S754_nan -> SFadd prec emax a b <> S754_nan.
Proof.
  intros Ha Hb.
  destruct a as [sa|sa| |sa ma ea]; try discriminate;
    destruct b as [sb|sb| |sb mb eb]; try congruence; simpl;
    try discriminate; try apply binary_normalize_not_nan.
  destruct sa, sb; discriminate.
Qed.

Lemma SFsub_not_nan a b :
  SFfinite a = true -> b <> S754_nan -> SFsub prec emax a b <> S754_nan.
Proof.
  intros Ha Hb.
  destruct a as [sa|sa| |sa ma ea]; try discriminate;
    destruct b as [sb|sb| |sb mb eb]; try congruence; simpl;
    try discriminate; try apply binary_normalize_not_nan.
  destruct sa, sb; discriminate.
Qed.

Lemma SFmul_not_nan_r a b :
  a <> S754_nan -> SFnonzero b = true -> SFmul prec emax a b <> S754_nan.
Proof.
  intros Ha Hb.
  destruct b as [sb|sb| |sb mb eb]; try discriminate.
  destruct a as [sa|sa| |sa ma ea]; try congruence; simpl;
    try discriminate.
  apply binary_round_aux_not_nan. lia.
Qed.

Lemma SFmul_not_nan_fin a b :
  SFfinite a = true -> SFfinite b = true -> SFmul prec emax a b <> S754_nan.
Proof.
  intros Ha Hb.
  destruct a as [sa|sa| |sa ma ea]; try discriminate;
    destruct b as [sb|sb| |sb mb eb]; try discriminate; simpl;
    try discriminate.
  apply binary_round_aux_not_nan. lia.
Qed.

Lemma SFopp_not_nan a : a <> S754_nan -> SFopp a <> S754_nan.
Proof. destruct a; simpl; congruence. Qed.

End Rounding.

Lemma SFcompare_refl f : f <> S754_nan -> SFcompare f f = Some Eq.
Proof.
  destruct f as [s|s| |s m e]; try congruence; simpl.
  - reflexivity.
  - destruct s; reflexivity.
  - intros _. rewrite Z.compare_refl, Pos.compare_cont_refl.
    destruct s; reflexivity.
Qed.

Lemma is_nan_SF x : is_nan x = true <-> Prim2SF x = S754_nan.
Proof.
  unfold is_nan. rewrite FloatAxioms.eqb_spec. unfold SFeqb. split.
  - destruct (Prim2SF x) eqn:E; try reflexivity;
      rewrite SFcompare_refl by discriminate; discriminate.
  - intros ->. reflexivity.
Qed.

Lemma not_nan_SF x : not_nan x <-> Prim2SF x <> S754_nan.
Proof.
  unfold not_nan. rewrite <- is_nan_SF. destruct (is_nan x); split; congruence.
Qed.

Lemma finite_not_nan x : finite x -> not_nan x.
Proof.
  unfold finite. rewrite not_nan_SF. destruct (Prim2SF x); discriminate.
Qed.

Lemma finite_nonzero_finite x : finite_nonzero x -> finite x.
Proof. unfold finite, finite_nonzero. destruct (Prim2SF x); auto. Qed.

Lemma add_not_nan x y : finite x -> not_nan y -> not_nan (x + y).
Proof.
  unfold finite. rewrite !not_nan_SF, FloatAxioms.add_spec. apply SFadd_not_nan.
Qed.

Lemma sub_not_nan x y : finite x -> not_nan y -> not_nan (x - y).
Proof.
  unfold finite. rewrite !not_nan_SF, FloatAxioms.sub_spec. apply SFsub_not_nan.
Qed.

Lemma mul_not_nan_r x y : not_nan x -> finite_nonzero y -> not_nan (x * y).
Proof.
  unfold finite_nonzero. rewrite !not_nan_SF, FloatAxioms.mul_spec. apply SFmul_not_nan_r.
Qed.

Lemma mul_not_nan_fin x y : finite x -> finite y -> not_nan (x * y).
Proof.
  unfold finite. rewrite !not_nan_SF, FloatAxioms.mul_spec. apply SFmul_not_nan_fin.
Qed.

Lemma opp_not_nan x : not_nan x -> not_nan (- x).
Proof. rewrite !not_nan_SF, FloatAxioms.opp_spec. apply SFopp_not_nan. Qed.

(** Comparisons against [NaN] are false. *)
Lemma ltb_nan_l x y : is_nan x = true -> (x <? y) = false.
Proof.
  rewrite is_nan_SF, FloatAxioms.ltb_spec. intros ->. reflexivity.
Qed.

Lemma ltb_nan_r x y : is_nan y = true -> (x <? y) = false.
Proof.
  rewrite is_nan_SF, FloatAxioms.ltb_spec. intros ->. unfold SFltb.
  destruct (Prim2SF x); reflexivity.
Qed.

Lemma leb_nan_l x y : is_nan x = true -> (x <=? y) = false.
Proof.
  rewrite is_nan_SF, FloatAxioms.leb_spec. intros ->. reflexivity.
Qed.

Lemma leb_nan_r x y : is_nan y = true -> (x <=? y) = false.
Proof.
  rewrite is_nan_SF, FloatAxioms.leb_spec. intros ->. unfold SFleb.
  destruct (Prim2SF x); reflexivity.
Qed.

Lemma ltb_leb x y : (x <? y) = true -> (x <=? y) = true.
Proof.
  rewrite FloatAxioms.ltb_spec, FloatAxioms.leb_spec. unfold SFltb, SFleb.
  destruct (SFcompare _ _) as [[]|]; congruence.
Qed.

(** On numbers that are not [NaN] the order is total. *)
Lemma SFcompare_antisym a b c :
  SFcompare a b = Some c -> SFcompare b a = Some (CompOpp c).
Proof.
  destruct a as [sa|sa| |sa ma ea], b as [sb|sb| |sb mb eb]; simpl;
    try discriminate; intros [= <-]; try (destruct sa; reflexivity);
    try reflexivity; try (destruct sa; reflexivity);
    try (destruct sb; reflexivity); try (destruct sa, sb; reflexivity).
  assert (Hm : Pos.compare_cont Eq mb ma = CompOpp (Pos.compare_cont Eq ma mb))
    by (rewrite (Pos.compare_cont_antisym ma mb Eq); reflexivity).
  rewrite (Z.compare_antisym ea eb), Hm.
  destruct sa, sb; simpl; try reflexivity;
    destruct (ea ?= eb)%Z; simpl; try reflexivity;
    destruct (Pos.compare_cont Eq ma mb); reflexivity.
Qed.

Lemma SFcompare_some a b :
  a <> S754_nan -> b <> S754_nan -> exists c, SFcompare a b = Some c.
Proof.
  destruct a, b; simpl; try congruence; eauto.
Qed.

Lemma ltb_false_leb x y :
  not_nan x -> not_nan y -> (x <? y) = false -> (y <=? x) = true.
Proof.
  rewrite !not_nan_SF, FloatAxioms.ltb_spec, FloatAxioms.leb_spec. intros Hx Hy.
  destruct (SFcompare_some _ _ Hx Hy) as [c Hc].
  unfold SFltb, SFleb. rewrite Hc, (SFcompare_antisym _ _ _ Hc).
  destruct c; simpl; congruence.
Qed.

Lemma leb_not_nan_l x y : (x <=? y) = true -> not_nan x.
Proof.
  intros H. unfold not_nan. destruct (is_nan x) eqn:E; [|reflexivity].
  rewrite (leb_nan_l _ y E) in H. discriminate.
Qed.

Lemma leb_not_nan_r x y : (x <=? y) = true -> not_nan y.
Proof.
  intros H. unfold not_nan. destruct (is_nan y) eqn:E; [|reflexivity].
  rewrite (leb_nan_r x _ E) in H. discriminate.
Qed.

(** A number between two finite numbers is finite. *)
Lemma between_finite lo hi x :
  finite lo -> finite hi ->
  (lo <=? x) = true -> (x <=? hi) = true -> finite x.
Proof.
  unfold finite. rewrite !FloatAxioms.leb_spec. unfold SFleb.
  destruct (Prim2SF lo) as [sl|sl| |sl ml el]; try discriminate;
    destruct (Prim2SF hi) as [sh|sh| |sh mh eh]; try discriminate;
    destruct (Prim2SF x) as [s|s| |s m e]; simpl; try reflexivity;
    try discriminate; destruct s; simpl; try discriminate;
    try (destruct sl; discriminate); try (destruct sh; discriminate).
Qed.

Lemma is_finite_finite x : is_finite x = true -> finite x.
Proof.
  unfold is_finite, is_infinity, finite.
  destruct (is_nan x) eqn:En; [discriminate|].
  rewrite FloatAxioms.eqb_spec, FloatAxioms.abs_spec. simpl.
  pose proof (proj1 (not_nan_SF x) En) as Hn.
  destruct (Prim2SF x) as [s|s| |s m e]; try reflexivity; try congruence.
  simpl. discriminate.
Qed.

Lemma SFcompare_Lt_trans a b c :
  SFcompare a b = Some Lt -> SFcompare b c = Some Lt ->
  SFcompare a c = Some Lt.
Proof.
  destruct a as [sa|sa| |sa ma ea], b as [sb|sb| |sb mb eb],
    c as [sc|sc| |sc mc ec]; simpl; try discriminate;
    try (destruct sa; discriminate); try (destruct sb; discriminate);
    try (destruct sc; discriminate); try (destruct sa, sb; discriminate);
    try (destruct sb, sc; discriminate); try (destruct sa, sc; discriminate);
    try (destruct sa, sb, sc; discriminate || reflexivity).
  change (Pos.compare_cont Eq ma mb) with (ma ?= mb)%positive.
  change (Pos.compare_cont Eq mb mc) with (mb ?= mc)%positive.
  change (Pos.compare_cont Eq ma mc) with (ma ?= mc)%positive.
  destruct sa, sb, sc; try discriminate; try reflexivity;
    destruct (Z.compare_spec ea eb), (Z.compare_spec eb ec),
      (Z.compare_spec ea ec); try discriminate; try lia; try reflexivity;
    destruct (Pos.compare_spec ma mb), (Pos.compare_spec mb mc),
      (Pos.compare_spec ma mc); simpl; try discriminate; try lia;
    reflexivity.
Qed.

Lemma ltb_trans x y z :
  (x <? y) = true -> (y <? z) = true -> (x <? z) = true.
Proof.
  rewrite !FloatAxioms.ltb_spec. unfold SFltb.
  destruct (SFcompare (Prim2SF x) (Prim2SF y)) as [[]|] eqn:E1; try discriminate.
  destruct (SFcompare (Prim2SF y) (Prim2SF z)) as [[]|] eqn:E2; try discriminate.
  rewrite (SFcompare_Lt_trans _ _ _ E1 E2). reflexivity.
Qed.

Lemma ltb_asym x y : (x <? y) = true -> (y <? x) = false.
Proof.
  rewrite !FloatAxioms.ltb_spec. unfold SFltb.
  destruct (SFcompare (Prim2SF x) (Prim2SF y)) as [[]|] eqn:E; try discriminate.
  rewrite (SFcompare_antisym _ _ _ E). reflexivity.
Qed.

Lemma leb_ltb_false x y : (x <=? y) = true -> (y <? x) = false.
Proof.
  rewrite FloatAxioms.ltb_spec, FloatAxioms.leb_spec. unfold SFltb, SFleb.
  destruct (SFcompare (Prim2SF x) (Prim2SF y)) as [[]|] eqn:E; try discriminate;
    rewrite (SFcompare_antisym _ _ _ E); reflexivity.
Qed.

(** The order is transitive, also across [<] and [<=]. *)
Ltac case_compare :=
  match goal with
  | H : context [(?a ?= ?b)%Z] |- _ => destruct (a ?= b)%Z
  | H : context [Pos.compare_cont Eq ?a ?b] |- _ =>
      destruct (Pos.compare_cont Eq a b)
  | |- context [(?a ?= ?b)%Z] => destruct (a ?= b)%Z
  | |- context [Pos.compare_cont Eq ?a ?b] =>
      destruct (Pos.compare_cont Eq a b)
  end.

Ltac case_signs :=
  repeat match goal with s : bool |- _ => destruct s end.

Lemma SFcompare_le_trans a b c c1 c2 :
  SFcompare a b = Some c1 -> SFcompare b c = Some c2 ->
  c1 <> Gt -> c2 <> Gt ->
  SFcompare a c = Some (match c1 with Eq => c2 | _ => Lt end).
Proof.
  destruct a as [sa|sa| |sa ma ea], b as [sb|sb| |sb mb eb],
    c as [sc|sc| |sc mc ec]; simpl; try discriminate;
    intros [= <-] [= <-] H1 H2;
    first
      [ revert H1 H2;
        change (Pos.compare_cont Eq ma mb) with (ma ?= mb)%positive;
        change (Pos.compare_cont Eq mb mc) with (mb ?= mc)%positive;
        change (Pos.compare_cont Eq ma mc) with (ma ?= mc)%positive;
        destruct sa, sb, sc; simpl; try congruence;
        destruct (Z.compare_spec ea eb), (Z.compare_spec eb ec),
          (Z.compare_spec ea ec); simpl; try congruence; try lia;
        destruct (Pos.compare_spec ma mb), (Pos.compare_spec mb mc),
          (Pos.compare_spec ma mc); simpl; try congruence; lia
      | case_signs; simpl in *; try congruence;
        repeat case_compare; simpl in *; congruence ].
Qed.

Lemma leb_trans x y z :
  (x <=? y) = true -> (y <=? z) = true -> (x <=? z) = true.
Proof.
  rewrite !FloatAxioms.leb_spec. unfold SFleb.
  destruct (SFcompare (Prim2SF x) (Prim2SF y)) as [c1|] eqn:E1; [|discriminate].
  destruct (SFcompare (Prim2SF y) (Prim2SF z)) as [c2|] eqn:E2; [|discriminate].
  intros H1 H2.
  rewrite (SFcompare_le_trans _ _ _ _ _ E1 E2) by (destruct c1, c2; discriminate).
  destruct c1, c2; try discriminate; reflexivity.
Qed.

Lemma ltb_leb_trans x y z :
  (x <? y) = true -> (y <=? z) = true -> (x <? z) = true.
Proof.
  rewrite !FloatAxioms.ltb_spec, FloatAxioms.leb_spec. unfold SFleb, SFltb.
  destruct (SFcompare (Prim2SF x) (Prim2SF y)) as [c1|] eqn:E1; [|discriminate].
  destruct (SFcompare (Prim2SF y) (Prim2SF z)) as [c2|] eqn:E2; [|discriminate].
  intros H1 H2.
  rewrite (SFcompare_le_trans _ _ _ _ _ E1 E2) by (destruct c1, c2; discriminate).
  destruct c1, c2; try discriminate; reflexivity.
Qed.

Lemma leb_ltb_trans x y z :
  (x <=? y) = true -> (y <? z) = true -> (x <? z) = true.
Proof.
  rewrite !FloatAxioms.ltb_spec, FloatAxioms.leb_spec. unfold SFleb, SFltb.
  destruct (SFcompare (Prim2SF x) (Prim2SF y)) as [c1|] eqn:E1; [|discriminate].
  destruct (SFcompare (Prim2SF y) (Prim2SF z)) as [c2|] eqn:E2; [|discriminate].
  intros H1 H2.
  rewrite (SFcompare_le_trans _ _ _ _ _ E1 E2) by (destruct c1, c2; discriminate).
  destruct c1, c2; try discriminate; reflexivity.
Qed.

Lemma leb_false_ltb x y :
  not_nan x -> not_nan y -> (x <=? y) = false -> (y <? x) = true.
Proof.
  rewrite !not_nan_SF, FloatAxioms.ltb_spec, FloatAxioms.leb_spec. intros Hx Hy.
  destruct (SFcompare_some _ _ Hx Hy) as [c Hc].
  unfold SFltb, SFleb. rewrite Hc, (SFcompare_antisym _ _ _ Hc).
  destruct c; simpl; congruence.
Qed.

Lemma ltb_not_nan_l x y : (x <? y) = true -> not_nan x.
Proof.
  intros H. apply ltb_leb in H. exact (leb_not_nan_l _ _ H).
Qed.

Lemma ltb_not_nan_r x y : (x <? y) = true -> not_nan y.
Proof.
  intros H. apply ltb_leb in H. exact (leb_not_nan_r _ _ H).
Qed.

(** Signs: sums, quotients and absolute values that are never negative. *)
Section Signs.
Variables prec emax : Z.

Lemma binary_round_aux_sign mx ex lx :
  SFnot_negative (binary_round_aux prec emax false mx ex lx) = true.
Proof.
  unfold binary_round_aux.
  destruct (shr_fexp prec emax mx ex lx) as [mrs' e'].
  destruct (shr_fexp prec emax _ e' loc_Exact) as [mrs'' e''].
  destruct (shr_m mrs'') as [|m|m]; try reflexivity.
  destruct (e'' <=? emax - prec)%Z; reflexivity.
Qed.

Lemma binary_round_sign mx ex :
  SFnot_negative (binary_round prec emax false mx ex) = true.
Proof.
  unfold binary_round. destruct (shl_align mx ex _) as [mz ez].
  apply binary_round_aux_sign.
Qed.

Lemma SFadd_not_negative a b :
  SFnot_negative a = true -> SFnot_negative b = true ->
  SFnot_negative (SFadd prec emax a b) = true.
Proof.
  destruct a as [sa|[]| |[] ma ea]; try discriminate;
    destruct b as [sb|[]| |[] mb eb]; try discriminate; simpl; intros _ _;
    try reflexivity; try (destruct sa, sb; reflexivity).
  destruct (shl_align ma ea (Z.min ea eb)) as [m1 e1].
  destruct (shl_align mb eb (Z.min ea eb)) as [m2 e2]. simpl.
  apply binary_round_sign.
Qed.

Lemma SFdiv_not_negative a b :
  SFnot_negative a = true -> SFnot_nonpositive b = true ->
  SFnot_negative (SFdiv prec emax a b) = true.
Proof.
  destruct a as [sa|[]| |[] ma ea]; try discriminate;
    destruct b as [sb|[]| |[] mb eb]; try discriminate; simpl; intros _ _;
    try reflexivity.
  destruct (SFdiv_core_binary prec emax (Z.pos ma) ea (Z.pos mb) eb)
    as [[mz ez] lz].
  apply binary_round_aux_sign.
Qed.

End Signs.

Lemma SFabs_not_negative a : SFnot_negative (SFabs a) = true.
Proof. destruct a; reflexivity. Qed.

Lemma not_negative_SF x :
  (x <? 0) = false <-> SFnot_negative (Prim2SF x) = true.
Proof.
  rewrite FloatAxioms.ltb_spec.
  change (Prim2SF 0) with (S754_zero false). unfold SFltb.
  destruct (Prim2SF x) as [s|[]| |[] m e]; simpl; split; congruence.
Qed.

Lemma not_nonpositive_SF x :
  (x <=? 0) = false <-> SFnot_nonpositive (Prim2SF x) = true.
Proof.
  rewrite FloatAxioms.leb_spec.
  change (Prim2SF 0) with (S754_zero false). unfold SFleb.
  destruct (Prim2SF x) as [s|[]| |[] m e]; simpl; split; congruence.
Qed.

Lemma abs_not_negative x : (abs x <? 0) = false.
Proof.
  rewrite not_negative_SF, FloatAxioms.abs_spec. apply SFabs_not_negative.
Qed.

Lemma add_not_negative x y :
  (x <? 0) = false -> (y <? 0) = false -> (x + y <? 0) = false.
Proof.
  rewrite !not_negative_SF, FloatAxioms.add_spec. apply SFadd_not_negative.
Qed.

Lemma div_not_negative x y :
  (x <? 0) = false -> (y <=? 0) = false -> (x / y <? 0) = false.
Proof.
  rewrite !not_negative_SF, not_nonpositive_SF, FloatAxioms.div_spec.
  apply SFdiv_not_negative.
Qed.

Lemma add_not_nan_r x y : not_nan x -> finite y -> not_nan (x + y).
Proof.
  unfold finite. rewrite !not_nan_SF, FloatAxioms.add_spec.
  intros Hx Hy.
  destruct (Prim2SF x) as [sa|sa| |sa ma ea]; try congruence;
    destruct (Prim2SF y) as [sb|sb| |sb mb eb]; try discriminate; simpl;
    try discriminate; try apply binary_normalize_not_nan.
  destruct sa, sb; discriminate.
Qed.

Lemma sub_not_nan_r x y : not_nan x -> finite y -> not_nan (x - y).
Proof.
  unfold finite. rewrite !not_nan_SF, FloatAxioms.sub_spec.
  intros Hx Hy.
  destruct (Prim2SF x) as [sa|sa| |sa ma ea]; try congruence;
    destruct (Prim2SF y) as [sb|sb| |sb mb eb]; try discriminate; simpl;
    try discriminate; try apply binary_normalize_not_nan.
  destruct sa, sb; discriminate.
Qed.

(** [x - x] is [+0] for a finite [x]. *)
Lemma sub_diag x : finite x -> x - x = 0.
Proof.
  unfold finite. intros Hx. apply Prim2SF_inj.
  rewrite FloatAxioms.sub_spec. change (Prim2SF 0) with (S754_zero false).
  destruct (Prim2SF x) as [s|s| |s m e]; try discriminate; simpl.
  - destruct s; reflexivity.
  - rewrite Z.min_id. destruct (shl_align m e e) as [m' e']. simpl.
    rewrite Z.sub_diag. reflexivity.
Qed.

Lemma sub_nan_r x y : is_nan y = true -> is_nan (x - y) = true.
Proof.
  rewrite !is_nan_SF, FloatAxioms.sub_spec. intros ->.
  destruct (Prim2SF x); reflexivity.
Qed.

(** Adding [0] changes no number but [-0]; numbers that compare equal to a
    finite non-zero number are that number. *)
Lemma add_zero_r x : not_negative_zero x -> x + 0 = x.
Proof.
  unfold not_negative_zero. intros Hx. apply Prim2SF_inj.
  rewrite FloatAxioms.add_spec. change (Prim2SF 0) with (S754_zero false).
  destruct (Prim2SF x) as [s|s| |s m e]; try reflexivity.
  destruct s; [congruence | reflexivity].
Qed.

Lemma SFcompare_Eq_finite a s m e :
  SFcompare a (S754_finite s m e) = Some Eq -> a = S754_finite s m e.
Proof.
  destruct a as [sa|sa| |sa ma ea]; simpl; try discriminate;
    try (destruct sa; discriminate); try (destruct s; discriminate).
  destruct sa, s; try discriminate;
    destruct (Z.compare_spec ea e); try discriminate;
    change (Pos.compare_cont Eq ma m) with (ma ?= m)%positive;
    destruct (Pos.compare_spec ma m); simpl; try discriminate;
    intros _; congruence.
Qed.

Lemma leb_not_ltb_eq x y :
  finite_nonzero y -> (x <=? y) = true -> (x <? y) = false -> x = y.
Proof.
  unfold finite_nonzero. rewrite FloatAxioms.leb_spec, FloatAxioms.ltb_spec.
  unfold SFleb, SFltb. intros Hy Hle Hlt. apply Prim2SF_inj.
  destruct (Prim2SF y) as [s|s| |s m e]; try discriminate.
  destruct (SFcompare (Prim2SF x) (S754_finite s m e)) as [[]|] eqn:E;
    try discriminate.
  apply SFcompare_Eq_finite, E.
Qed.

End FloatFacts.

(** ** Properties of the score engine *)

Module EngineFacts.
Import Number FloatFacts DSI_CONFIG JS Engine Session.

(** Three runs of the engine on concrete inputs. *)

(** All entropy conditions at once: the sum 1.6 is capped at 1. *)
Example entropy_is_capped :
  calculateEntropyScore
    (handleBehaviorData 100
       (BehaviorData.mk (Some 4000) (Some 6) None (Some 3) (Some 3) (Some 100))
       (initTabState 0)) = 1.
Proof. vm_compute. reflexivity. Qed.

(** A scroll of 4000 px/s on a social page: the tick adds
    [SCROLL_INCREMENT] times the context weight 1.3. *)
Example chaotic_scroll_on_social_page :
  let state :=
    run 7 [Receive 0 (PAGE_INFO (Some "social"));
           Receive 900 (BEHAVIOR_DATA
             (BehaviorData.mk (Some 4000) (Some 0) None (Some 0) (Some 0)
                (Some 900)));
           Tick 1000] (initTabState 0) in
  dsi state = 1.5 * 1.3 /\ currentLevel state = 0%nat.
Proof. vm_compute. split; reflexivity. Qed.

(** Deep reading on a document page: idle for more than ten seconds, the
    score stays at 0 and [isDeepReading] is set. *)
Example deep_reading_on_document_page :
  let state :=
    run 7 [Receive 0 (PAGE_INFO (Some "document")); Tick 11000]
      (initTabState 0) in
  dsi state = 0 /\ isDeepReading state = true.
Proof. vm_compute. split; reflexivity. Qed.

Lemma or_else_cases x d : (x ||| d) = x \/ (x ||| d) = d.
Proof. unfold or_else. destruct (truthy x); auto. Qed.

Lemma or_else_finite_nonzero x d :
  finite_nonzero x -> finite_nonzero d -> finite_nonzero (x ||| d).
Proof. intros. destruct (or_else_cases x d) as [-> | ->]; assumption. Qed.

Lemma or_else_finite x d : finite x -> finite d -> finite (x ||| d).
Proof. intros. destruct (or_else_cases x d) as [-> | ->]; assumption. Qed.

(** [v || d] is a finite number when [v] is one. *)
Lemma or_default_finite v d :
  finite (ToNumber v) -> finite d -> finite (ToNumber (or_default v d)).
Proof.
  intros Hv Hd. unfold or_default.
  destruct v as [|x|name]; cbn in *; try assumption.
  destruct (truthy x); assumption.
Qed.

Lemma CONTEXT_WEIGHTS_finite :
  map_Forall (fun _ w => finite_nonzero w) CONTEXT_WEIGHTS.
Proof.
  unfold CONTEXT_WEIGHTS.
  repeat (apply map_Forall_insert_2; [vm_compute; reflexivity|]).
  apply map_Forall_empty.
Qed.

Lemma DECAY_MULTIPLIERS_finite :
  map_Forall (fun _ w => finite_nonzero w) DECAY_MULTIPLIERS.
Proof.
  unfold DECAY_MULTIPLIERS.
  repeat (apply map_Forall_insert_2; [vm_compute; reflexivity|]).
  apply map_Forall_empty.
Qed.

(** A lookup that does not reach [Object.prototype] gives a number of the
    table or the default. *)
Lemma lookup_or_default_finite (o : gmap string float) pt :
  map_Forall (fun _ w => finite_nonzero w) o ->
  inherited pt = false ->
  finite_nonzero (ToNumber (or_default (get o pt) 1.0)).
Proof.
  intros Ho Hpt. unfold get.
  destruct (o !! pt) as [w|] eqn:E.
  - unfold or_default. cbn. pose proof (Ho pt w E) as Hw. cbn in Hw.
    destruct (truthy w); [exact Hw | vm_compute; reflexivity].
  - rewrite Hpt. vm_compute. reflexivity.
Qed.

Lemma getContextCoefficient_finite pt :
  inherited pt = false -> finite_nonzero (ToNumber (getContextCoefficient pt)).
Proof. apply lookup_or_default_finite, CONTEXT_WEIGHTS_finite. Qed.

Lemma pageDecayMultiplier_finite pt :
  inherited pt = false -> finite_nonzero (ToNumber (pageDecayMultiplier pt)).
Proof. apply lookup_or_default_finite, DECAY_MULTIPLIERS_finite. Qed.

(** A lookup of a name of [Object.prototype] that the table does not
    define gives the inherited function, and [ToNumber] of it is [NaN]. *)
Lemma lookup_inherited (o : gmap string float) pt d :
  o !! pt = None -> inherited pt = true ->
  or_default (get o pt) d = Inherited pt.
Proof. intros Ho Hpt. unfold get. rewrite Ho, Hpt. reflexivity. Qed.

(** The clamp of [updateDSI]. *)
Lemma clamp_bounded x :
  not_nan x ->
  (MIN_DSI <=? Math_max MIN_DSI (Math_min MAX_DSI x)) = true /\
  (Math_max MIN_DSI (Math_min MAX_DSI x) <=? MAX_DSI) = true.
Proof.
  intros Hx. unfold not_nan in Hx.
  unfold Math_min, MIN_DSI, MAX_DSI.
  change (is_nan 100) with false. rewrite Hx. simpl orb.
  destruct (100 <? x) eqn:H1; [vm_compute; auto|].
  destruct (x <? 100) eqn:H2; [|vm_compute; auto].
  unfold Math_max. change (is_nan 0) with false. rewrite Hx. simpl orb.
  destruct (0 <? x) eqn:H3; [split; apply ltb_leb; assumption|].
  destruct (x <? 0) eqn:H4; vm_compute; auto.
Qed.

(** Case analysis on a condition of the goal that contains no other
    condition. *)
Ltac split_if :=
  match goal with
  | |- context [if ?b then _ else _] =>
      lazymatch b with
      | context [if _ then _ else _] => fail
      | _ => destruct b eqn:?
      end
  end.

Ltac split_match :=
  match goal with
  | |- context [match ?o with Some _ => _ | None => _ end] =>
      destruct o eqn:?
  end.

(** [nn] proves that an arithmetic expression is not [NaN] from the
    finiteness of its leaves; closed leaves are evaluated. *)
Ltac has_var t := match t with context [?v] => is_var v end.

Ltac closed_tac :=
  lazymatch goal with
  | |- ?G => tryif has_var G then fail else (vm_compute; reflexivity)
  end.

Ltac fin :=
  first [assumption | apply finite_nonzero_finite; assumption | closed_tac].

Ltac finz := first [assumption | closed_tac].

Ltac nn :=
  lazymatch goal with
  | |- not_nan (- _) => apply opp_not_nan; nn
  | |- not_nan (_ + _) => apply add_not_nan; [fin | nn]
  | |- not_nan (_ - _) => apply sub_not_nan; [fin | nn]
  | |- not_nan (_ * _) =>
      first [ apply mul_not_nan_r; [nn | finz]
            | apply mul_not_nan_fin; [fin | fin] ]
  | |- not_nan _ => first [closed_tac | apply finite_not_nan; fin]
  end.

#[local] Opaque calculateEntropyScore pageDecayMultiplier isInFlowZone
  or_else or_default ToNumber JS.gt JS.ge PrimFloat.ltb PrimFloat.leb.

(** [calculateDSIDelta] assigns only [entropyScore], [isIdle] and
    [isDeepReading]. *)
Lemma calculateDSIDelta_frame now state :
  delta_frame state (snd (calculateDSIDelta now state)).
Proof.
  unfold calculateDSIDelta. cbn -[delta_frame].
  repeat split_if; unfold delta_frame; cbn; repeat split; congruence.
Qed.

(** The delta of a tick is a number whenever the score and the context
    coefficient are finite numbers and the page type is no name inherited
    from [Object.prototype], whatever the features and the clock are. *)
Lemma calculateDSIDelta_not_nan now state :
  finite (dsi state) -> finite (ToNumber (contextCoefficient state)) ->
  inherited (pageType state) = false ->
  not_nan (fst (calculateDSIDelta now state)).
Proof.
  intros Hd Hc Hpt.
  assert (Hcc : finite (ToNumber (or_default (contextCoefficient state) 1.0)))
    by (apply or_default_finite; [assumption | vm_compute; reflexivity]).
  pose proof (pageDecayMultiplier_finite (pageType state) Hpt) as Hm.
  unfold calculateDSIDelta. cbn.
  generalize dependent (ToNumber (or_default (contextCoefficient state) 1.0)).
  intros cc Hcc.
  generalize dependent (ToNumber (pageDecayMultiplier (pageType state))).
  intros pm Hm.
  repeat split_if; cbn;
    unfold THERAPY_BONUS, DECAY_FACTOR, DECAY_BASE_RATE, FLOW_RECOVERY,
      ACTIVE_RECOVERY_BASE, SCROLL_CHAOTIC_INCREMENT, CLICK_CHAOTIC_INCREMENT,
      SCROLL_INCREMENT, CLICK_INCREMENT; nn.
Qed.

(** What a tick does to the score, the context coefficient and the mode
    flags, in every branch of [updateDSI]. *)
Lemma updateDSI_frame tabId now state :
  let state' := fst (updateDSI tabId now state) in
  dsi state' =
    Math_max MIN_DSI
      (Math_min MAX_DSI (dsi state + fst (calculateDSIDelta now state))) /\
  contextCoefficient state' = contextCoefficient state /\
  isTherapyActive state' = isTherapyActive state /\
  isReaderModeActive state' = isReaderModeActive state.
Proof.
  unfold updateDSI.
  pose proof (calculateDSIDelta_frame now state) as Hf.
  destruct (calculateDSIDelta now state) as [delta st].
  destruct Hf as (Hd & Ht & Hr & Hl & Hc & _). cbn in Hd, Ht, Hr, Hl, Hc.
  cbn [fst snd].
  set (v := Math_max MIN_DSI (Math_min MAX_DSI (dsi st + delta))).
  destruct (deriveLevel (set_dsi v st)) as [newLevel suggestion].
  cbn. repeat first [split_if | split_match]; cbn; rewrite <- ?Hd;
    repeat split; congruence.
Qed.

(** A tick leaves the page type as it is. *)
Lemma updateDSI_pageType tabId now state :
  pageType (fst (updateDSI tabId now state)) = pageType state.
Proof.
  unfold updateDSI.
  pose proof (calculateDSIDelta_frame now state) as Hf.
  destruct (calculateDSIDelta now state) as [delta st].
  destruct Hf as (_ & _ & _ & _ & _ & Hpt & _). cbn in Hpt.
  cbn [fst snd].
  set (v := Math_max MIN_DSI (Math_min MAX_DSI (dsi st + delta))).
  destruct (deriveLevel (set_dsi v st)) as [newLevel suggestion].
  cbn. repeat first [split_if | split_match]; cbn; exact Hpt.
Qed.

Lemma Inv_finite_dsi state : Inv state -> finite (dsi state).
Proof.
  intros (H0 & H1 & _).
  apply (between_finite MIN_DSI MAX_DSI); auto; vm_compute; reflexivity.
Qed.

Lemma updateDSI_Inv tabId now state :
  finite (dsi state) -> finite (ToNumber (contextCoefficient state)) ->
  inherited (pageType state) = false ->
  Inv (fst (updateDSI tabId now state)).
Proof.
  intros Hd Hc Hpt.
  destruct (updateDSI_frame tabId now state) as (Hs & Hcc & _).
  unfold Inv. rewrite Hs, Hcc, updateDSI_pageType.
  pose proof (clamp_bounded (dsi state + fst (calculateDSIDelta now state))) as Hb.
  destruct Hb as [H0 H1].
  { apply add_not_nan; [assumption|].
    apply calculateDSIDelta_not_nan; assumption. }
  auto.
Qed.

Lemma Inv_init now : Inv (initTabState now).
Proof. repeat split; vm_compute; reflexivity. Qed.

Lemma Inv_setDetectedPageType detected state :
  match detected with Some pt => inherited pt = false | None => True end ->
  Inv state -> Inv (setDetectedPageType detected state).
Proof.
  intros Hpt (H0 & H1 & Hc & Hp). destruct detected as [pt|]; cbn;
    [|repeat split; auto].
  repeat split; auto.
  apply finite_nonzero_finite, getContextCoefficient_finite, Hpt.
Qed.

Lemma Inv_handleBehaviorData now data state :
  match BehaviorData.pageType data with
  | Some pt => inherited pt = false
  | None => True
  end ->
  Inv state -> Inv (handleBehaviorData now data state).
Proof.
  intros Hpt (H0 & H1 & Hc & Hp). unfold handleBehaviorData, Inv.
  destruct data as [ss cf pt dc rc ts]; cbn in *.
  destruct ss, cf, pt as [pt|], dc, rc; cbn;
    try destruct (String.eqb pt ""); cbn; repeat split; auto;
    apply finite_nonzero_finite, getContextCoefficient_finite, Hpt.
Qed.

Lemma Inv_handleTherapyCompletion tabId state :
  Inv state -> Inv (fst (handleTherapyCompletion tabId state)).
Proof.
  intros (H0 & H1 & Hc & Hp). unfold handleTherapyCompletion. cbn.
  split_if; cbn; repeat split; auto.
Qed.

Lemma Inv_onReaderModeState tabId now active state :
  Inv state -> Inv (fst (onReaderModeState tabId now active state)).
Proof.
  intros (H0 & H1 & Hc & Hp).
  unfold onReaderModeState, handleReaderModeExit.
  destruct active; cbn; repeat split_if; cbn; repeat split; auto.
Qed.

Lemma step_Inv tabId e state :
  Inv state -> numeric e -> Inv (fst (step tabId e state)).
Proof.
  intros HI Ha. pose proof HI as (H0 & H1 & Hc & Hp).
  destruct e as [now | now message]; cbn.
  - apply updateDSI_Inv; auto using Inv_finite_dsi.
  - destruct message; cbn in Ha |- *.
    + apply Inv_handleBehaviorData; assumption.
    + exact HI.
    + apply Inv_init.
    + apply Inv_setDetectedPageType; [|apply Inv_init].
      destruct detected; exact Ha.
    + apply Inv_setDetectedPageType; [|exact HI].
      destruct detected; exact Ha.
    + apply Inv_handleTherapyCompletion, HI.
    + repeat split; auto.
    + apply Inv_onReaderModeState, HI.
    + apply updateDSI_Inv; cbn; auto using is_finite_finite.
Qed.

(** A numeric event is an admissible one. *)
Lemma numeric_admissible e : numeric e -> admissible e.
Proof. destruct e as [now | now []]; cbn; auto. Qed.

Lemma run_Inv tabId events :
  forall state, Inv state -> Forall numeric events ->
  Inv (run tabId events state).
Proof.
  induction events as [|e rest IH]; intros state HI Hn; cbn; [exact HI|].
  inversion Hn; subst. apply IH; [apply step_Inv|]; assumption.
Qed.

(** The clamp gives [NaN] or a number within the limits. *)
Lemma clamp_bounded_or_nan x :
  let y := Math_max MIN_DSI (Math_min MAX_DSI x) in
  is_nan y = true \/ (MIN_DSI <=? y) = true /\ (y <=? MAX_DSI) = true.
Proof.
  cbn zeta. destruct (is_nan x) eqn:E.
  - left. unfold Math_max, Math_min. rewrite E, !orb_true_r. cbn. reflexivity.
  - right. apply clamp_bounded. exact E.
Qed.

Lemma updateDSI_within_limits_or_nan tabId now state :
  within_limits_or_nan (fst (updateDSI tabId now state)).
Proof.
  destruct (updateDSI_frame tabId now state) as (Hs & _). cbn zeta in Hs.
  unfold within_limits_or_nan, within_limits. rewrite Hs.
  apply clamp_bounded_or_nan.
Qed.

(** Every event, whatever its payload, keeps the score [NaN] or within the
    limits. *)
Lemma step_within_limits_or_nan tabId e state :
  within_limits_or_nan state ->
  within_limits_or_nan (fst (step tabId e state)).
Proof.
  intros HI.
  assert (Hc : forall c state', dsi state' = c ->
                 (MIN_DSI <=? c) = true -> (c <=? MAX_DSI) = true ->
                 within_limits_or_nan state').
  { intros c state' <- H0 H1. right. split; assumption. }
  assert (Hk : forall state', dsi state' = dsi state ->
                 within_limits_or_nan state').
  { intros state' Hd. unfold within_limits_or_nan, within_limits.
    rewrite Hd. exact HI. }
  destruct e as [now | now message]; cbn.
  - apply updateDSI_within_limits_or_nan.
  - destruct message; cbn.
    + apply Hk. unfold handleBehaviorData.
      destruct payload as [ss cf pt dc rc ts]; cbn.
      destruct ss, cf, pt as [pt|], dc, rc; cbn;
        try destruct (String.eqb pt ""); reflexivity.
    + exact HI.
    + apply (Hc 0); vm_compute; reflexivity.
    + destruct detected; apply (Hc 0); vm_compute; reflexivity.
    + destruct detected; apply Hk; reflexivity.
    + unfold handleTherapyCompletion. cbn. split_if; cbn.
      * apply (Hc 45); vm_compute; reflexivity.
      * apply Hk. reflexivity.
    + apply Hk. reflexivity.
    + unfold onReaderModeState, handleReaderModeExit. destruct active; cbn.
      * split_if; cbn; [apply (Hc 70); vm_compute; reflexivity|].
        apply Hk. reflexivity.
      * split_if; cbn; [apply (Hc 40); vm_compute; reflexivity|].
        apply Hk. reflexivity.
    + apply updateDSI_within_limits_or_nan.
Qed.

Lemma run_within_limits_or_nan tabId events :
  forall state, within_limits_or_nan state ->
  within_limits_or_nan (run tabId events state).
Proof.
  induction events as [|e rest IH]; intros state HI; cbn; [exact HI|].
  apply IH, step_within_limits_or_nan, HI.
Qed.

Lemma reachable_within_limits_or_nan tabId state :
  reachable tabId state -> within_limits_or_nan state.
Proof.
  induction 1 as [now | e state _ IH _].
  - right. split; vm_compute; reflexivity.
  - apply step_within_limits_or_nan, IH.
Qed.

(** The score after a tick is within the limits along every run of numeric
    events (behaviour reports with arbitrary numbers, [NaN] and negative
    values included, but no page type inherited from [Object.prototype]). *)
Lemma score_bounded_after_tick tabId now now0 events :
  Forall numeric events ->
  within_limits
    (fst (updateDSI tabId now (run tabId events (initTabState now0)))).
Proof.
  intros Hn.
  pose proof (run_Inv tabId events (initTabState now0) (Inv_init now0) Hn) as HI.
  pose proof (step_Inv tabId (Tick now) _ HI I) as (H0 & H1 & _).
  split; assumption.
Qed.

Lemma add_nan_r x y : is_nan y = true -> is_nan (x + y) = true.
Proof.
  rewrite !is_nan_SF, FloatAxioms.add_spec. intros ->.
  destruct (Prim2SF x) as [s|s| |s m e]; reflexivity.
Qed.

Lemma mul_nan_r x y : is_nan y = true -> is_nan (x * y) = true.
Proof.
  rewrite !is_nan_SF, FloatAxioms.mul_spec. intros ->.
  destruct (Prim2SF x) as [s|s| |s m e]; reflexivity.
Qed.

(** A state whose context coefficient is an inherited function: in Standard
    mode the first tick with meaningful activity and more than two direction
    changes makes the score [NaN], because the penalty is
    [SCROLL_CHAOTIC_INCREMENT * contextCoeff] and [ToNumber] of a function is
    [NaN]; neither [Math.min] nor [Math.max] brings [NaN] back. *)
Lemma chaotic_tick_with_inherited_coefficient tabId now state name :
  contextCoefficient state = Inherited name ->
  isTherapyActive state = false -> isReaderModeActive state = false ->
  (scrollSpeed state >? 50) = true ->
  (directionChanges state >? DIRECTION_CHANGE_CHAOTIC) = true ->
  is_nan (dsi (fst (updateDSI tabId now state))) = true.
Proof.
  intros Hc Ht Hr Hs Hd.
  destruct (updateDSI_frame tabId now state) as (Hu & _). cbn zeta in Hu.
  rewrite Hu. clear Hu.
  assert (Hn : is_nan (fst (calculateDSIDelta now state)) = true).
  { unfold calculateDSIDelta. cbn. rewrite Hc, Ht, Hr, Hs.
    with_strategy transparent [or_default ToNumber]
      (change (ToNumber (or_default (Inherited name) 1)) with nan).
    destruct (isIdle state || isDeepReading state); cbn; rewrite Hd; cbn;
      match goal with
      | |- context [?z <? 0] => rewrite (ltb_nan_l z 0 eq_refl)
      end; rewrite andb_false_r; reflexivity. }
  unfold Math_max, Math_min.
  rewrite (add_nan_r (dsi state) _ Hn), !orb_true_r. cbn. reflexivity.
Qed.

(** A behaviour report that names a property of [Object.prototype] as its
    page type stores the inherited function as the context coefficient. *)
Lemma report_with_inherited_page_type now data state pt :
  BehaviorData.pageType data = Some pt -> inherited pt = true ->
  contextCoefficient (handleBehaviorData now data state) = Inherited pt.
Proof.
  intros Hpt Hi. unfold handleBehaviorData.
  destruct data as [ss cf p dc rc ts]. cbn in Hpt. subst p.
  assert (He : String.eqb pt "" = false).
  { destruct (String.eqb pt "") eqn:E; [|reflexivity].
    apply String.eqb_eq in E. subst pt. discriminate. }
  assert (Hg : getContextCoefficient pt = Inherited pt).
  { unfold getContextCoefficient. apply lookup_inherited; [|exact Hi].
    unfold inherited, Object_prototype in Hi. cbn in Hi.
    repeat match type of Hi with
    | (String.eqb pt ?k || _)%bool = true =>
        let E := fresh "E" in
        destruct (String.eqb pt k) eqn:E;
          [apply String.eqb_eq in E; subst pt; vm_compute; reflexivity|];
          clear E; cbn [orb] in Hi
    end.
    discriminate. }
  cbn. destruct ss, cf, dc, rc; cbn; rewrite He; cbn; exact Hg.
Qed.


Lemma deriveLevel_ext s1 s2 :
  dsi s1 = dsi s2 -> isReaderModeActive s1 = isReaderModeActive s2 ->
  currentLevel s1 = currentLevel s2 -> deriveLevel s1 = deriveLevel s2.
Proof. unfold deriveLevel. intros -> -> ->. reflexivity. Qed.

(** Outside therapy mode the level at the end of a tick is the level that
    [deriveLevel] computes from the updated score, the reader flag and the
    level before the tick. *)
Lemma updateDSI_level tabId now state :
  isTherapyActive state = false ->
  currentLevel (fst (updateDSI tabId now state)) =
  fst (deriveLevel (set_dsi (dsi (fst (updateDSI tabId now state))) state)).
Proof.
  intros Ht.
  destruct (updateDSI_frame tabId now state) as (Hs & _). cbn zeta in Hs.
  rewrite Hs. clear Hs. unfold updateDSI.
  pose proof (calculateDSIDelta_frame now state) as Hf.
  destruct (calculateDSIDelta now state) as [delta st].
  destruct Hf as (Hd & Ht' & Hr & Hl & _). cbn in Hd, Ht', Hr, Hl.
  cbn [fst snd]. rewrite <- Hd.
  set (v := Math_max MIN_DSI (Math_min MAX_DSI (dsi st + delta))).
  rewrite (deriveLevel_ext (set_dsi v state) (set_dsi v st)) by (cbn; congruence).
  cbn [isTherapyActive set_dsi]. rewrite Ht', Ht.
  destruct (deriveLevel (set_dsi v st)) as [newLevel suggestion].
  cbn [fst]. destruct (Nat.eqb newLevel (currentLevel (set_dsi v st))) eqn:E.
  - apply Nat.eqb_eq in E. cbn [negb].
    destruct suggestion; repeat split_if; cbn; cbn in E; congruence.
  - cbn [negb]. repeat split_if; reflexivity.
Qed.

(** C2 (therapy lock).  A tick with [isTherapyActive] set ends at level 3
    whatever the score is, and it is the therapy branch alone that runs: the
    result is the state with the entropy recorded, the score moved by the
    therapy decay and the level set to 3, and the only effect is the
    intervention message sent when the level was not 3 yet; the reader flag,
    the features and the clock play no part, no suggestion is sent and
    nothing is written to storage. *)
Theorem therapy_locks_level_3 tabId now state :
  isTherapyActive state = true ->
  currentLevel (fst (updateDSI tabId now state)) = 3%nat /\
  updateDSI tabId now state =
    (let state1 := set_entropyScore (calculateEntropyScore state) state in
     let therapyDecay := - (THERAPY_BONUS + dsi state * DECAY_FACTOR) in
     let state2 :=
       set_dsi (Math_max MIN_DSI (Math_min MAX_DSI (dsi state + therapyDecay)))
         state1 in
     if Nat.eqb (currentLevel state) 3 then (state2, [])
     else (set_currentLevel 3 state2,
           triggerIntervention tabId now 3 (dsi state2) None
             (set_currentLevel 3 state2))).
Proof.
  intros Ht. unfold updateDSI, calculateDSIDelta. cbn.
  repeat (rewrite Ht; cbn).
  destruct (Nat.eqb (currentLevel state) 3) eqn:E; cbn; [|auto].
  apply Nat.eqb_eq in E. auto.
Qed.

Lemma therapy_locks_level_3_witness :
  let state :=
    run 7 [Receive 0 (DEBUG_SET_DSI 90); Receive 500 (THERAPY_ACTIVE true);
           Tick 1000; Tick 2000] (initTabState 0) in
  currentLevel (fst (updateDSI 7 3000 state)) = 3%nat /\
  updateDSI 7 3000 state =
    (let state1 := set_entropyScore (calculateEntropyScore state) state in
     let therapyDecay := - (THERAPY_BONUS + dsi state * DECAY_FACTOR) in
     let state2 :=
       set_dsi (Math_max MIN_DSI (Math_min MAX_DSI (dsi state + therapyDecay)))
         state1 in
     if Nat.eqb (currentLevel state) 3 then (state2, [])
     else (set_currentLevel 3 state2,
           triggerIntervention 7 3000 3 (dsi state2) None
             (set_currentLevel 3 state2))).
Proof.
  intros state. apply (therapy_locks_level_3 7 3000 state).
  vm_compute. reflexivity.
Defined.

(** C3 (reader floor).  A tick with reader mode active and therapy mode
    not active ends at level 3 when the updated score exceeds
    [LEVEL_3_THRESHOLD] (85) and at level 2 otherwise; so the level is at
    least 2. *)
Theorem reader_mode_floor tabId now state :
  isTherapyActive state = false ->
  isReaderModeActive state = true ->
  let state' := fst (updateDSI tabId now state) in
  currentLevel state' =
    (if dsi state' >? LEVEL_3_THRESHOLD then 3%nat else 2%nat) /\
  (2 <= currentLevel state')%nat.
Proof.
  intros Ht Hr state'. subst state'.
  rewrite (updateDSI_level tabId now state Ht).
  unfold deriveLevel. cbn [isReaderModeActive dsi set_dsi]. rewrite Hr.
  destruct (_ >? LEVEL_3_THRESHOLD); cbn; split; auto with arith.
Qed.

Lemma reader_mode_floor_witness :
  let state :=
    run 7 [Receive 0 (READER_MODE_STATE true); Tick 1000] (initTabState 0) in
  let state' := fst (updateDSI 7 2000 state) in
  currentLevel state' =
    (if dsi state' >? LEVEL_3_THRESHOLD then 3%nat else 2%nat) /\
  (2 <= currentLevel state')%nat.
Proof.
  intros state.
  apply (reader_mode_floor 7 2000 state); vm_compute; reflexivity.
Defined.

Lemma handleBehaviorData_frame now data state :
  let state' := handleBehaviorData now data state in
  dsi state' = dsi state /\
  currentLevel state' = currentLevel state /\
  isTherapyActive state' = isTherapyActive state /\
  isReaderModeActive state' = isReaderModeActive state /\
  suggestionShown state' = suggestionShown state /\
  lastActivityTime state' = now.
Proof.
  unfold handleBehaviorData. destruct data as [ss cf pt dc rc ts]; cbn.
  destruct ss, cf, pt as [pt|], dc, rc; cbn;
    try destruct (String.eqb pt ""); cbn; repeat split; reflexivity.
Qed.

Lemma reachable_run tabId events state :
  reachable tabId state -> Forall admissible events ->
  reachable tabId (run tabId events state).
Proof.
  intros Hr Ha. revert state Hr.
  induction Ha as [|e rest He _ IH]; intros state Hr; cbn; [assumption|].
  apply IH, reachable_step; assumption.
Qed.

Lemma gt_unfold a b : (a >? b) = (b <? a).
Proof. reflexivity. Qed.

(** One tick from level 1 in Standard mode: the level drops to 0 only
    when the updated score is not above 20, and it stays 1 while the score
    is strictly between 20 and 35. *)
Lemma level_1_tick tabId now state :
  isTherapyActive state = false ->
  isReaderModeActive state = false ->
  currentLevel state = 1%nat ->
  let state' := fst (updateDSI tabId now state) in
  (currentLevel state' = 0%nat -> (20 <? dsi state') = false) /\
  (between_exit_and_entry state' -> currentLevel state' = 1%nat).
Proof.
  intros Ht Hr Hl state'. subst state'.
  rewrite (updateDSI_level tabId now state Ht).
  unfold deriveLevel, between_exit_and_entry.
  set (d := dsi (fst (updateDSI tabId now state))).
  cbn [isReaderModeActive dsi set_dsi currentLevel].
  rewrite Hr, Hl. cbn [Nat.eqb andb]. rewrite !gt_unfold.
  unfold LEVEL_3_THRESHOLD, LEVEL_2_SUGGEST, LEVEL_2_THRESHOLD,
    LEVEL_1_THRESHOLD.
  split.
  - repeat split_if; cbn; congruence.
  - intros [H20 H35]. rewrite H20.
    assert (H85 : (85 <? d) = false).
    { destruct (85 <? d) eqn:E; [|reflexivity].
      pose proof (ltb_trans _ _ _ E H35) as C. vm_compute in C. discriminate. }
    assert (H72 : (72 <? d) = false).
    { destruct (72 <? d) eqn:E; [|reflexivity].
      pose proof (ltb_trans _ _ _ E H35) as C. vm_compute in C. discriminate. }
    rewrite H85, H72. repeat split_if; reflexivity.
Qed.

Lemma level_1_trace tabId events :
  forall state,
  isTherapyActive state = false ->
  isReaderModeActive state = false ->
  currentLevel state = 1%nat ->
  Forall ordinary events ->
  Forall between_exit_and_entry (trace tabId events state) ->
  Forall (fun s => currentLevel s = 1%nat) (trace tabId events state).
Proof.
  induction events as [|e rest IH]; intros state Ht Hr Hl Ho Hb; cbn;
    [constructor|].
  cbn in Hb. inversion Ho as [|? ? He Ho']; subst.
  inversion Hb as [|? ? Hb1 Hb']; subst.
  assert (H : isTherapyActive (fst (step tabId e state)) = false /\
              isReaderModeActive (fst (step tabId e state)) = false /\
              currentLevel (fst (step tabId e state)) = 1%nat).
  { destruct e as [now | now []]; cbn in He; try contradiction; cbn.
    - destruct (updateDSI_frame tabId now state) as (_ & _ & Ht' & Hr').
      cbn zeta in Ht', Hr'. rewrite Ht', Hr'. repeat split; try assumption.
      apply (level_1_tick tabId now state Ht Hr Hl). exact Hb1.
    - destruct (handleBehaviorData_frame now payload state)
        as (_ & Hl' & Ht' & Hr' & _).
      cbn zeta in Hl', Ht', Hr'. rewrite Hl', Ht', Hr'. auto. }
  destruct H as (Ht1 & Hr1 & Hl1).
  constructor; [assumption|]. apply IH; assumption.
Qed.

Lemma gt_false_trans a b x :
  (a <? b) = true -> (a <? x) = false -> (b <? x) = false.
Proof.
  intros Hab Hax. destruct (b <? x) eqn:E; [|reflexivity].
  rewrite (ltb_trans _ _ _ Hab E) in Hax. discriminate.
Qed.

(** From level 1 in Standard mode a tick ends at level 0 exactly when the
    updated score is not above 20. *)
Lemma level_1_exit tabId now state :
  isTherapyActive state = false ->
  isReaderModeActive state = false ->
  currentLevel state = 1%nat ->
  let state' := fst (updateDSI tabId now state) in
  currentLevel state' = 0%nat <-> (dsi state' >? 20) = false.
Proof.
  intros Ht Hr Hl state'. subst state'.
  rewrite (updateDSI_level tabId now state Ht).
  unfold deriveLevel.
  set (d := dsi (fst (updateDSI tabId now state))).
  cbn [isReaderModeActive dsi set_dsi currentLevel].
  rewrite Hr, Hl. cbn [Nat.eqb andb]. rewrite !gt_unfold.
  unfold LEVEL_3_THRESHOLD, LEVEL_2_SUGGEST, LEVEL_2_THRESHOLD,
    LEVEL_1_THRESHOLD.
  split.
  - repeat split_if; cbn; congruence.
  - intros H20.
    rewrite (gt_false_trans 20 85 d) by (try exact H20; reflexivity).
    rewrite (gt_false_trans 20 72 d) by (try exact H20; reflexivity).
    rewrite (gt_false_trans 20 65 d) by (try exact H20; reflexivity).
    rewrite (gt_false_trans 20 35 d) by (try exact H20; reflexivity).
    rewrite H20. reflexivity.
Qed.

(** C4 (hysteresis), amended.  In Standard mode, once the level is 1, a
    tick sets it back to 0 exactly when the updated score is not above the
    exit threshold 20, which for a score that is a number means at or below
    20 (level 1 is kept while score > 20), not merely below the entry
    threshold 35; and along every run of ticks and behaviour reports whose
    scores stay strictly between 20 and 35 the level stays 1.  The state is
    any state at level 1, as [updateDSI] can find it: also the one in which
    [DEBUG_SET_DSI] has just stored a score. *)
Theorem level_1_hysteresis tabId state :
  isTherapyActive state = false ->
  isReaderModeActive state = false ->
  currentLevel state = 1%nat ->
  (forall now,
     let state' := fst (updateDSI tabId now state) in
     (currentLevel state' = 0%nat <-> (dsi state' >? 20) = false) /\
     (is_nan (dsi state') = false ->
      (currentLevel state' = 0%nat <-> (dsi state' <=? 20) = true)) /\
     (between_exit_and_entry state' -> currentLevel state' = 1%nat)) /\
  (forall events,
     Forall ordinary events ->
     Forall between_exit_and_entry (trace tabId events state) ->
     Forall (fun s => currentLevel s = 1%nat) (trace tabId events state)).
Proof.
  intros Ht Hr Hl. split.
  - intros now state'.
    pose proof (level_1_exit tabId now state Ht Hr Hl) as He.
    destruct (level_1_tick tabId now state Ht Hr Hl) as [_ H1].
    fold state' in He, H1.
    split; [exact He|]. split; [|exact H1].
    intros Hn. rewrite He, gt_unfold. split.
    + intros H. apply ltb_false_leb; [vm_compute; reflexivity | exact Hn | exact H].
    + apply leb_ltb_false.
  - intros events. apply level_1_trace; assumption.
Qed.

Lemma level_1_hysteresis_witness :
  let state1 := run 7 [Receive 0 (DEBUG_SET_DSI 40)] (initTabState 0) in
  let state := set_dsi 20 state1 in
  (forall now,
     let state' := fst (updateDSI 7 now state) in
     (currentLevel state' = 0%nat <-> (dsi state' >? 20) = false) /\
     (is_nan (dsi state') = false ->
      (currentLevel state' = 0%nat <-> (dsi state' <=? 20) = true)) /\
     (between_exit_and_entry state' -> currentLevel state' = 1%nat)) /\
  (forall events,
     Forall ordinary events ->
     Forall between_exit_and_entry (trace 7 events state) ->
     Forall (fun s => currentLevel s = 1%nat) (trace 7 events state)).
Proof.
  intros state1 state. apply (level_1_hysteresis 7 state).
  - vm_compute. reflexivity.
  - vm_compute. reflexivity.
  - vm_compute. reflexivity.
Defined.

(** C4 as stated fails at the boundary: the debugging message sets the
    score of a level-1 tab to exactly 20 and runs a tick; the tick sets the
    level to 0 although the score, 20, is not strictly below 20. *)
Lemma level_1_exit_at_threshold_counterexample :
  let state1 := run 7 [Receive 0 (DEBUG_SET_DSI 40)] (initTabState 0) in
  let state2 := set_dsi 20 state1 in
  let state' := fst (updateDSI 7 1000 state2) in
  onMessage 7 1000 (DEBUG_SET_DSI 20) state1 = updateDSI 7 1000 state2 /\
  isTherapyActive state2 = false /\
  isReaderModeActive state2 = false /\
  currentLevel state2 = 1%nat /\
  currentLevel state' = 0%nat /\
  dsi state' = 20 /\
  (dsi state' <? 20) = false.
Proof. vm_compute. repeat split; reflexivity. Qed.

(** The effects of a tick outside therapy mode: an intervention when the
    level changes, otherwise a suggestion when one is due and none is
    pending; then the storage write of the four keys and the badge update. *)
Lemma updateDSI_effects tabId now state :
  isTherapyActive state = false ->
  let v := dsi (fst (updateDSI tabId now state)) in
  let newLevel := fst (deriveLevel (set_dsi v state)) in
  let suggestion := snd (deriveLevel (set_dsi v state)) in
  snd (updateDSI tabId now state) =
    (if negb (Nat.eqb newLevel (currentLevel state))
     then triggerIntervention tabId now newLevel v suggestion
            (set_entropyScore (calculateEntropyScore state) state)
     else match suggestion with
          | Some suggestionType =>
              if negb (suggestionShown state)
              then sendSuggestion tabId now v suggestionType else []
          | None => []
          end) ++
    [StorageSet
       [(key "dsi_" tabId, VNumber v);
        (key "level_" tabId, VLevel newLevel);
        (key "entropy_" tabId, VNumber (calculateEntropyScore state));
        (key "inFlow_" tabId, VBoolean (isInFlowZone v))];
     SetBadge tabId v newLevel].
Proof.
  intros Ht.
  destruct (updateDSI_frame tabId now state) as (Hs & _). cbn zeta in Hs.
  cbn zeta. rewrite Hs. clear Hs. unfold updateDSI.
  pose proof (calculateDSIDelta_frame now state) as Hf.
  destruct (calculateDSIDelta now state) as [delta st].
  destruct Hf as (Hd & Ht' & Hr' & Hl' & _ & Hpt & Hsh & _ & _ & _ & _ & _ & _ & He).
  cbn in Hd, Ht', Hr', Hl', Hsh, Hpt, He. cbn [fst snd]. rewrite <- Hd.
  set (v := Math_max MIN_DSI (Math_min MAX_DSI (dsi st + delta))).
  rewrite (deriveLevel_ext (set_dsi v state) (set_dsi v st)) by (cbn; congruence).
  cbn [isTherapyActive set_dsi]. rewrite Ht', Ht.
  destruct (deriveLevel (set_dsi v st)) as [newLevel suggestion].
  cbn [fst snd currentLevel suggestionShown set_dsi]. rewrite ?Hl', ?Hsh.
  destruct (Nat.eqb newLevel (currentLevel state)) eqn:E; cbn [negb].
  - apply Nat.eqb_eq in E.
    destruct suggestion; [destruct (negb (suggestionShown state))|];
      cbn; repeat split_if; cbn; rewrite ?He, ?Hl', ?E; reflexivity.
  - unfold triggerIntervention. cbn. repeat split_if; cbn;
      rewrite ?He, ?Hpt; reflexivity.
Qed.

(** C9 (level-2 thresholds), amended.  In Standard mode level 2 is entered
    at the single threshold [LEVEL_2_SUGGEST] (72), which is the "strong"
    sub-threshold itself: a tick ends at level 2 exactly when the updated
    score is above 72 and not above 85, and a tick that reaches this band from
    another level sends the level-2 intervention tagged [strong].  Only the
    gentle sub-threshold [LEVEL_2_THRESHOLD] (65) leaves the level alone: for
    65 < score <= 72 the tick ends at level 1, as it does for
    35 < score <= 65, and from level 1 with no suggestion pending it sends
    the [gentle] suggestion. *)
Theorem level_2_single_threshold tabId now state :
  isTherapyActive state = false ->
  isReaderModeActive state = false ->
  let state' := fst (updateDSI tabId now state) in
  let effects := snd (updateDSI tabId now state) in
  (currentLevel state' = 2%nat <->
     (dsi state' >? LEVEL_2_SUGGEST) = true /\
     (dsi state' >? LEVEL_3_THRESHOLD) = false) /\
  ((dsi state' >? LEVEL_2_THRESHOLD) = true ->
   (dsi state' >? LEVEL_2_SUGGEST) = false ->
   currentLevel state' = 1%nat /\
   (currentLevel state = 1%nat -> suggestionShown state = false ->
    In (SendSuggestion tabId (dsi state') gentle now) effects)) /\
  ((dsi state' >? LEVEL_1_THRESHOLD) = true ->
   (dsi state' >? LEVEL_2_THRESHOLD) = false ->
   currentLevel state' = 1%nat) /\
  ((dsi state' >? LEVEL_2_SUGGEST) = true ->
   (dsi state' >? LEVEL_3_THRESHOLD) = false ->
   currentLevel state <> 2%nat ->
   exists payload,
     In (SendIntervention tabId payload) effects /\
     iv_level payload = 2%nat /\ iv_suggestion payload = Some strong).
Proof.
  intros Ht Hr state' effects. subst state' effects.
  rewrite (updateDSI_effects tabId now state Ht).
  rewrite (updateDSI_level tabId now state Ht).
  set (v := dsi (fst (updateDSI tabId now state))).
  unfold deriveLevel. cbn [isReaderModeActive dsi set_dsi currentLevel].
  rewrite Hr. rewrite !gt_unfold.
  unfold LEVEL_3_THRESHOLD, LEVEL_2_SUGGEST, LEVEL_2_THRESHOLD,
    LEVEL_1_THRESHOLD.
  assert (C1 : (72 <? 85) = true) by (vm_compute; reflexivity).
  assert (C2 : (65 <? 85) = true) by (vm_compute; reflexivity).
  assert (C3 : (65 <? 72) = true) by (vm_compute; reflexivity).
  split; [split|split; [|split]].
  - repeat split_if; cbn; intros; try discriminate; auto.
  - intros [-> ->]. reflexivity.
  - intros H65 H72.
    rewrite (gt_false_trans 72 85 v C1 H72), H72, H65. cbn.
    split; [reflexivity|]. intros -> ->. unfold sendSuggestion. cbn.
    apply or_introl. reflexivity.
  - intros H35 H65.
    rewrite (gt_false_trans 65 85 v C2 H65), (gt_false_trans 65 72 v C3 H65).
    rewrite H65, H35. reflexivity.
  - intros H72 H85 Hne. rewrite H85, H72. cbn [fst snd].
    destruct (Nat.eqb 2 (currentLevel state)) eqn:E.
    + apply Nat.eqb_eq in E. congruence.
    + unfold triggerIntervention. cbn. eexists.
      split; [apply or_introl; reflexivity|]. cbn. auto.
Qed.

Lemma level_2_single_threshold_witness :
  let state :=
    run 7 [Receive 0 (DEBUG_SET_DSI 70);
           Receive 500 (BEHAVIOR_DATA
             (BehaviorData.mk (Some 100) (Some 0) None (Some 3) (Some 0)
                (Some 500)))]
      (initTabState 0) in
  let state' := fst (updateDSI 7 1000 state) in
  let effects := snd (updateDSI 7 1000 state) in
  (currentLevel state' = 2%nat <->
     (dsi state' >? LEVEL_2_SUGGEST) = true /\
     (dsi state' >? LEVEL_3_THRESHOLD) = false) /\
  ((dsi state' >? LEVEL_2_THRESHOLD) = true ->
   (dsi state' >? LEVEL_2_SUGGEST) = false ->
   currentLevel state' = 1%nat /\
   (currentLevel state = 1%nat -> suggestionShown state = false ->
    In (SendSuggestion 7 (dsi state') gentle 1000) effects)) /\
  ((dsi state' >? LEVEL_1_THRESHOLD) = true ->
   (dsi state' >? LEVEL_2_THRESHOLD) = false ->
   currentLevel state' = 1%nat) /\
  ((dsi state' >? LEVEL_2_SUGGEST) = true ->
   (dsi state' >? LEVEL_3_THRESHOLD) = false ->
   currentLevel state <> 2%nat ->
   exists payload,
     In (SendIntervention 7 payload) effects /\
     iv_level payload = 2%nat /\ iv_suggestion payload = Some strong).
Proof.
  intros state.
  apply (level_2_single_threshold 7 1000 state); vm_compute; reflexivity.
Defined.

(** C9 as stated fails for the strong sub-threshold: a tab at level 1 with
    score 70 receives a report with three direction changes; the tick adds 5,
    the score crosses 72 and the level changes from 1 to 2. *)
Lemma strong_threshold_changes_level_counterexample :
  let state :=
    run 7 [Receive 0 (DEBUG_SET_DSI 70);
           Receive 500 (BEHAVIOR_DATA
             (BehaviorData.mk (Some 100) (Some 0) None (Some 3) (Some 0)
                (Some 500)))]
      (initTabState 0) in
  let state' := fst (updateDSI 7 1000 state) in
  isTherapyActive state = false /\
  isReaderModeActive state = false /\
  currentLevel state = 1%nat /\
  dsi state = 70 /\
  (dsi state >? LEVEL_2_SUGGEST) = false /\
  dsi state' = 75 /\
  (dsi state' >? LEVEL_2_SUGGEST) = true /\
  (dsi state' >? LEVEL_3_THRESHOLD) = false /\
  currentLevel state' = 2%nat.
Proof. vm_compute. repeat split; reflexivity. Qed.

(** C5 (therapy completion), amended.  [handleTherapyCompletion], which is
    all the listener does for [THERAPY_COMPLETED], always clears the therapy
    flag; when the score exceeds 50 it sets the score to 45 and the level to
    0; otherwise it leaves the score and the level as they are. *)
Theorem therapy_completion_rebate tabId now state :
  let state' := fst (handleTherapyCompletion tabId state) in
  onMessage tabId now THERAPY_COMPLETED state =
    handleTherapyCompletion tabId state /\
  isTherapyActive state' = false /\
  (if dsi state >? 50
   then dsi state' = 45 /\ currentLevel state' = 0%nat
   else dsi state' = dsi state /\ currentLevel state' = currentLevel state).
Proof.
  intros state'. split; [reflexivity|]. subst state'.
  unfold handleTherapyCompletion. cbn.
  destruct (dsi state >? 50) eqn:E; cbn; auto.
Qed.

(** C5 as stated fails when therapy has already brought the score to 50
    or below: after eight therapy ticks from 90 the score is below 50, and
    completion leaves it where it is, with the level still 3. *)
Lemma therapy_completion_low_score_counterexample :
  let state :=
    run 7 [Receive 0 (DEBUG_SET_DSI 90); Receive 500 (THERAPY_ACTIVE true);
           Tick 1000; Tick 2000; Tick 3000; Tick 4000; Tick 5000; Tick 6000;
           Tick 7000; Tick 8000] (initTabState 0) in
  let state' := fst (handleTherapyCompletion 7 state) in
  isTherapyActive state = true /\
  currentLevel state = 3%nat /\
  (dsi state <=? 50) = true /\
  isTherapyActive state' = false /\
  dsi state' = dsi state /\
  (dsi state' =? 45) = false /\
  currentLevel state' = 3%nat.
Proof. vm_compute. repeat split; reflexivity. Qed.

(** C10 (reader-mode activation).  The [READER_MODE_STATE] handler with
    [active] not [false] sets the reader flag; when the score is below
    [LEVEL_2_THRESHOLD] (65) it sets the score to the threshold plus 5 (70)
    and sends one level-2 intervention, without any tick; when the score is
    at or above the threshold it leaves the score unchanged and sends
    nothing. *)
Theorem reader_mode_activation tabId now state :
  let state' := fst (onReaderModeState tabId now true state) in
  let effects := snd (onReaderModeState tabId now true state) in
  onMessage tabId now (READER_MODE_STATE true) state =
    onReaderModeState tabId now true state /\
  isReaderModeActive state' = true /\
  (if dsi state <? LEVEL_2_THRESHOLD
   then dsi state' = 70 /\
        effects =
          [SendIntervention tabId
             {| iv_level := 2; iv_dsi := 70; iv_suggestion := Some strong;
                iv_entropyScore := entropyScore state;
                iv_isInFlowZone := isInFlowZone 70;
                iv_pageType := pageType state; iv_timestamp := now |}]
   else dsi state' = dsi state /\ effects = []) /\
  ((LEVEL_2_THRESHOLD <=? dsi state) = true ->
   dsi state' = dsi state /\ effects = []).
Proof.
  intros state' effects. split; [reflexivity|]. subst state' effects.
  unfold onReaderModeState. cbn.
  destruct (dsi state <? LEVEL_2_THRESHOLD) eqn:E; cbn.
  - split; [reflexivity|]. split; [auto|].
    intros Hge. apply leb_ltb_false in Hge. congruence.
  - split; [reflexivity|]. auto.
Qed.

(** C8 (invalid input), amended.  [handleBehaviorData] validates nothing
    and drops nothing: for every report it sets [lastActivityTime] to the
    clock, stores [Math.max] of the stored and the reported value for
    [scrollSpeed] and [clickFrequency] (so a reported [NaN] is stored as
    [NaN]) and stores the reported [directionChanges] and [rageClickCount] as
    they are, negative or [NaN] included; it leaves the score, the level and
    the mode flags unchanged. *)
Theorem behavior_report_not_validated now data state :
  let state' := handleBehaviorData now data state in
  lastActivityTime state' = now /\
  (forall v, BehaviorData.scrollSpeed data = Some v ->
     scrollSpeed state' = Math_max (scrollSpeed state) v /\
     (is_nan v = true -> is_nan (scrollSpeed state') = true)) /\
  (forall v, BehaviorData.clickFrequency data = Some v ->
     clickFrequency state' = Math_max (clickFrequency state) v /\
     (is_nan v = true -> is_nan (clickFrequency state') = true)) /\
  (forall v, BehaviorData.directionChanges data = Some v ->
     directionChanges state' = v) /\
  (forall v, BehaviorData.rageClickCount data = Some v ->
     rageClickCount state' = v) /\
  dsi state' = dsi state /\
  currentLevel state' = currentLevel state /\
  isTherapyActive state' = isTherapyActive state /\
  isReaderModeActive state' = isReaderModeActive state.
Proof.
  assert (Hmax : forall a v, is_nan v = true -> is_nan (Math_max a v) = true).
  { intros a v Hv. unfold Math_max. rewrite Hv, orb_true_r. reflexivity. }
  unfold handleBehaviorData. destruct data as [ss cf pt dc rc ts]; cbn.
  destruct ss, cf, pt as [pt|], dc, rc; cbn;
    try destruct (String.eqb pt ""); cbn; repeat split;
    try reflexivity; try discriminate; intros; simplify_eq; auto.
Qed.

(** C8 as stated fails: a report with [NaN] and negative values is stored
    in the state object, and it reaches the score computation: with the [NaN]
    scroll speed stored, a later valid report of 4000 px/s in the same second
    is absorbed by [Math.max], and the tick leaves the score at 0 where it
    would have been 1.5. *)
Lemma invalid_report_is_stored_counterexample :
  let state := initTabState 0 in
  let bad :=
    BehaviorData.mk (Some nan) (Some (-3)) None (Some (-1)) (Some nan)
      (Some (-5)) in
  let good :=
    BehaviorData.mk (Some 4000) (Some 0) None (Some 0) (Some 0) (Some 600) in
  let state1 := handleBehaviorData 500 bad state in
  is_nan (scrollSpeed state1) = true /\
  directionChanges state1 = -1 /\
  is_nan (rageClickCount state1) = true /\
  lastActivityTime state = 0 /\ lastActivityTime state1 = 500 /\
  dsi (fst (updateDSI 7 1000 (handleBehaviorData 600 good state))) = 1.5 /\
  dsi (fst (updateDSI 7 1000 (handleBehaviorData 600 good state1))) = 0.
Proof. vm_compute. repeat split; reflexivity. Qed.

(** ** Further properties of the engine *)

(** X1 (entropy range).  [calculateEntropyScore] returns a number between 0
    and 1 for every state, whatever the four features are ([NaN], negative
    and infinite values included): an indicator is added only when its
    comparison holds, and the sum is capped by [Math.min(1, entropy)]. *)
Theorem entropy_in_unit_interval state :
  (0 <=? calculateEntropyScore state) = true /\
  (calculateEntropyScore state <=? 1) = true.
Proof.
  with_strategy transparent [calculateEntropyScore JS.gt]
    (unfold calculateEntropyScore, JS.gt).
  cbv zeta.
  repeat split_if; split; vm_compute; reflexivity.
Qed.

(** X2 (leaving reader mode).  [handleReaderModeExit], which the listener
    calls for [READER_MODE_STATE] with [active === false], clears the
    reader-mode flag, lowers a score above 40 to 40 and leaves any other
    score as it is; the level it then assigns is 1 if the new score exceeds
    [LEVEL_1_THRESHOLD] and 0 otherwise (its tests for levels 3 and 2 can
    never succeed), and it always sends one [INTERVENTION] with that level,
    writes the [dsi_] and [level_] keys and updates the badge. *)
Theorem reader_mode_exit_lowers_level tabId now state :
  let state' := fst (handleReaderModeExit tabId now state) in
  let effects := snd (handleReaderModeExit tabId now state) in
  onMessage tabId now (READER_MODE_STATE false) state =
    handleReaderModeExit tabId now state /\
  isReaderModeActive state' = false /\
  dsi state' = (if dsi state >? 40 then 40 else dsi state) /\
  (dsi state' >? 40) = false /\
  currentLevel state' =
    (if dsi state' >? LEVEL_1_THRESHOLD then 1%nat else 0%nat) /\
  effects =
    [SendIntervention tabId
       {| iv_level := currentLevel state'; iv_dsi := dsi state';
          iv_suggestion := None; iv_entropyScore := entropyScore state;
          iv_isInFlowZone := isInFlowZone (dsi state');
          iv_pageType := pageType state; iv_timestamp := now |};
     StorageSet [(key "dsi_" tabId, VNumber (dsi state'));
                 (key "level_" tabId, VLevel (currentLevel state'))];
     SetBadge tabId (dsi state') (currentLevel state')].
Proof.
  split; [reflexivity|].
  unfold handleReaderModeExit, triggerIntervention. cbn.
  destruct (dsi state >? 40) eqn:E40; cbn.
  - repeat split; vm_compute; reflexivity.
  - assert (E85 : (dsi state >? LEVEL_3_THRESHOLD) = false).
    { rewrite gt_unfold in *.
      apply (gt_false_trans 40); [vm_compute; reflexivity|exact E40]. }
    assert (E65 : (dsi state >? LEVEL_2_THRESHOLD) = false).
    { rewrite gt_unfold in *.
      apply (gt_false_trans 40); [vm_compute; reflexivity|exact E40]. }
    rewrite E85, E65. cbn. repeat split; try assumption.
Qed.

(** A tick under the therapy lock: level 3, at most one [INTERVENTION],
    nothing else. *)
Lemma updateDSI_therapy tabId now state :
  isTherapyActive state = true ->
  let state' := fst (updateDSI tabId now state) in
  let effects := snd (updateDSI tabId now state) in
  suggestionShown state' = suggestionShown state /\
  currentLevel state' = 3%nat /\
  (effects = [] \/ exists payload, effects = [SendIntervention tabId payload]).
Proof.
  intros Ht. unfold updateDSI.
  pose proof (calculateDSIDelta_frame now state) as Hf.
  destruct (calculateDSIDelta now state) as [delta st].
  destruct Hf as (Hd & Ht' & Hr' & Hl' & _ & Hpt & Hsh & _).
  cbn in Hd, Ht', Hr', Hl', Hsh, Hpt. cbn [fst snd].
  cbn [isTherapyActive set_dsi]. rewrite Ht', Ht.
  unfold triggerIntervention. cbn.
  destruct (Nat.eqb (currentLevel st) 3) eqn:E; cbn.
  - apply Nat.eqb_eq in E. auto.
  - eauto.
Qed.

(** The levels the engine assigns are 0 to 3. *)
Lemma deriveLevel_le_3 state : (fst (deriveLevel state) <= 3)%nat.
Proof.
  unfold deriveLevel.
  destruct (isReaderModeActive state); repeat split_if; cbn; lia.
Qed.

Lemma updateDSI_level_le_3 tabId now state :
  (currentLevel (fst (updateDSI tabId now state)) <= 3)%nat.
Proof.
  destruct (isTherapyActive state) eqn:Ht.
  - destruct (updateDSI_therapy tabId now state Ht) as (_ & Hl & _).
    cbn zeta in Hl. rewrite Hl. lia.
  - rewrite (updateDSI_level tabId now state Ht). apply deriveLevel_le_3.
Qed.

Lemma step_level_le_3 tabId e state :
  (currentLevel state <= 3)%nat ->
  (currentLevel (fst (step tabId e state)) <= 3)%nat.
Proof.
  intros Hl. destruct e as [now | now m]; cbn.
  - apply updateDSI_level_le_3.
  - destruct m; cbn; try lia; try assumption.
    + destruct (handleBehaviorData_frame now payload state) as (_ & Hl' & _).
      cbn zeta in Hl'. rewrite Hl'. exact Hl.
    + destruct detected; cbn; lia.
    + destruct detected; cbn; assumption.
    + unfold handleTherapyCompletion. cbn. split_if; cbn; lia.
    + unfold onReaderModeState, handleReaderModeExit. destruct active; cbn.
      * split_if; cbn; assumption.
      * repeat split_if; cbn; lia.
    + apply updateDSI_level_le_3.
Qed.

(** X4 (level range).  In every state that a tab's state object can reach,
    [currentLevel] is one of 0, 1, 2, 3 (the content script indexes its
    tables of colours and texts by it). *)
Theorem level_in_range tabId state :
  reachable tabId state -> (currentLevel state <= 3)%nat.
Proof.
  induction 1 as [now | e state Hr IH Ha]; cbn; [lia|].
  apply step_level_le_3, IH.
Qed.

Lemma level_in_range_witness :
  let state :=
    run 7 [Receive 0 (DEBUG_SET_DSI 90); Receive 500 (THERAPY_ACTIVE true);
           Tick 1000; Receive 1500 THERAPY_COMPLETED;
           Receive 1600 (READER_MODE_STATE true);
           Receive 1700 (READER_MODE_STATE false)] (initTabState 0) in
  (currentLevel state <= 3)%nat.
Proof.
  apply (level_in_range 7).
  apply reachable_run; [apply reachable_init|].
  repeat constructor.
Defined.

(** X5 (the level follows the score).  Outside the therapy lock, for two
    ticks that start from the same level and the same reader-mode flag, the
    tick that ends on the higher score does not end on the lower level. *)
Theorem level_monotone_in_score tabId now1 now2 s1 s2 :
  isTherapyActive s1 = false -> isTherapyActive s2 = false ->
  isReaderModeActive s1 = isReaderModeActive s2 ->
  currentLevel s1 = currentLevel s2 ->
  let s1' := fst (updateDSI tabId now1 s1) in
  let s2' := fst (updateDSI tabId now2 s2) in
  (dsi s1' <=? dsi s2') = true ->
  (currentLevel s1' <= currentLevel s2')%nat.
Proof.
  intros Ht1 Ht2 Hr Hl s1' s2' Hle. subst s1' s2'.
  rewrite (updateDSI_level tabId now1 s1 Ht1), (updateDSI_level tabId now2 s2 Ht2).
  set (d1 := dsi (fst (updateDSI tabId now1 s1))) in *.
  set (d2 := dsi (fst (updateDSI tabId now2 s2))) in *.
  clearbody d1 d2.
  unfold deriveLevel. cbn [isReaderModeActive dsi set_dsi currentLevel].
  rewrite Hr, Hl, !gt_unfold.
  assert (Hup : forall T, (T <? d1) = true -> (T <? d2) = true)
    by (intros T H; exact (ltb_leb_trans T d1 d2 H Hle)).
  destruct (isReaderModeActive s2); destruct (Nat.eqb (currentLevel s2) 1);
    cbn [andb];
    repeat split_if; cbn; try lia;
    repeat match goal with
    | H : (_ <? d1) = true |- _ => apply Hup in H
    end; congruence.
Qed.

Lemma level_monotone_in_score_witness :
  let s1 := run 7 [Receive 0 (DEBUG_SET_DSI 40)] (initTabState 0) in
  let s2 :=
    run 7 [Receive 0 (DEBUG_SET_DSI 65);
           Receive 500 (BEHAVIOR_DATA
             (BehaviorData.mk (Some 100) (Some 1) None (Some 0) (Some 3)
                (Some 500)))] (initTabState 0) in
  let s1' := fst (updateDSI 7 1000 s1) in
  let s2' := fst (updateDSI 7 1000 s2) in
  (dsi s1' = 40 /\ dsi s2' = 73) /\
  (currentLevel s1' <= currentLevel s2')%nat.
Proof.
  split; [split; vm_compute; reflexivity|].
  apply (level_monotone_in_score 7 1000 1000); vm_compute; reflexivity.
Defined.

(** The effects of a tick and of a message handler concern the tab
    itself: its messages, its badge, its storage keys. *)
Lemma updateDSI_own tabId now state :
  Forall (Worker.own_effect tabId) (snd (updateDSI tabId now state)).
Proof.
  destruct (isTherapyActive state) eqn:Ht.
  - destruct (updateDSI_therapy tabId now state Ht) as (_ & _ & [He|[p He]]);
      rewrite He; repeat constructor.
  - rewrite (updateDSI_effects tabId now state Ht).
    apply Forall_app. split.
    + unfold triggerIntervention, sendSuggestion.
      repeat first [split_if | split_match]; repeat constructor.
    + repeat constructor; cbn; eexists; (split; [|reflexivity]); cbn; auto 6.
Qed.

Lemma onMessage_own tabId now message state :
  Forall (Worker.own_effect tabId) (snd (onMessage tabId now message state)).
Proof.
  destruct message; cbn; try constructor.
  - unfold handleTherapyCompletion. cbn. split_if; repeat constructor;
      cbn; eexists; (split; [|reflexivity]); cbn; auto 6.
  - unfold onReaderModeState, handleReaderModeExit, triggerIntervention.
    destruct active; cbn.
    + split_if; repeat constructor.
    + repeat constructor; cbn; eexists; (split; [|reflexivity]); cbn; auto 6.
  - apply updateDSI_own.
Qed.


(** The entropy that a tick stores is the entropy of the features it read. *)
Lemma updateDSI_entropyScore tabId now state :
  entropyScore (fst (updateDSI tabId now state)) = calculateEntropyScore state.
Proof.
  unfold updateDSI.
  pose proof (calculateDSIDelta_frame now state) as Hf.
  destruct (calculateDSIDelta now state) as [delta st].
  destruct Hf as (_ & _ & _ & _ & _ & _ & _ & _ & _ & _ & _ & _ & _ & He).
  cbn in He. cbn [fst snd].
  set (v := Math_max MIN_DSI (Math_min MAX_DSI (dsi st + delta))).
  destruct (deriveLevel (set_dsi v st)) as [newLevel suggestion].
  cbn. repeat first [split_if | split_match]; cbn; exact He.
Qed.

(** ** When a tick leaves the score as it is *)

(** The clamp is the identity on the numbers within the limits. *)
Lemma Math_min_id x hi :
  finite_nonzero hi -> (x <=? hi) = true -> Math_min hi x = x.
Proof.
  intros Hhi Hle. unfold Math_min.
  rewrite (finite_not_nan hi (finite_nonzero_finite hi Hhi)).
  rewrite (leb_not_nan_l x hi Hle). cbn [orb].
  rewrite (leb_ltb_false x hi Hle).
  destruct (x <? hi) eqn:E; [reflexivity|].
  pose proof (leb_not_ltb_eq x hi Hhi Hle E) as ->.
  destruct (classify hi); reflexivity.
Qed.

Lemma Math_max_zero_id x :
  not_negative_zero x -> (0 <=? x) = true -> Math_max 0 x = x.
Proof.
  intros Hz Hle. unfold Math_max.
  change (is_nan 0) with false. rewrite (leb_not_nan_r 0 x Hle). cbn [orb].
  destruct (0 <? x) eqn:E; [reflexivity|].
  rewrite (leb_ltb_false 0 x Hle).
  change (classify 0) with PZero. cbv iota.
  symmetry. apply Prim2SF_inj. change (Prim2SF 0) with (S754_zero false).
  revert Hz Hle E. unfold not_negative_zero.
  rewrite FloatAxioms.leb_spec, FloatAxioms.ltb_spec.
  change (Prim2SF 0) with (S754_zero false). unfold SFleb, SFltb.
  destruct (Prim2SF x) as [s|s| |s m e]; simpl; try discriminate.
  - destruct s; [congruence | reflexivity].
  - destruct s; discriminate.
  - destruct s; discriminate.
Qed.

Lemma clamp_id x :
  not_negative_zero x ->
  (MIN_DSI <=? x) = true -> (x <=? MAX_DSI) = true ->
  Math_max MIN_DSI (Math_min MAX_DSI x) = x.
Proof.
  intros Hz H0 H1. rewrite (Math_min_id x MAX_DSI) by (try exact H1; reflexivity).
  apply Math_max_zero_id; assumption.
Qed.

(** The score of a session is never [-0]. *)
Lemma Math_max_zero_not_negative_zero y : not_negative_zero (Math_max 0 y).
Proof.
  unfold Math_max. change (is_nan 0) with false. cbn [orb].
  destruct (is_nan y) eqn:En; [discriminate|].
  destruct (0 <? y) eqn:E.
  - revert E. unfold not_negative_zero. rewrite FloatAxioms.ltb_spec.
    change (Prim2SF 0) with (S754_zero false). unfold SFltb.
    destruct (Prim2SF y) as [s|s| |s m e]; simpl; try discriminate.
  - destruct (y <? 0); [discriminate|].
    change (classify 0) with PZero. cbv iota. discriminate.
Qed.

Lemma updateDSI_not_negative_zero tabId now state :
  not_negative_zero (dsi (fst (updateDSI tabId now state))).
Proof.
  destruct (updateDSI_frame tabId now state) as (Hs & _). cbn zeta in Hs.
  rewrite Hs. apply Math_max_zero_not_negative_zero.
Qed.

Lemma step_not_negative_zero tabId e state :
  not_negative_zero (dsi state) ->
  not_negative_zero (dsi (fst (step tabId e state))).
Proof.
  intros Hz. destruct e as [now | now m]; cbn.
  - apply updateDSI_not_negative_zero.
  - destruct m; cbn; try assumption; try discriminate.
    + destruct (handleBehaviorData_frame now payload state) as (Hd & _).
      cbn zeta in Hd. rewrite Hd. exact Hz.
    + destruct detected; cbn; discriminate.
    + destruct detected; cbn; assumption.
    + unfold handleTherapyCompletion. cbn. split_if; cbn;
        [discriminate | assumption].
    + unfold onReaderModeState, handleReaderModeExit. destruct active; cbn.
      * split_if; cbn; [discriminate | assumption].
      * split_if; cbn; [discriminate | assumption].
    + apply updateDSI_not_negative_zero.
Qed.

Lemma reachable_not_negative_zero tabId state :
  reachable tabId state -> not_negative_zero (dsi state).
Proof.
  induction 1 as [now | e state Hr IH Ha]; [discriminate|].
  apply step_not_negative_zero, IH.
Qed.

(** There is one [NaN]. *)
Lemma is_nan_eq x : is_nan x = true -> x = nan.
Proof.
  intros Hn. apply Prim2SF_inj. apply is_nan_SF in Hn. rewrite Hn.
  reflexivity.
Qed.

Lemma reachable_clamp_id tabId state :
  reachable tabId state ->
  Math_max MIN_DSI (Math_min MAX_DSI (dsi state + 0)) = dsi state.
Proof.
  intros Hr. pose proof (reachable_not_negative_zero tabId state Hr) as Hz.
  destruct (reachable_within_limits_or_nan tabId state Hr) as [Hn | [H0 H1]].
  - rewrite (is_nan_eq _ Hn). vm_compute. reflexivity.
  - rewrite (add_zero_r _ Hz). apply clamp_id; assumption.
Qed.

(** X24 (reader-mode equilibrium).  In reader mode (therapy off) a score
    between 45 and 55 is a fixed point of the tick: the score after the tick
    is the score before it, and the level is 2. *)
Theorem reader_mode_equilibrium tabId now state :
  reachable tabId state ->
  isTherapyActive state = false -> isReaderModeActive state = true ->
  (dsi state >=? 45) = true -> (dsi state <=? 55) = true ->
  let state' := fst (updateDSI tabId now state) in
  dsi state' = dsi state /\ currentLevel state' = 2%nat.
Proof.
  intros Hr Ht Hrd H45 H55. cbn zeta.
  assert (Hd : dsi (fst (updateDSI tabId now state)) = dsi state).
  { destruct (updateDSI_frame tabId now state) as (Hs & _). cbn zeta in Hs.
    rewrite Hs. unfold calculateDSIDelta. cbn. rewrite Ht, Hrd, H45, H55. cbn.
    apply (reachable_clamp_id tabId), Hr. }
  split; [exact Hd|].
  rewrite (updateDSI_level tabId now state Ht), Hd.
  unfold deriveLevel. cbn. rewrite Hrd.
  assert (H85 : (dsi state >? LEVEL_3_THRESHOLD) = false).
  { rewrite gt_unfold. destruct (LEVEL_3_THRESHOLD <? dsi state) eqn:E;
      [|reflexivity].
    pose proof (ltb_leb_trans _ _ _ E H55) as C. vm_compute in C.
    discriminate. }
  rewrite H85. reflexivity.
Qed.

Lemma reader_mode_equilibrium_witness :
  let state :=
    run 7 [Receive 0 (DEBUG_SET_DSI 50); Receive 100 (READER_MODE_STATE true);
           Receive 200 (DEBUG_SET_DSI 50)]
      (initTabState 0) in
  let state' := fst (updateDSI 7 1000 state) in
  dsi state = 50 /\
  dsi state' = dsi state /\ currentLevel state' = 2%nat.
Proof.
  split; [vm_compute; reflexivity|].
  apply (reader_mode_equilibrium 7 1000).
  - apply reachable_run; [apply reachable_init | repeat constructor].
  - vm_compute. reflexivity.
  - vm_compute. reflexivity.
  - vm_compute. reflexivity.
  - vm_compute. reflexivity.
Defined.

(** X23 (grace period).  In Standard mode, a tick without meaningful
    activity (scroll speed not above 50, click frequency not above 0) that
    comes less than [DECAY_DELAY] (2.5 s) after the last activity leaves the
    score exactly as it was: decay has not started yet. *)
Theorem score_held_during_grace_period tabId now state :
  reachable tabId state ->
  isTherapyActive state = false -> isReaderModeActive state = false ->
  (scrollSpeed state >? 50) = false -> (clickFrequency state >? 0) = false ->
  (now - lastActivityTime state <? DECAY_DELAY) = true ->
  dsi (fst (updateDSI tabId now state)) = dsi state.
Proof.
  intros Hr Ht Hrd Hs Hc Hg.
  destruct (updateDSI_frame tabId now state) as (Hd & _). cbn zeta in Hd.
  rewrite Hd. unfold calculateDSIDelta. cbn. rewrite Ht, Hrd, Hs, Hc, Hg. cbn.
  assert (H0 : (0 <? 0) = false) by reflexivity.
  rewrite H0, andb_false_r. cbn.
  apply (reachable_clamp_id tabId), Hr.
Qed.

Lemma score_held_during_grace_period_witness :
  let state :=
    run 7 [Receive 0 (DEBUG_SET_DSI 30);
           Receive 500 (BEHAVIOR_DATA
             (BehaviorData.mk (Some 4000) (Some 6) None (Some 0) (Some 0)
                (Some 500)));
           Tick 1000] (initTabState 0) in
  dsi state = 31.5 /\
  dsi (fst (updateDSI 7 2000 state)) = dsi state.
Proof.
  split; [vm_compute; reflexivity|].
  apply (score_held_during_grace_period 7 2000).
  - apply reachable_run; [apply reachable_init | repeat constructor].
  - vm_compute. reflexivity.
  - vm_compute. reflexivity.
  - vm_compute. reflexivity.
  - vm_compute. reflexivity.
  - vm_compute. reflexivity.
Defined.

(** ** A score that is not a number *)

(** [NaN] passes through the sum and the clamp of a tick. *)
Lemma add_nan_l x y : is_nan x = true -> is_nan (x + y) = true.
Proof.
  rewrite !is_nan_SF, FloatAxioms.add_spec. intros ->. reflexivity.
Qed.

Lemma clamp_nan x :
  is_nan x = true -> is_nan (Math_max MIN_DSI (Math_min MAX_DSI x)) = true.
Proof.
  intros Hx. unfold Math_max, Math_min. rewrite Hx, !orb_true_r. cbn.
  reflexivity.
Qed.

Lemma updateDSI_nan tabId now state :
  is_nan (dsi state) = true ->
  is_nan (dsi (fst (updateDSI tabId now state))) = true.
Proof.
  intros Hn. destruct (updateDSI_frame tabId now state) as (Hs & _).
  cbn zeta in Hs. rewrite Hs. apply clamp_nan, add_nan_l, Hn.
Qed.

Lemma step_nan tabId e state :
  resets e = false -> is_nan (dsi state) = true ->
  is_nan (dsi (fst (step tabId e state))) = true.
Proof.
  intros He Hn. destruct e as [now | now m]; cbn.
  - apply updateDSI_nan, Hn.
  - destruct m; cbn in He |- *; try discriminate; try assumption.
    + destruct (handleBehaviorData_frame now payload state) as (Hd & _).
      cbn zeta in Hd. rewrite Hd. exact Hn.
    + destruct detected; cbn; exact Hn.
    + unfold handleTherapyCompletion. cbn.
      rewrite gt_unfold, (ltb_nan_r _ _ Hn). cbn. exact Hn.
    + unfold onReaderModeState, handleReaderModeExit. destruct active; cbn.
      * rewrite (ltb_nan_l _ _ Hn). cbn. exact Hn.
      * rewrite gt_unfold, (ltb_nan_r _ _ Hn). cbn. exact Hn.
Qed.

(** X27 (a NaN score stays).  Once the score is [NaN] (the debugging
    message can store one), it is [NaN] after every tick and every message
    other than [RESET_DSI], [CONTENT_READY] and [DEBUG_SET_DSI]: the sum and
    the clamp of a tick pass [NaN] on, and every comparison that guards an
    assignment of the score fails. *)
Theorem nan_score_is_sticky tabId events state :
  is_nan (dsi state) = true ->
  Forall (fun e => resets e = false) events ->
  Forall (fun s => is_nan (dsi s) = true) (trace tabId events state).
Proof.
  intros Hn He. revert state Hn.
  induction He as [|e events He _ IH]; intros state Hn; cbn; [constructor|].
  pose proof (step_nan tabId e state He Hn) as Hn'.
  constructor; [exact Hn' | apply IH, Hn'].
Qed.

Lemma nan_score_is_sticky_witness :
  let state := run 7 [Receive 0 (DEBUG_SET_DSI nan)] (initTabState 0) in
  let events :=
    [Tick 1000;
     Receive 1500 (BEHAVIOR_DATA
       (BehaviorData.mk (Some 4000) (Some 6) None (Some 3) (Some 3)
          (Some 1500)));
     Tick 2000; Receive 2500 THERAPY_COMPLETED;
     Receive 2600 (READER_MODE_STATE true); Tick 3000] in
  is_nan (dsi state) = true /\
  Forall (fun s => is_nan (dsi s) = true) (trace 7 events state).
Proof.
  split; [vm_compute; reflexivity|].
  apply nan_score_is_sticky; [vm_compute; reflexivity | repeat constructor].
Defined.

End EngineFacts.

(** ** Facts about overlapping ticks *)

Module ScheduleFacts.
Import Number FloatFacts DSI_CONFIG JS Engine Session Schedule EngineFacts.

(** Run with nothing in between, the segments of a call are the tick. *)
Lemma updateDSI_uninterrupted tabId now state :
  uninterrupted tabId (updateDSI_start tabId now state) =
  updateDSI tabId now state.
Proof.
  unfold updateDSI_start, updateDSI, uninterrupted.
  destruct (calculateDSIDelta now state) as [delta st].
  generalize
    (set_dsi (Math_max MIN_DSI (Math_min MAX_DSI (dsi st + delta))) st).
  intros st1.
  destruct (isTherapyActive st1).
  - destruct (Nat.eqb (currentLevel st1) 3); reflexivity.
  - destruct (deriveLevel st1) as [newLevel suggestion].
    destruct (negb (Nat.eqb newLevel (currentLevel st1))).
    + unfold updateDSI_resume, updateDSI_persist. reflexivity.
    + destruct suggestion as [t|]; [destruct (negb (suggestionShown st1))|];
        unfold updateDSI_resume, updateDSI_persist; reflexivity.
Qed.


#[local] Opaque calculateEntropyScore pageDecayMultiplier isInFlowZone
  or_else or_default ToNumber JS.gt JS.ge PrimFloat.ltb PrimFloat.leb.

(** The score that a call of [updateDSI] stores before its first [await]. *)
Lemma updateDSI_start_dsi tabId now state :
  dsi (fst (fst (updateDSI_start tabId now state))) =
  Math_max MIN_DSI
    (Math_min MAX_DSI (dsi state + fst (calculateDSIDelta now state))).
Proof.
  unfold updateDSI_start.
  pose proof (calculateDSIDelta_frame now state) as Hf.
  destruct (calculateDSIDelta now state) as [delta st].
  destruct Hf as (Hd & _). cbn in Hd. cbn [fst snd]. rewrite <- Hd.
  set (v := Math_max MIN_DSI (Math_min MAX_DSI (dsi st + delta))).
  destruct (deriveLevel (set_dsi v st)) as [newLevel suggestion].
  unfold updateDSI_persist. cbn.
  repeat (first [ match goal with
                  | |- context [if ?b then _ else _] => destruct b
                  end
                | match goal with
                  | |- context [match ?o with Some _ => _ | None => _ end] =>
                      destruct o
                  end ]; cbn); reflexivity.
Qed.

(** The first segment of a tick outside therapy mode, in terms of the
    state object with the updated score. *)
Lemma updateDSI_start_standard tabId now state :
  isTherapyActive state = false ->
  exists st,
    delta_frame state st /\
    let v := dsi (fst (fst (updateDSI_start tabId now state))) in
    let st1 := set_dsi v st in
    updateDSI_start tabId now state =
      (let '(newLevel, suggestion) := deriveLevel st1 in
       if negb (Nat.eqb newLevel (currentLevel state)) then
         (set_currentLevel newLevel st1,
          triggerIntervention tabId now newLevel v suggestion
            (set_currentLevel newLevel st1),
          Some (AwaitIntervention newLevel))
       else
         match suggestion with
         | Some suggestionType =>
             if negb (suggestionShown state) then
               (st1, sendSuggestion tabId now v suggestionType,
                Some (AwaitSuggestion newLevel))
             else updateDSI_persist tabId newLevel st1
         | None => updateDSI_persist tabId newLevel st1
         end).
Proof.
  intros Ht. rewrite updateDSI_start_dsi. unfold updateDSI_start.
  pose proof (calculateDSIDelta_frame now state) as Hf.
  destruct (calculateDSIDelta now state) as [delta st]. cbn [fst snd] in *.
  exists st. split; [exact Hf|].
  destruct Hf as (Hd & Ht' & _ & Hl & _ & _ & Hsh & _).
  cbn zeta. rewrite <- Hd.
  set (v := Math_max MIN_DSI (Math_min MAX_DSI (dsi st + delta))).
  cbn [isTherapyActive set_dsi currentLevel suggestionShown dsi].
  rewrite Ht', Ht, Hl, Hsh. reflexivity.
Qed.

(** The level and the suggestion that a score in a suggestion band
    derives in Standard mode. *)
Lemma deriveLevel_in_band t state :
  isReaderModeActive state = false -> in_band t (dsi state) ->
  deriveLevel state =
    (match t with gentle => 1%nat | strong => 2%nat end, Some t).
Proof.
  intros Hr Hb. unfold deriveLevel. rewrite Hr.
  destruct t; destruct Hb as [H1 H2]; rewrite gt_unfold in *.
  - rewrite (gt_false_trans 72 85) by (assumption || reflexivity).
    rewrite !gt_unfold, H2, H1. reflexivity.
  - rewrite !gt_unfold, H2, H1. reflexivity.
Qed.

(** A suggestion is derived only in Standard mode, from a score in its
    band, together with the level 1 for [gentle] and 2 for [strong]. *)
Lemma deriveLevel_suggests state newLevel t :
  deriveLevel state = (newLevel, Some t) ->
  isReaderModeActive state = false /\
  in_band t (dsi state) /\
  newLevel = match t with gentle => 1%nat | strong => 2%nat end.
Proof.
  unfold deriveLevel, in_band.
  destruct (isReaderModeActive state); repeat split_if; cbn;
    intros H; inversion H; subst; repeat split; assumption.
Qed.


(** Under the therapy lock the first segment sends no suggestion and
    leaves [suggestionShown] as it is. *)
Lemma updateDSI_start_therapy tabId now state :
  isTherapyActive state = true ->
  let r := updateDSI_start tabId now state in
  suggestionShown (fst (fst r)) = suggestionShown state /\
  Forall (fun e => is_suggestion e = false) (snd (fst r)).
Proof.
  intros Ht. unfold updateDSI_start.
  pose proof (calculateDSIDelta_frame now state) as Hf.
  destruct (calculateDSIDelta now state) as [delta st].
  destruct Hf as (_ & Ht' & _ & _ & _ & _ & Hsh & _).
  cbn in Ht', Hsh. cbn [fst snd isTherapyActive set_dsi].
  rewrite Ht', Ht. unfold triggerIntervention.
  destruct (Nat.eqb _ 3); cbn; split; auto.
Qed.

(** What holds of a first segment that sends a [SUGGESTION]: the call is
    suspended at the [await] of [sendSuggestion], and the flag is not set. *)
Lemma suggestion_started tabId now state d t ts :
  In (SendSuggestion tabId d t ts) (snd (fst (updateDSI_start tabId now state))) ->
  let v := dsi (fst (fst (updateDSI_start tabId now state))) in
  exists st,
    delta_frame state st /\
    updateDSI_start tabId now state =
      (set_dsi v st, [SendSuggestion tabId v t now],
       Some (AwaitSuggestion (currentLevel state))) /\
    isTherapyActive state = false /\
    isReaderModeActive state = false /\
    suggestionShown state = false /\
    currentLevel state = match t with gentle => 1%nat | strong => 2%nat end /\
    in_band t v /\ d = v /\ ts = now.
Proof.
  intros Hin. cbn zeta.
  destruct (isTherapyActive state) eqn:Ht.
  { destruct (updateDSI_start_therapy tabId now state Ht) as [_ Hf].
    cbn zeta in Hf. rewrite List.Forall_forall in Hf.
    specialize (Hf _ Hin). discriminate. }
  destruct (updateDSI_start_standard tabId now state Ht) as (st & Hf & He).
  cbn zeta in He. exists st. split; [exact Hf|].
  set (v := dsi (fst (fst (updateDSI_start tabId now state)))) in *.
  clearbody v.
  destruct Hf as (_ & _ & Hr & Hl & _ & _ & Hsh & _).
  destruct (deriveLevel (set_dsi v st)) as [newLevel suggestion] eqn:Ed.
  rewrite He in Hin |- *. clear He.
  destruct (Nat.eqb newLevel (currentLevel state)) eqn:E; cbn [negb] in *.
  - apply Nat.eqb_eq in E. subst newLevel.
    destruct suggestion as [t0|].
    + destruct (deriveLevel_suggests _ _ _ Ed) as (Hr1 & Hb & Hl1).
      cbn [isReaderModeActive dsi set_dsi] in Hr1, Hb.
      destruct (suggestionShown state) eqn:Es; cbn [negb] in *.
      * unfold updateDSI_persist in Hin. cbn in Hin.
        destruct Hin as [Hin|[]]; discriminate.
      * unfold sendSuggestion in *. cbn in Hin.
        destruct Hin as [Hin|[]]. injection Hin as <- <- <-.
        repeat split; try reflexivity; try assumption; congruence.
    + unfold updateDSI_persist in Hin. cbn in Hin.
      destruct Hin as [Hin|[]]; discriminate.
  - unfold triggerIntervention in Hin. cbn in Hin.
    destruct Hin as [Hin|[]]; discriminate.
Qed.

(** While the reply is pending: a tick that starts in Standard mode with
    the flag not set, at the level of the suggestion, and ends on a score in
    the band of the suggestion, sends it. *)
Lemma suggestion_sent_again tabId now state t :
  isTherapyActive state = false -> isReaderModeActive state = false ->
  suggestionShown state = false ->
  currentLevel state = match t with gentle => 1%nat | strong => 2%nat end ->
  let r := updateDSI_start tabId now state in
  in_band t (dsi (fst (fst r))) ->
  snd (fst r) = [SendSuggestion tabId (dsi (fst (fst r))) t now].
Proof.
  intros Ht Hr Hs Hl r Hb. subst r.
  destruct (updateDSI_start_standard tabId now state Ht) as (st & Hf & He).
  cbn zeta in He.
  set (v := dsi (fst (fst (updateDSI_start tabId now state)))) in *.
  clearbody v.
  destruct Hf as (_ & _ & Hr' & _).
  rewrite (deriveLevel_in_band t (set_dsi v st)) in He
    by (cbn; congruence).
  rewrite He. rewrite Hl, Nat.eqb_refl, Hs. reflexivity.
Qed.


(** With the flag set, a segment that leaves a score not below
    [LEVEL_2_THRESHOLD] keeps the flag and sends no suggestion. *)
Lemma updateDSI_persist_shown tabId newLevel state :
  suggestionShown state = true ->
  (dsi state <? LEVEL_2_THRESHOLD) = false ->
  let r := updateDSI_persist tabId newLevel state in
  suggestionShown (fst (fst r)) = true /\ dsi (fst (fst r)) = dsi state /\
  Forall (fun e => is_suggestion e = false) (snd (fst r)).
Proof.
  intros Hs Hd. unfold updateDSI_persist. cbn. rewrite Hd. cbn.
  repeat split; auto.
Qed.

Lemma updateDSI_persist_dsi tabId newLevel state :
  dsi (fst (fst (updateDSI_persist tabId newLevel state))) = dsi state.
Proof. unfold updateDSI_persist. cbn. split_if; reflexivity. Qed.

Lemma updateDSI_start_shown tabId now state :
  suggestionShown state = true ->
  let r := updateDSI_start tabId now state in
  (dsi (fst (fst r)) <? LEVEL_2_THRESHOLD) = false ->
  suggestionShown (fst (fst r)) = true /\
  Forall (fun e => is_suggestion e = false) (snd (fst r)).
Proof.
  intros Hs r Hd. subst r.
  destruct (isTherapyActive state) eqn:Ht.
  { destruct (updateDSI_start_therapy tabId now state Ht) as [H1 H2].
    cbn zeta in H1, H2. rewrite H1. auto. }
  destruct (updateDSI_start_standard tabId now state Ht) as (st & Hf & He).
  cbn zeta in He.
  set (v := dsi (fst (fst (updateDSI_start tabId now state)))) in *.
  clearbody v.
  destruct Hf as (_ & _ & _ & _ & _ & _ & Hsh & _).
  destruct (deriveLevel (set_dsi v st)) as [newLevel suggestion].
  rewrite He. clear He. rewrite Hs. cbn [negb].
  assert (Hp : forall L,
    suggestionShown (fst (fst (updateDSI_persist tabId L (set_dsi v st)))) = true /\
    Forall (fun e => is_suggestion e = false)
      (snd (fst (updateDSI_persist tabId L (set_dsi v st))))).
  { intros L.
    destruct (updateDSI_persist_shown tabId L (set_dsi v st)) as (H1 & _ & H2);
      [cbn; congruence | exact Hd | auto]. }
  unfold triggerIntervention.
  destruct (negb _); [|destruct suggestion]; cbn [fst snd];
    try apply Hp.
  cbn. split; [congruence | auto].
Qed.

Lemma updateDSI_resume_shown tabId a state :
  suggestionShown state = true ->
  (dsi state <? LEVEL_2_THRESHOLD) = false ->
  let r := updateDSI_resume tabId a state in
  suggestionShown (fst (fst r)) = true /\
  Forall (fun e => is_suggestion e = false) (snd (fst r)).
Proof.
  intros Hs Hd. destruct a as [|L|L|L]; cbn [updateDSI_resume].
  - cbn. auto.
  - destruct (updateDSI_persist_shown tabId L state Hs Hd) as (H1 & _ & H2).
    auto.
  - destruct (updateDSI_persist_shown tabId L (set_suggestionShown true state))
      as (H1 & _ & H2); [reflexivity | exact Hd | auto].
  - cbn. auto.
Qed.

Lemma updateDSI_resume_dsi tabId a state :
  dsi (fst (fst (updateDSI_resume tabId a state))) = dsi state.
Proof.
  destruct a as [|L|L|L]; cbn [updateDSI_resume]; try reflexivity;
    rewrite updateDSI_persist_dsi; reflexivity.
Qed.

Lemma turn_shown tabId t tab :
  suggestionShown (tabState tab) = true ->
  (dsi (tabState (fst (turn tabId t tab))) <? LEVEL_2_THRESHOLD) = false ->
  suggestionShown (tabState (fst (turn tabId t tab))) = true /\
  Forall (fun e => is_suggestion e = false) (snd (turn tabId t tab)).
Proof.
  intros Hs. destruct t as [now | i | now payload]; cbn [turn].
  - pose proof (updateDSI_start_shown tabId now (tabState tab) Hs) as H.
    cbn zeta in H.
    destruct (updateDSI_start tabId now (tabState tab)) as [[st es] a].
    cbn in *. exact H.
  - destruct (suspended tab !! i) as [a|]; [|cbn; auto].
    pose proof (updateDSI_resume_shown tabId a (tabState tab) Hs) as H.
    pose proof (updateDSI_resume_dsi tabId a (tabState tab)) as Hd.
    cbn zeta in H.
    destruct (updateDSI_resume tabId a (tabState tab)) as [[st es] a'].
    cbn in *. rewrite Hd. exact H.
  - cbn. intros _.
    destruct (handleBehaviorData_frame now payload (tabState tab))
      as (_ & _ & _ & _ & Hsh & _).
    cbn zeta in Hsh. rewrite Hsh. auto.
Qed.

Lemma no_suggestion_once_shown tabId turns :
  forall tab,
  suggestionShown (tabState tab) = true ->
  Forall (fun tab => (dsi (tabState tab) <? LEVEL_2_THRESHOLD) = false)
    (trace tabId turns tab) ->
  Forall (fun e => is_suggestion e = false) (emitted tabId turns tab).
Proof.
  induction turns as [|t rest IH]; intros tab Hs Hd; cbn; [constructor|].
  cbn in Hd. inversion Hd as [|? ? Hd1 Hd']; subst.
  destruct (turn_shown tabId t tab Hs Hd1) as [Hs1 Hf].
  apply Forall_app. split; [exact Hf|]. apply IH; assumption.
Qed.

(** X3 (a suggestion and its reply).  [updateDSI] sets [suggestionShown]
    only after the [await] of [sendSuggestion].  When a tick sends a
    [SUGGESTION], the call is suspended with the flag still not set; a tick
    that starts before that call continues, and ends on a score in the band
    of the suggestion, sends the [SUGGESTION] again.  Once the call has
    continued the flag is set, and then no turn sends a suggestion, however
    later calls overlap, for as long as the score is not below
    [LEVEL_2_THRESHOLD]. *)
Theorem suggestion_repeated_until_reply tabId now state d t ts :
  In (SendSuggestion tabId d t ts)
    (snd (turn tabId (Starts now) (mkTab state []))) ->
  let tab1 := fst (turn tabId (Starts now) (mkTab state [])) in
  (suspended tab1 = [AwaitSuggestion (currentLevel state)] /\
   suggestionShown (tabState tab1) = false) /\
  (forall now',
     let r := turn tabId (Starts now') tab1 in
     in_band t (dsi (tabState (fst r))) ->
     snd r = [SendSuggestion tabId (dsi (tabState (fst r))) t now']) /\
  (let tab2 := fst (turn tabId (Resumes 0) tab1) in
   suggestionShown (tabState tab2) = true /\
   forall turns,
     Forall (fun tab => (dsi (tabState tab) <? LEVEL_2_THRESHOLD) = false)
       (trace tabId turns tab2) ->
     Forall (fun e => is_suggestion e = false) (emitted tabId turns tab2)).
Proof.
  intros Hin. cbn [turn tabState suspended] in *.
  assert (Hin' : In (SendSuggestion tabId d t ts)
                   (snd (fst (updateDSI_start tabId now state)))).
  { destruct (updateDSI_start tabId now state) as [[st es] a]. exact Hin. }
  destruct (suggestion_started tabId now state d t ts Hin')
    as (st & Hf & He & Ht & Hr & Hs & Hl & Hb & _ & _).
  set (v := dsi (fst (fst (updateDSI_start tabId now state)))) in *.
  clearbody v. rewrite He. cbn [fst snd app option_list tabState suspended].
  destruct Hf as (_ & Ht' & Hr' & Hl' & _ & _ & Hsh' & _).
  split; [split; [reflexivity | cbn; congruence]|]. split.
  - intros now'. cbn [turn tabState suspended].
    pose proof (suggestion_sent_again tabId now' (set_dsi v st) t) as H.
    cbn zeta in H.
    destruct (updateDSI_start tabId now' (set_dsi v st)) as [[st2 es2] a2].
    cbn [fst snd tabState] in *. apply H; cbn; congruence.
  - cbn [turn tabState suspended].
    change (option_list (Some (AwaitSuggestion (currentLevel state)))
              !! 0%nat)
      with (Some (AwaitSuggestion (currentLevel state))).
    cbn iota.
    assert (Hd : (v <? LEVEL_2_THRESHOLD) = false).
    { destruct t; destruct Hb as [H1 H2]; rewrite gt_unfold in *.
      - apply ltb_asym. exact H1.
      - apply ltb_asym.
        apply (ltb_trans 65 72); [reflexivity | exact H1]. }
    destruct (updateDSI_persist_shown tabId (currentLevel state)
                (set_suggestionShown true (set_dsi v st)))
      as (H1 & _ & _); [reflexivity | exact Hd |].
    cbn [updateDSI_resume].
    destruct (updateDSI_persist tabId (currentLevel state)
                (set_suggestionShown true (set_dsi v st))) as [[st2 es2] a2].
    cbn [fst snd tabState] in *. split; [exact H1|].
    intros turns. apply no_suggestion_once_shown. exact H1.
Qed.

Lemma suggestion_repeated_until_reply_witness :
  let state := run 7 [Receive 0 (DEBUG_SET_DSI 70)] (initTabState 0) in
  let tab1 := fst (turn 7 (Starts 1000) (mkTab state [])) in
  List.filter is_suggestion
    (emitted 7 [Starts 1000; Starts 2000; Resumes 0; Resumes 0; Starts 3000]
       (mkTab state [])) =
    [SendSuggestion 7 70 gentle 1000; SendSuggestion 7 70 gentle 2000] /\
  (suspended tab1 = [AwaitSuggestion (currentLevel state)] /\
   suggestionShown (tabState tab1) = false) /\
  (forall now',
     let r := turn 7 (Starts now') tab1 in
     in_band gentle (dsi (tabState (fst r))) ->
     snd r = [SendSuggestion 7 (dsi (tabState (fst r))) gentle now']) /\
  (let tab2 := fst (turn 7 (Resumes 0) tab1) in
   suggestionShown (tabState tab2) = true /\
   forall turns,
     Forall (fun tab => (dsi (tabState tab) <? LEVEL_2_THRESHOLD) = false)
       (trace 7 turns tab2) ->
     Forall (fun e => is_suggestion e = false) (emitted 7 turns tab2)).
Proof.
  intros state tab1. split; [vm_compute; reflexivity|].
  apply (suggestion_repeated_until_reply 7 1000 state 70 gentle 1000).
  vm_compute. left. reflexivity.
Defined.

End ScheduleFacts.

(** ** Properties of the registry *)

Module RegistryFacts.
Import Engine Registry.

Lemma key_prefix_ne p1 p2 a b tabId :
  a <> b -> key (String a p1) tabId <> key (String b p2) tabId.
Proof. intros Hab. unfold key. cbn. intros [= Hx _]. contradiction. Qed.

(** What the [onRemoved] listener does remove. *)
Lemma onRemoved_evicts tabId w :
  let w' := onRemoved tabId w in
  tabStates w' !! tabId = None /\
  storage w' !! key "dsi_" tabId = None /\
  storage w' !! key "level_" tabId = None /\
  (forall intervalId,
     updateIntervals w !! tabId = Some intervalId -> intervalId <> 0%N ->
     updateIntervals w' !! tabId = None /\ timers w' !! intervalId = None).
Proof.
  unfold onRemoved, stopDSITimer, perform, storage_remove. cbn.
  repeat split.
  - destruct (updateIntervals w !! tabId) as [i|]; [destruct (N.eqb i 0)|];
      cbn; apply lookup_delete_eq.
  - destruct (updateIntervals w !! tabId) as [i|]; [destruct (N.eqb i 0)|];
      cbn; rewrite lookup_delete_ne by (apply key_prefix_ne; discriminate);
      apply lookup_delete_eq.
  - destruct (updateIntervals w !! tabId) as [i|]; [destruct (N.eqb i 0)|];
      cbn; apply lookup_delete_eq.
  - rewrite H. apply N.eqb_neq in H0. rewrite H0. cbn. apply lookup_delete_eq.
  - rewrite H. apply N.eqb_neq in H0. rewrite H0. cbn. apply lookup_delete_eq.
Qed.

(** Every other storage key survives it, the tab's [entropy_] and
    [inFlow_] keys among them. *)
Lemma onRemoved_keeps_other_keys tabId w k :
  k <> key "dsi_" tabId -> k <> key "level_" tabId ->
  storage (onRemoved tabId w) !! k = storage w !! k.
Proof.
  intros H1 H2. unfold onRemoved, stopDSITimer, perform, storage_remove. cbn.
  destruct (updateIntervals w !! tabId) as [i|]; [destruct (N.eqb i 0)|];
    cbn; rewrite !lookup_delete_ne by congruence; reflexivity.
Qed.

(** C6 (teardown).  The code at the failing input: tab 7 gets its timer,
    one tick writes the four keys [dsi_7], [level_7], [entropy_7] and
    [inFlow_7], and the tab is removed.  The timer is cancelled, the state is
    evicted and [dsi_7] and [level_7] are removed, but [entropy_7] and
    [inFlow_7] stay in storage. *)
Theorem teardown_leaves_snapshot_keys :
  let w1 := Registry.updateDSI 7 2000 (startDSITimer 7 1000 initial) in
  let w2 := onRemoved 7 w1 in
  updateIntervals w1 !! 7%N = Some 1%N /\
  timers w1 !! 1%N = Some 7%N /\
  storage w1 !! "dsi_7" = Some (VNumber 0) /\
  storage w1 !! "level_7" = Some (VLevel 0) /\
  storage w1 !! "entropy_7" = Some (VNumber 0) /\
  storage w1 !! "inFlow_7" = Some (VBoolean false) /\
  updateIntervals w2 !! 7%N = None /\
  timers w2 !! 1%N = None /\
  tabStates w2 !! 7%N = None /\
  storage w2 !! "dsi_7" = None /\
  storage w2 !! "level_7" = None /\
  storage w2 !! "entropy_7" = Some (VNumber 0) /\
  storage w2 !! "inFlow_7" = Some (VBoolean false).
Proof. vm_compute. repeat split; reflexivity. Qed.

Import Worker.

(** The per-tab storage keys of different tabs are different strings. *)
Lemma key_inj p1 p2 a b :
  In p1 key_prefixes -> In p2 key_prefixes ->
  key p1 a = key p2 b -> p1 = p2 /\ a = b.
Proof.
  unfold key_prefixes, key. cbn.
  intros [<-|[<-|[<-|[<-|[]]]]] [<-|[<-|[<-|[<-|[]]]]] H;
    try discriminate; split; try reflexivity;
    cbn in H; injection H as H; apply (inj pretty); exact H.
Qed.

Lemma own_key_other tabId other k p :
  own_key tabId k -> In p key_prefixes -> other <> tabId ->
  k <> key p other.
Proof.
  intros (q & Hq & ->) Hp Hne H.
  apply (key_inj _ _ _ _ Hq Hp) in H as [_ H]. congruence.
Qed.

(** Storage accesses to one tab's keys leave the keys of every other tab
    alone. *)
Lemma storage_set_other items tabId other p :
  Forall (fun kv => own_key tabId (fst kv)) items ->
  In p key_prefixes -> other <> tabId ->
  forall m, storage_set items m !! key p other = m !! key p other.
Proof.
  intros Hf Hp Hne. unfold storage_set.
  induction Hf as [|kv items Hkv _ IH]; intros m; cbn; [reflexivity|].
  rewrite IH. apply lookup_insert_ne.
  apply (own_key_other tabId other _ p); assumption.
Qed.

Lemma storage_remove_other keys tabId other p :
  Forall (own_key tabId) keys ->
  In p key_prefixes -> other <> tabId ->
  forall m, storage_remove keys m !! key p other = m !! key p other.
Proof.
  intros Hf Hp Hne. unfold storage_remove.
  induction Hf as [|k keys Hk _ IH]; intros m; cbn; [reflexivity|].
  rewrite IH. apply lookup_delete_ne.
  apply (own_key_other tabId other _ p); assumption.
Qed.

Lemma perform_other tabId other p e w :
  own_effect tabId e -> In p key_prefixes -> other <> tabId ->
  storage (perform w e) !! key p other = storage w !! key p other.
Proof.
  intros He Hp Hne. destruct e; cbn in *; try reflexivity.
  - apply (storage_set_other items tabId); assumption.
  - apply (storage_remove_other keys tabId); assumption.
Qed.

Lemma performAll_other tabId other p es :
  Forall (own_effect tabId) es -> In p key_prefixes -> other <> tabId ->
  forall w, storage (performAll es w) !! key p other = storage w !! key p other.
Proof.
  intros Hf Hp Hne. unfold performAll.
  induction Hf as [|e es He _ IH]; intros w; cbn; [reflexivity|].
  rewrite IH. apply (perform_other tabId); assumption.
Qed.

End RegistryFacts.

(** ** Properties of the behaviour monitor *)

Module MonitorFacts.
Import JS Monitor.

(** C7 (second report), amended.  When a report has been sent and its
    callback has run, a second report with no scroll or click event in
    between carries the same scroll speed and click frequency as the first
    (the windows are not reset by a report), a rage-click count of 0, and the
    direction-change count decremented by one and not below 0. *)
Theorem second_report_repeats_window now1 now2 this payload :
  reportBehavior true now1 this = Some payload ->
  reportBehavior true now2 (snd (reportInterval true now1 this)) =
    Some {| BehaviorData.scrollSpeed := BehaviorData.scrollSpeed payload;
            BehaviorData.clickFrequency := BehaviorData.clickFrequency payload;
            BehaviorData.pageType := None;
            BehaviorData.directionChanges :=
              Some (Math_max 0 (directionChanges this - 1));
            BehaviorData.rageClickCount := Some 0;
            BehaviorData.timestamp := Some now2 |}.
Proof.
  unfold reportInterval. intros H. rewrite H. cbn [snd].
  revert H. unfold reportBehavior. cbn [negb].
  change (calculateScrollSpeed (reportCallback this))
    with (calculateScrollSpeed this).
  change (calculateClickFrequency (reportCallback this))
    with (calculateClickFrequency this).
  destruct ((calculateScrollSpeed this >? 0)
            || (calculateClickFrequency this >? 0)); [|discriminate].
  intros [= <-]. reflexivity.
Qed.

Lemma second_report_repeats_window_witness :
  let this :=
    handleClick 1450 5 5 (handleClick 1400 5 5 (handleClick 1350 5 5
      (handleScroll 1300 100 (handleScroll 1200 0 (handleScroll 1100 100
        (handleScroll 1000 0 (constructor 0 0))))))) in
  reportBehavior true 2000 (snd (reportInterval true 1500 this)) =
    Some {| BehaviorData.scrollSpeed := Some 1000;
            BehaviorData.clickFrequency := Some 3;
            BehaviorData.pageType := None;
            BehaviorData.directionChanges :=
              Some (Math_max 0 (directionChanges this - 1));
            BehaviorData.rageClickCount := Some 0;
            BehaviorData.timestamp := Some 2000 |}.
Proof.
  intros this.
  apply (second_report_repeats_window 1500 2000 this
           {| BehaviorData.scrollSpeed := Some 1000;
              BehaviorData.clickFrequency := Some 3;
              BehaviorData.pageType := None;
              BehaviorData.directionChanges := Some 2;
              BehaviorData.rageClickCount := Some 2;
              BehaviorData.timestamp := Some 1500 |}).
  vm_compute. reflexivity.
Defined.

(** C7 as stated fails: two scroll reversals and three clicks on one spot
    are followed by two reports with no event in between; the second report
    carries the same scroll speed (1000 px/s) and click frequency (3 per
    second) as the first, not zero, because the event windows are pruned only
    when a new event arrives; only the rage-click count is reset (2 to 0) and
    the direction-change count decremented (2 to 1). *)
Lemma second_report_not_zero_counterexample :
  let this :=
    handleClick 1450 5 5 (handleClick 1400 5 5 (handleClick 1350 5 5
      (handleScroll 1300 100 (handleScroll 1200 0 (handleScroll 1100 100
        (handleScroll 1000 0 (constructor 0 0))))))) in
  let first := reportInterval true 1500 this in
  let second := reportInterval true 2000 (snd first) in
  fst first =
    Some {| BehaviorData.scrollSpeed := Some 1000;
            BehaviorData.clickFrequency := Some 3;
            BehaviorData.pageType := None;
            BehaviorData.directionChanges := Some 2;
            BehaviorData.rageClickCount := Some 2;
            BehaviorData.timestamp := Some 1500 |} /\
  scrollEvents (snd first) = scrollEvents this /\
  clickEvents (snd first) = clickEvents this /\
  fst second =
    Some {| BehaviorData.scrollSpeed := Some 1000;
            BehaviorData.clickFrequency := Some 3;
            BehaviorData.pageType := None;
            BehaviorData.directionChanges := Some 1;
            BehaviorData.rageClickCount := Some 0;
            BehaviorData.timestamp := Some 2000 |} /\
  (1000 =? 0) = false /\ (3 =? 0) = false.
Proof. vm_compute. repeat split; reflexivity. Qed.

(** ** Further properties of the monitor *)

Import Number FloatFacts Monitor.CONFIG.

(** Sums of absolute differences, lengths, and their quotients by a
    positive time span are never negative. *)
Lemma totalDistance_not_negative events :
  forall acc previous,
    (acc <? 0) = false -> (totalDistance acc previous events <? 0) = false.
Proof.
  induction events as [|e rest IH]; intros acc previous Hacc; cbn;
    [exact Hacc|].
  apply IH. apply add_not_negative; [exact Hacc | apply abs_not_negative].
Qed.

Lemma calculateScrollSpeed_not_negative this :
  (calculateScrollSpeed this <? 0) = false.
Proof.
  unfold calculateScrollSpeed.
  destruct (scrollEvents this) as [|firstEvent [|second rest]];
    try reflexivity.
  cbv zeta.
  destruct (_ <=? 0) eqn:E; [reflexivity|].
  apply div_not_negative; [|exact E].
  apply totalDistance_not_negative. reflexivity.
Qed.

Lemma length_number_not_negative {A} (l : list A) :
  (length_number l <? 0) = false.
Proof.
  unfold length_number.
  assert (H : forall acc, (acc <? 0) = false ->
            (foldl (fun n (_ : A) => n + 1) acc l <? 0) = false).
  { induction l as [|a l IH]; intros acc Hacc; cbn; [exact Hacc|].
    apply IH. apply add_not_negative; [exact Hacc | reflexivity]. }
  apply H. reflexivity.
Qed.

Lemma calculateClickFrequency_not_negative this :
  (calculateClickFrequency this <? 0) = false.
Proof.
  unfold calculateClickFrequency.
  apply div_not_negative; [apply length_number_not_negative | reflexivity].
Qed.

(** The two counters stay counters: they are incremented, reset to 0, or
    decayed by [Math.max(0, n - 1)]. *)
Lemma counter_succ x : counter x -> counter (x + 1).
Proof.
  intros [Hn Hp]. split.
  - apply add_not_nan_r; [exact Hn | reflexivity].
  - apply add_not_negative; [exact Hp | reflexivity].
Qed.

Lemma counter_zero : counter 0.
Proof. split; reflexivity. Qed.

Lemma counter_decay x : counter x -> counter (Math_max 0 (x - 1)).
Proof.
  intros [Hn _].
  assert (Hy : not_nan (x - 1)) by (apply sub_not_nan_r; [exact Hn | reflexivity]).
  generalize dependent (x - 1). intros y Hy. unfold Math_max.
  change (is_nan 0) with false. rewrite Hy. cbn [orb].
  destruct (0 <? y) eqn:E1.
  - split; [exact Hy | apply ltb_asym, E1].
  - destruct (y <? 0); [apply counter_zero|].
    change (classify 0) with PZero. cbv iota. apply counter_zero.
Qed.

Lemma act_counters a this : counters this -> counters (act a this).
Proof.
  intros [Hd Hr]. destruct a as [now p | now x y | valid now]; cbn.
  - unfold handleScroll. cbv zeta.
    destruct (Math_abs _ >? 10); [destruct (_ && _)|]; split; cbn;
      auto using counter_succ.
  - unfold handleClick. split; cbn; [exact Hd|].
    destruct (_ && _); auto using counter_succ.
  - unfold reportInterval. destruct (reportBehavior valid now this); cbn.
    + split; [apply counter_decay, Hd | apply counter_zero].
    + split; assumption.
Qed.

Lemma reachable_counters this : reachable this -> counters this.
Proof.
  induction 1 as [scrollY now | a this _ IH].
  - split; apply counter_zero.
  - apply act_counters, IH.
Qed.

(** X14 (reports are not negative).  Every [BEHAVIOR_DATA] payload that a
    monitor sends, after any sequence of scroll events, click events and
    report intervals with any clock values and coordinates, carries a scroll
    speed and a click frequency that are not below 0, and direction-change
    and rage-click counts that are numbers at or above 0. *)
Theorem reports_are_not_negative contextValid now this payload :
  reachable this ->
  reportBehavior contextValid now this = Some payload ->
  exists scrollSpeed clickFrequency directionChanges rageClickCount,
    BehaviorData.scrollSpeed payload = Some scrollSpeed /\
    BehaviorData.clickFrequency payload = Some clickFrequency /\
    BehaviorData.directionChanges payload = Some directionChanges /\
    BehaviorData.rageClickCount payload = Some rageClickCount /\
    (scrollSpeed <? 0) = false /\
    (clickFrequency <? 0) = false /\
    (0 <=? directionChanges) = true /\
    (0 <=? rageClickCount) = true.
Proof.
  intros Hr Hp. destruct (reachable_counters this Hr) as [[Hd1 Hd2] [Hr1 Hr2]].
  unfold reportBehavior in Hp.
  destruct (negb contextValid); [discriminate|]. cbv zeta in Hp.
  destruct (_ || _); [|discriminate]. injection Hp as <-. cbn.
  do 4 eexists. repeat split; try reflexivity.
  - apply calculateScrollSpeed_not_negative.
  - apply calculateClickFrequency_not_negative.
  - apply ltb_false_leb; [exact Hd1 | reflexivity | exact Hd2].
  - apply ltb_false_leb; [exact Hr1 | reflexivity | exact Hr2].
Qed.

Lemma reports_are_not_negative_witness :
  let this :=
    act (Click 1450 5 5) (act (Click 1400 5 5)
      (act (Report true 1350)
        (act (Scroll 1300 100) (act (Scroll 1200 0) (act (Scroll 1100 100)
          (act (Scroll 1000 0) (constructor 0 0))))))) in
  let payload :=
    BehaviorData.mk (Some 1000) (Some 2) None (Some 1) (Some 1) (Some 1500) in
  reportBehavior true 1500 this = Some payload /\
  exists scrollSpeed clickFrequency directionChanges rageClickCount,
    BehaviorData.scrollSpeed payload = Some scrollSpeed /\
    BehaviorData.clickFrequency payload = Some clickFrequency /\
    BehaviorData.directionChanges payload = Some directionChanges /\
    BehaviorData.rageClickCount payload = Some rageClickCount /\
    (scrollSpeed <? 0) = false /\
    (clickFrequency <? 0) = false /\
    (0 <=? directionChanges) = true /\
    (0 <=? rageClickCount) = true.
Proof.
  intros this payload. split; [vm_compute; reflexivity|].
  apply (reports_are_not_negative true 1500 this payload).
  - subst this. repeat apply reachable_act. apply reachable_new.
  - vm_compute. reflexivity.
Defined.

(** Before the first click [lastClickTime] is [undefined], [now - undefined]
    is [NaN] and the comparison with 500 fails: the first click never
    counts. *)
Lemma handleClick_first now x y this :
  lastClickTime this = None ->
  rageClickCount (handleClick now x y this) = rageClickCount this.
Proof.
  intros H. unfold handleClick. cbn. rewrite H. cbn.
  rewrite (ltb_nan_l (now - nan) 500) by (apply sub_nan_r; reflexivity).
  rewrite andb_false_r. reflexivity.
Qed.

(** A click at the point of the previous click, less than 500 ms after it,
    counts. *)
Lemma sqrt_zero : Math_sqrt (0 * 0 + 0 * 0) = 0.
Proof. reflexivity. Qed.

Lemma handleClick_same_spot now x y t0 this :
  finite x -> finite y ->
  lastClickPosition this = (x, y) -> lastClickTime this = Some t0 ->
  (now - t0 <? 500) = true ->
  rageClickCount (handleClick now x y this) = rageClickCount this + 1.
Proof.
  intros Hx Hy Hp Ht Hgap. unfold handleClick. cbn [rageClickCount].
  rewrite Hp, Ht. cbn [fst snd]. change (to_number (Some t0)) with t0.
  rewrite (sub_diag x Hx), (sub_diag y Hy), sqrt_zero, Hgap. reflexivity.
Qed.

Lemma clicksAt_rapid x y times :
  finite x -> finite y ->
  forall t0 this,
    lastClickPosition this = (x, y) -> lastClickTime this = Some t0 ->
    rapid t0 times = true ->
    rageClickCount (clicksAt x y times this) =
    foldl (fun n (_ : float) => n + 1) (rageClickCount this) times.
Proof.
  intros Hx Hy. unfold clicksAt.
  induction times as [|now rest IH]; intros t0 this Hp Ht Hr; cbn;
    [reflexivity|].
  cbn in Hr. apply andb_prop in Hr as [Hgap Hr].
  rewrite (IH now) by (try exact Hr; reflexivity).
  rewrite (handleClick_same_spot now x y t0 this Hx Hy Hp Ht Hgap).
  reflexivity.
Qed.

(** X15 (rage clicks).  On a fresh monitor, a series of clicks at one
    point (finite coordinates), each less than 500 ms after the previous one,
    leaves a rage-click count equal to the number of clicks after the first:
    the first click never counts, every following one does. *)
Theorem rapid_clicks_are_counted x y t0 times scrollY now0 :
  finite x -> finite y -> rapid t0 times = true ->
  rageClickCount (clicksAt x y (t0 :: times) (constructor scrollY now0)) =
  length_number times.
Proof.
  intros Hx Hy Hr. unfold clicksAt. cbn [foldl].
  fold (clicksAt x y times (handleClick t0 x y (constructor scrollY now0))).
  rewrite (clicksAt_rapid x y times Hx Hy t0) by (try exact Hr; reflexivity).
  rewrite handleClick_first by reflexivity. reflexivity.
Qed.

Lemma rapid_clicks_are_counted_witness :
  let times := [1100; 1250; 1400; 1500; 1900] in
  rapid 1000 times = true /\
  rageClickCount (clicksAt 320 240 (1000 :: times) (constructor 0 900)) = 5 /\
  rageClickCount (clicksAt 320 240 (1000 :: times) (constructor 0 900)) =
  length_number times.
Proof.
  split; [reflexivity|]. split; [vm_compute; reflexivity|].
  apply (rapid_clicks_are_counted 320 240 1000); reflexivity.
Defined.

End MonitorFacts.

(** ** Properties of the service worker as a whole *)

Module WorkerFacts.
Import Engine Registry Session EngineFacts Worker.
#[local] Opaque Engine.updateDSI key.

Lemma perform_tabStates w e : tabStates (perform w e) = tabStates w.
Proof. destruct e; reflexivity. Qed.

Lemma performAll_tabStates es :
  forall w, tabStates (performAll es w) = tabStates w.
Proof.
  unfold performAll. induction es as [|e es IH]; intros w; cbn; [reflexivity|].
  rewrite IH. apply perform_tabStates.
Qed.

(** An invariant of the sessions is an invariant of the registry: [P]
    holds of [initTabState] and is kept by every tick and by every message
    that [admitted] lets through. *)
Section SessionInvariant.
Variable P : TabState -> Prop.
Variable admitted : Happening -> Prop.
Hypothesis P_init : forall now, P (initTabState now).
Hypothesis P_tick :
  forall tabId now state,
    P state -> P (fst (Engine.updateDSI tabId now state)).
Hypothesis P_message :
  forall tabId now message state,
    P state -> admitted (MessageArrives tabId now message) ->
    P (fst (Engine.onMessage tabId now message state)).

Lemma getTabState_satisfy tabId now w :
  sessions_satisfy P w ->
  P (fst (getTabState tabId now w)) /\
  sessions_satisfy P (snd (getTabState tabId now w)).
Proof using P_init.
  intros Hw. unfold getTabState.
  destruct (tabStates w !! tabId) as [state|] eqn:E; cbn.
  - split; [apply (Hw tabId state E) | exact Hw].
  - split; [apply P_init|].
    intros t s. cbn. destruct (decide (t = tabId)) as [->|Hne].
    + rewrite lookup_insert_eq. intros [= <-]. apply P_init.
    + rewrite lookup_insert_ne by congruence. apply Hw.
Qed.

Lemma commit_satisfy tabId state es w :
  sessions_satisfy P w -> P state ->
  sessions_satisfy P (performAll es (set_tabState tabId state w)).
Proof using Type.
  intros Hw Hs t s. rewrite performAll_tabStates. cbn.
  destruct (decide (t = tabId)) as [->|Hne].
  - rewrite lookup_insert_eq. intros [= <-]. exact Hs.
  - rewrite lookup_insert_ne by congruence. apply Hw.
Qed.

Lemma happen_satisfy h w :
  sessions_satisfy P w -> admitted h -> sessions_satisfy P (Worker.happen h w).
Proof using P_init P_tick P_message.
  intros Hw Ha. destruct h as [tabId now | intervalId now | tabId now m | tabId];
    cbn.
  - unfold startDSITimer. destruct (updateIntervals w !! tabId); [exact Hw|].
    intros t s. cbn. destruct (decide (t = tabId)) as [->|Hne].
    + rewrite lookup_insert_eq. intros [= <-]. apply P_init.
    + rewrite lookup_insert_ne by congruence. apply Hw.
  - unfold timerFires. destruct (timers w !! intervalId) as [tabId|];
      [|exact Hw].
    unfold Registry.updateDSI.
    destruct (getTabState_satisfy tabId now w Hw) as [Hs Hw'].
    destruct (getTabState tabId now w) as [state w']. cbn in Hs, Hw'.
    pose proof (P_tick tabId now state Hs) as Hstep.
    destruct (Engine.updateDSI tabId now state) as [state' es].
    apply commit_satisfy; assumption.
  - unfold Registry.onMessage. destruct (N.eqb tabId 0); [exact Hw|].
    destruct (getTabState_satisfy tabId now w Hw) as [Hs Hw'].
    destruct (getTabState tabId now w) as [state w']. cbn in Hs, Hw'.
    pose proof (P_message tabId now m state Hs Ha) as Hstep.
    destruct (Engine.onMessage tabId now m state) as [state' es].
    apply commit_satisfy; assumption.
  - unfold onRemoved, stopDSITimer. intros t s. cbn.
    destruct (updateIntervals w !! tabId) as [i|]; [destruct (N.eqb i 0)|];
      cbn; intros H; apply lookup_delete_Some in H as [_ H]; apply (Hw t s H).
Qed.

Lemma run_satisfy hs :
  forall w, sessions_satisfy P w -> Forall admitted hs ->
  sessions_satisfy P (Worker.run hs w).
Proof using P_init P_tick P_message.
  induction hs as [|h hs IH]; intros w Hw Ha; cbn; [exact Hw|].
  inversion Ha; subst. apply IH; [apply happen_satisfy|]; assumption.
Qed.

End SessionInvariant.

Lemma initial_satisfy P : sessions_satisfy P initial.
Proof. intros t s. cbn. rewrite lookup_empty. discriminate. Qed.

(** X8 (all sessions bounded).  In the registry after any sequence of page
    loads, interval firings, messages and tab removals, whatever the payloads
    of the messages, every tab's score is [NaN] or within [MIN_DSI] and
    [MAX_DSI]; and it is within the limits when the happenings are numeric:
    no message names a property of [Object.prototype] as a page type (which
    would make the context coefficient a function) and every [DEBUG_SET_DSI]
    carries a finite number.  Behaviour reports may carry any numbers, [NaN],
    negative and infinite values included. *)
Theorem every_session_within_limits hs tabId state :
  tabStates (Worker.run hs initial) !! tabId = Some state ->
  within_limits_or_nan state /\
  (Forall Worker.numeric hs -> within_limits state).
Proof.
  intros Hs. split.
  - refine (run_satisfy within_limits_or_nan (fun _ => True) _ _ _
              hs initial _ _ tabId state Hs).
    + intros now. right. split; vm_compute; reflexivity.
    + intros t now s H. apply updateDSI_within_limits_or_nan.
    + intros t now m s H _.
      exact (step_within_limits_or_nan t (Receive now m) s H).
    + apply initial_satisfy.
    + apply Forall_forall. intros; exact I.
  - intros Hn.
    assert (HI : Inv state).
    { refine (run_satisfy Inv Worker.numeric _ _ _
                hs initial _ Hn tabId state Hs).
      - apply Inv_init.
      - intros t now s H. exact (step_Inv t (Tick now) s H I).
      - intros t now m s H Ha. exact (step_Inv t (Receive now m) s H Ha).
      - apply initial_satisfy. }
    destruct HI as (H0 & H1 & _). split; assumption.
Qed.

Lemma perform_timers w e :
  updateIntervals (perform w e) = updateIntervals w /\
  timers (perform w e) = timers w /\
  nextIntervalId (perform w e) = nextIntervalId w.
Proof. destruct e; repeat split; reflexivity. Qed.

Lemma performAll_timers es :
  forall w,
    updateIntervals (performAll es w) = updateIntervals w /\
    timers (performAll es w) = timers w /\
    nextIntervalId (performAll es w) = nextIntervalId w.
Proof.
  unfold performAll. induction es as [|e es IH]; intros w; cbn; [auto|].
  destruct (IH (perform w e)) as (-> & -> & ->). apply perform_timers.
Qed.

Lemma timers_consistent_ext w w' :
  updateIntervals w' = updateIntervals w -> timers w' = timers w ->
  nextIntervalId w' = nextIntervalId w ->
  timers_consistent w -> timers_consistent w'.
Proof. unfold timers_consistent. intros -> -> ->. auto. Qed.

Lemma getTabState_timers tabId now w :
  updateIntervals (snd (getTabState tabId now w)) = updateIntervals w /\
  timers (snd (getTabState tabId now w)) = timers w /\
  nextIntervalId (snd (getTabState tabId now w)) = nextIntervalId w.
Proof.
  unfold getTabState. destruct (tabStates w !! tabId); cbn; auto.
Qed.

Lemma stopDSITimer_consistent tabId w :
  timers_consistent w -> timers_consistent (stopDSITimer tabId w).
Proof.
  intros Hw. pose proof Hw as (Hiff & Hpos & Hnext). unfold stopDSITimer.
  destruct (updateIntervals w !! tabId) as [i|] eqn:E; [|exact Hw].
  destruct (N.eqb i 0); [exact Hw|].
  split; [|split]; cbn.
  - intros t j. destruct (decide (t = tabId)) as [->|Hne].
    + rewrite lookup_delete_eq. split; [discriminate|].
      intros H. apply lookup_delete_Some in H as [Hji H].
      apply Hiff in H. congruence.
    + rewrite lookup_delete_ne by congruence.
      destruct (decide (j = i)) as [->|Hji].
      * rewrite lookup_delete_eq. split; [|discriminate].
        intros H. apply Hiff in H. apply Hiff in E. congruence.
      * rewrite lookup_delete_ne by congruence. apply Hiff.
  - intros t j H. apply lookup_delete_Some in H as [_ H]. apply (Hpos t j H).
  - exact Hnext.
Qed.

Lemma happen_consistent h w :
  timers_consistent w -> timers_consistent (happen h w).
Proof.
  intros Hw. destruct h as [tabId now | intervalId now | tabId now m | tabId];
    cbn.
  - unfold startDSITimer.
    destruct (updateIntervals w !! tabId) as [i|] eqn:E; [exact Hw|].
    destruct Hw as (Hiff & Hpos & Hnext). split; [|split]; cbn.
    + intros t j. destruct (decide (t = tabId)) as [->|Hne].
      * rewrite lookup_insert_eq.
        destruct (decide (j = nextIntervalId w)) as [->|Hj].
        -- rewrite lookup_insert_eq. split; reflexivity.
        -- rewrite lookup_insert_ne by congruence. split.
           ++ intros [= <-]. congruence.
           ++ intros H. apply Hiff in H. congruence.
      * rewrite lookup_insert_ne by congruence.
        destruct (decide (j = nextIntervalId w)) as [->|Hj].
        -- rewrite lookup_insert_eq. split.
           ++ intros H. apply Hiff, Hpos in H. lia.
           ++ intros [= <-]. congruence.
        -- rewrite lookup_insert_ne by congruence. apply Hiff.
    + intros t j. destruct (decide (j = nextIntervalId w)) as [->|Hj].
      * intros _. lia.
      * rewrite lookup_insert_ne by congruence. intros H.
        apply Hpos in H. lia.
    + lia.
  - unfold timerFires. destruct (timers w !! intervalId) as [t|]; [|exact Hw].
    unfold Registry.updateDSI.
    destruct (getTabState_timers t now w) as (H1 & H2 & H3).
    destruct (getTabState t now w) as [state w']. cbn in H1, H2, H3.
    destruct (Engine.updateDSI t now state) as [state' es].
    destruct (performAll_timers es (set_tabState t state' w')) as (G1 & G2 & G3).
    apply (timers_consistent_ext w); cbn in *; congruence.
  - unfold Registry.onMessage. destruct (N.eqb tabId 0); [exact Hw|].
    destruct (getTabState_timers tabId now w) as (H1 & H2 & H3).
    destruct (getTabState tabId now w) as [state w']. cbn in H1, H2, H3.
    destruct (Engine.onMessage tabId now m state) as [state' es].
    destruct (performAll_timers es (set_tabState tabId state' w'))
      as (G1 & G2 & G3).
    apply (timers_consistent_ext w); cbn in *; congruence.
  - unfold onRemoved. cbn.
    apply (timers_consistent_ext (stopDSITimer tabId w)); try reflexivity.
    apply stopDSITimer_consistent, Hw.
Qed.

Lemma reachable_consistent w : Worker.reachable w -> timers_consistent w.
Proof.
  induction 1 as [|h w _ IH _].
  - split; [|split]; cbn; [intros t i; rewrite !lookup_empty; split
                           | intros t i; rewrite lookup_empty | lia];
      discriminate.
  - apply happen_consistent, IH.
Qed.

(** X7 (teardown cancels the timer).  In every reachable registry, after
    [onRemoved] the tab has no entry in [updateIntervals], no state object,
    and no running interval ticks it. *)
Lemma onRemoved_cancels_timer w tabId :
  Worker.reachable w ->
  let w' := onRemoved tabId w in
  updateIntervals w' !! tabId = None /\
  tabStates w' !! tabId = None /\
  forall intervalId, timers w' !! intervalId <> Some tabId.
Proof.
  intros Hw. pose proof (stopDSITimer_consistent tabId w
                           (reachable_consistent w Hw)) as [Hiff _].
  destruct (reachable_consistent w Hw) as (Hiff0 & Hpos0 & _).
  assert (Hnone : updateIntervals (stopDSITimer tabId w) !! tabId = None).
  { unfold stopDSITimer.
    destruct (updateIntervals w !! tabId) as [i|] eqn:E; [|exact E].
    destruct (N.eqb_spec i 0) as [->|Hi].
    - apply Hiff0, Hpos0 in E. lia.
    - cbn. apply lookup_delete_eq. }
  unfold onRemoved. cbn. repeat split.
  - exact Hnone.
  - apply lookup_delete_eq.
  - intros i H. apply Hiff in H. congruence.
Qed.

Lemma performAll_app es1 es2 w :
  performAll (es1 ++ es2) w = performAll es2 (performAll es1 w).
Proof. unfold performAll. apply foldl_app. Qed.

(** The bug behind C6, for every tab: after a tick outside the therapy
    lock and the removal of the tab, the tab's [dsi_] and [level_] keys are
    gone but its [entropy_] and [inFlow_] keys are still in storage. *)
Lemma tick_then_teardown_leaks tabId now w :
  isTherapyActive (fst (getTabState tabId now w)) = false ->
  let w' := onRemoved tabId (Registry.updateDSI tabId now w) in
  storage w' !! key "dsi_" tabId = None /\
  storage w' !! key "level_" tabId = None /\
  is_Some (storage w' !! key "entropy_" tabId) /\
  is_Some (storage w' !! key "inFlow_" tabId).
Proof.
  intros Ht w'. subst w'.
  destruct (RegistryFacts.onRemoved_evicts tabId (Registry.updateDSI tabId now w))
    as (_ & Hd & Hl & _).
  split; [exact Hd|]. split; [exact Hl|].
  rewrite !RegistryFacts.onRemoved_keeps_other_keys
    by (apply RegistryFacts.key_prefix_ne; discriminate).
  unfold Registry.updateDSI.
  destruct (getTabState tabId now w) as [state w0]. cbn in Ht.
  pose proof (updateDSI_effects tabId now state Ht) as He. cbn zeta in He.
  destruct (Engine.updateDSI tabId now state) as [state' es]. cbn in He.
  rewrite He, performAll_app. cbn.
  unfold storage_set. cbn.
  split.
  - rewrite lookup_insert_ne by (apply RegistryFacts.key_prefix_ne; discriminate).
    rewrite lookup_insert_eq. eauto.
  - rewrite lookup_insert_eq. eauto.
Qed.

Import RegistryFacts.

(** ** Further properties of the service worker *)

Lemma getTabState_other tabId other now w :
  other <> tabId ->
  tabStates (snd (getTabState tabId now w)) !! other = tabStates w !! other /\
  storage (snd (getTabState tabId now w)) = storage w.
Proof.
  intros Hne. unfold getTabState. destruct (tabStates w !! tabId); cbn;
    [auto|]. split; [|reflexivity]. apply lookup_insert_ne. congruence.
Qed.

Lemma commit_other tabId other state es w :
  Forall (own_effect tabId) es -> other <> tabId ->
  let w' := performAll es (set_tabState tabId state w) in
  tabStates w' !! other = tabStates w !! other /\
  updateIntervals w' !! other = updateIntervals w !! other /\
  forall p, In p key_prefixes ->
    storage w' !! key p other = storage w !! key p other.
Proof.
  intros Hf Hne w'. subst w'.
  rewrite performAll_tabStates.
  destruct (performAll_timers es (set_tabState tabId state w)) as (-> & _).
  cbn. split; [apply lookup_insert_ne; congruence|]. split; [reflexivity|].
  intros p Hp. rewrite (performAll_other tabId other p es Hf Hp Hne).
  reflexivity.
Qed.

Lemma updateDSI_other tabId other now w :
  other <> tabId ->
  let w' := Registry.updateDSI tabId now w in
  tabStates w' !! other = tabStates w !! other /\
  updateIntervals w' !! other = updateIntervals w !! other /\
  forall p, In p key_prefixes ->
    storage w' !! key p other = storage w !! key p other.
Proof.
  intros Hne. unfold Registry.updateDSI.
  destruct (getTabState_other tabId other now w Hne) as [H1 H2].
  destruct (getTabState_timers tabId now w) as (H3 & _).
  destruct (getTabState tabId now w) as [state w0]. cbn in H1, H2, H3.
  pose proof (updateDSI_own tabId now state) as Hown.
  destruct (Engine.updateDSI tabId now state) as [state' es]. cbn in Hown.
  rewrite <- H1, <- H2, <- H3. apply commit_other; assumption.
Qed.

(** X9 (tabs are independent).  Whatever happens to one tab (its page
    loads, its interval fires, a message arrives from it, it is closed)
    leaves every other tab's state object, timer entry and storage keys
    ([dsi_], [level_], [entropy_], [inFlow_]) as they were. *)
Theorem other_tabs_untouched h w other :
  subject h w <> Some other ->
  let w' := happen h w in
  tabStates w' !! other = tabStates w !! other /\
  updateIntervals w' !! other = updateIntervals w !! other /\
  forall p, In p key_prefixes ->
    storage w' !! key p other = storage w !! key p other.
Proof.
  intros Hs. destruct h as [tabId now | intervalId now | tabId now m | tabId];
    cbn in Hs |- *.
  - assert (Hne : other <> tabId) by congruence.
    unfold startDSITimer. destruct (updateIntervals w !! tabId); [auto|].
    cbn. rewrite !lookup_insert_ne by congruence. auto.
  - unfold timerFires. destruct (timers w !! intervalId) as [t|]; [|auto].
    apply updateDSI_other. congruence.
  - assert (Hne : other <> tabId) by congruence.
    unfold Registry.onMessage. destruct (N.eqb tabId 0); [auto|].
    destruct (getTabState_other tabId other now w Hne) as [H1 H2].
    destruct (getTabState_timers tabId now w) as (H3 & _).
    destruct (getTabState tabId now w) as [state w0]. cbn in H1, H2, H3.
    pose proof (onMessage_own tabId now m state) as Hown.
    destruct (Engine.onMessage tabId now m state) as [state' es]. cbn in Hown.
    rewrite <- H1, <- H2, <- H3. apply commit_other; assumption.
  - assert (Hne : other <> tabId) by congruence.
    unfold onRemoved. cbn. split; [|split].
    + rewrite lookup_delete_ne by congruence.
      unfold stopDSITimer. destruct (updateIntervals w !! tabId) as [i|];
        [destruct (N.eqb i 0)|]; reflexivity.
    + unfold stopDSITimer. destruct (updateIntervals w !! tabId) as [i|];
        [destruct (N.eqb i 0)|]; cbn; try reflexivity.
      apply lookup_delete_ne. congruence.
    + intros p Hp. unfold storage_remove. cbn.
      rewrite !lookup_delete_ne.
      * unfold stopDSITimer. destruct (updateIntervals w !! tabId) as [i|];
          [destruct (N.eqb i 0)|]; reflexivity.
      * apply (own_key_other tabId other _ p); [|assumption..].
        eexists; split; [|reflexivity]; cbn; auto.
      * apply (own_key_other tabId other _ p); [|assumption..].
        eexists; split; [|reflexivity]; cbn; auto.
Qed.

Lemma other_tabs_untouched_witness :
  let w := startDSITimer 8 1500 (startDSITimer 7 1000 initial) in
  let w' := happen (IntervalFires 1 2000) w in
  subject (IntervalFires 1 2000) w = Some 7%N /\
  tabStates w' !! 8%N = tabStates w !! 8%N /\
  updateIntervals w' !! 8%N = updateIntervals w !! 8%N /\
  forall p, In p key_prefixes ->
    storage w' !! key p 8 = storage w !! key p 8.
Proof.
  split; [reflexivity|].
  apply (other_tabs_untouched (IntervalFires 1 2000)).
  vm_compute. discriminate.
Defined.

(** Running intervals always tick tabs that have a state object. *)
Lemma commit_have_state tabId state es w0 w :
  timers w0 = timers w ->
  (forall t, is_Some (tabStates w !! t) -> is_Some (tabStates w0 !! t)) ->
  timers_have_state w ->
  timers_have_state (performAll es (set_tabState tabId state w0)).
Proof.
  intros Ht Hs Hw i t. rewrite performAll_tabStates.
  destruct (performAll_timers es (set_tabState tabId state w0)) as (_ & -> & _).
  cbn. rewrite Ht. intros H. apply Hw in H.
  destruct (decide (t = tabId)) as [->|Hne].
  - rewrite lookup_insert_eq. eauto.
  - rewrite lookup_insert_ne by congruence. auto.
Qed.

Lemma getTabState_have_state tabId now w t :
  is_Some (tabStates w !! t) ->
  is_Some (tabStates (snd (getTabState tabId now w)) !! t).
Proof.
  unfold getTabState. destruct (tabStates w !! tabId) eqn:E; cbn; [auto|].
  intros H. destruct (decide (t = tabId)) as [->|Hne].
  - rewrite lookup_insert_eq. eauto.
  - rewrite lookup_insert_ne by congruence. exact H.
Qed.

Lemma happen_have_state h w :
  timers_consistent w -> timers_have_state w ->
  timers_have_state (happen h w).
Proof.
  intros Hc Hw. destruct h as [tabId now | intervalId now | tabId now m | tabId];
    cbn.
  - unfold startDSITimer.
    destruct (updateIntervals w !! tabId) as [i0|] eqn:E; [exact Hw|].
    intros i t. cbn.
    destruct (decide (i = nextIntervalId w)) as [->|Hi].
    + rewrite lookup_insert_eq. intros [= <-]. rewrite lookup_insert_eq. eauto.
    + rewrite lookup_insert_ne by congruence. intros H. apply Hw in H.
      destruct (decide (t = tabId)) as [->|Hne].
      * rewrite lookup_insert_eq. eauto.
      * rewrite lookup_insert_ne by congruence. exact H.
  - unfold timerFires. destruct (timers w !! intervalId) as [t|]; [|exact Hw].
    unfold Registry.updateDSI.
    destruct (getTabState_timers t now w) as (_ & H2 & _).
    pose proof (getTabState_have_state t now w) as H1.
    destruct (getTabState t now w) as [state w0]. cbn in H1, H2.
    destruct (Engine.updateDSI t now state) as [state' es].
    apply (commit_have_state _ _ _ _ w); assumption.
  - unfold Registry.onMessage. destruct (N.eqb tabId 0); [exact Hw|].
    destruct (getTabState_timers tabId now w) as (_ & H2 & _).
    pose proof (getTabState_have_state tabId now w) as H1.
    destruct (getTabState tabId now w) as [state w0]. cbn in H1, H2.
    destruct (Engine.onMessage tabId now m state) as [state' es].
    apply (commit_have_state _ _ _ _ w); assumption.
  - destruct (stopDSITimer_consistent tabId w Hc) as (Hiff & _).
    destruct Hc as (Hiff0 & Hpos0 & _).
    assert (Hnone : updateIntervals (stopDSITimer tabId w) !! tabId = None).
    { unfold stopDSITimer.
      destruct (updateIntervals w !! tabId) as [i|] eqn:E; [|exact E].
      destruct (N.eqb_spec i 0) as [->|Hi].
      - apply Hiff0, Hpos0 in E. lia.
      - cbn. apply lookup_delete_eq. }
    assert (Hsub : forall i t, timers (stopDSITimer tabId w) !! i = Some t ->
                     timers w !! i = Some t).
    { unfold stopDSITimer. intros i t.
      destruct (updateIntervals w !! tabId) as [i0|];
        [destruct (N.eqb i0 0)|]; cbn; auto.
      intros H. apply lookup_delete_Some in H as [_ H]. exact H. }
    assert (Hst : tabStates (stopDSITimer tabId w) = tabStates w).
    { unfold stopDSITimer. destruct (updateIntervals w !! tabId) as [i0|];
        [destruct (N.eqb i0 0)|]; reflexivity. }
    unfold onRemoved. intros i t. cbn. intros H.
    destruct (decide (t = tabId)) as [->|Hne].
    + apply Hiff in H. congruence.
    + rewrite lookup_delete_ne by congruence. rewrite Hst.
      apply (Hw i). apply Hsub, H.
Qed.

Lemma reachable_have_state w : Worker.reachable w -> timers_have_state w.
Proof.
  induction 1 as [|h w Hr IH _].
  - intros i t. cbn. rewrite lookup_empty. discriminate.
  - apply happen_have_state; [apply reachable_consistent, Hr | exact IH].
Qed.

(** X6 (one timer per tab).  In every registry that the service worker can
    reach, no tab is ticked by two running intervals, and every running
    interval is the one recorded in [updateIntervals] for its tab and ticks a
    tab whose state object exists. *)
Theorem one_interval_per_tab w :
  Worker.reachable w ->
  (forall i j t,
     timers w !! i = Some t -> timers w !! j = Some t -> i = j) /\
  (forall i t,
     timers w !! i = Some t ->
     updateIntervals w !! t = Some i /\ is_Some (tabStates w !! t)).
Proof.
  intros Hr. destruct (reachable_consistent w Hr) as (Hiff & _).
  pose proof (reachable_have_state w Hr) as Hs. split.
  - intros i j t Hi Hj. apply Hiff in Hi, Hj. congruence.
  - intros i t Hi. split; [apply Hiff, Hi | apply (Hs i), Hi].
Qed.

Lemma one_interval_per_tab_witness :
  let w :=
    happen (TabLoaded 7 3000)
      (happen (MessageArrives 7 2500 (CONTENT_READY (Some "news")))
         (happen (TabLoaded 8 2000)
            (happen (TabRemoved 7) (happen (TabLoaded 7 1000) initial)))) in
  (timers w !! 2%N = Some 8%N /\ timers w !! 3%N = Some 7%N /\
   timers w !! 1%N = None) /\
  (forall i j t,
     timers w !! i = Some t -> timers w !! j = Some t -> i = j) /\
  (forall i t,
     timers w !! i = Some t ->
     updateIntervals w !! t = Some i /\ is_Some (tabStates w !! t)).
Proof.
  split; [repeat split; vm_compute; reflexivity|].
  apply one_interval_per_tab.
  repeat (apply reachable_happen; [|exact I]). apply reachable_initial.
Defined.

(** [startDSITimer] twice is [startDSITimer] once. *)
Lemma startDSITimer_idempotent tabId now1 now2 w :
  startDSITimer tabId now2 (startDSITimer tabId now1 w) =
  startDSITimer tabId now1 w.
Proof.
  unfold startDSITimer at 2.
  destruct (updateIntervals w !! tabId) as [i|] eqn:E.
  - unfold startDSITimer. rewrite E. reflexivity.
  - unfold startDSITimer. cbn. rewrite lookup_insert_eq, E. reflexivity.
Qed.

(** X11 (page type and arrival order).  For a tab without a running timer,
    [CONTENT_READY] followed by [startDSITimer] leaves the state that
    [initTabState] builds (page type ['other'], coefficient 1.0): the timer's
    start overwrites the page type that the message had set.  In the other
    order the detected page type and its coefficient are kept. *)
Theorem page_type_depends_on_arrival_order tabId now1 now2 pt w :
  tabId <> 0%N -> updateIntervals w !! tabId = None ->
  let ready := CONTENT_READY (Some pt) in
  let ready_first :=
    startDSITimer tabId now2 (Registry.onMessage tabId now1 ready w) in
  let loaded_first :=
    Registry.onMessage tabId now2 ready (startDSITimer tabId now1 w) in
  tabStates ready_first !! tabId = Some (initTabState now2) /\
  tabStates loaded_first !! tabId =
    Some (set_contextCoefficient (getContextCoefficient pt)
            (set_pageType pt (initTabState now2))).
Proof.
  intros Hid Hnone. cbn zeta.
  apply N.eqb_neq in Hid. split.
  - unfold Registry.onMessage. rewrite Hid.
    destruct (getTabState_timers tabId now1 w) as (H1 & _).
    destruct (getTabState tabId now1 w) as [state w0]. cbn in H1. cbn.
    unfold startDSITimer. cbn. rewrite H1, Hnone. cbn.
    apply lookup_insert_eq.
  - unfold Registry.onMessage. rewrite Hid.
    destruct (getTabState tabId now2 (startDSITimer tabId now1 w))
      as [state w0]. cbn. apply lookup_insert_eq.
Qed.

Lemma page_type_depends_on_arrival_order_witness :
  let ready := CONTENT_READY (Some "social") in
  let ready_first :=
    startDSITimer 7 2000 (Registry.onMessage 7 1000 ready initial) in
  let loaded_first :=
    Registry.onMessage 7 2000 ready (startDSITimer 7 1000 initial) in
  (pageType <$> tabStates ready_first !! 7%N = Some "other" /\
   contextCoefficient <$> tabStates loaded_first !! 7%N =
     Some (JS.Num 1.3)) /\
  tabStates ready_first !! 7%N = Some (initTabState 2000) /\
  tabStates loaded_first !! 7%N =
    Some (set_contextCoefficient (getContextCoefficient "social")
            (set_pageType "social" (initTabState 2000))).
Proof.
  split; [split; vm_compute; reflexivity|].
  apply (page_type_depends_on_arrival_order 7 1000 2000 "social" initial).
  - discriminate.
  - reflexivity.
Defined.

(** Only the tab's own removal takes its entry out of [updateIntervals]. *)
Lemma happen_keeps_interval tabId h w :
  h <> TabRemoved tabId -> is_Some (updateIntervals w !! tabId) ->
  updateIntervals (happen h w) !! tabId = updateIntervals w !! tabId.
Proof.
  intros Hh [i Hi]. destruct h as [t now | j now | t now m | t]; cbn.
  - unfold startDSITimer. destruct (updateIntervals w !! t) eqn:E; [reflexivity|].
    cbn. apply lookup_insert_ne. congruence.
  - unfold timerFires. destruct (timers w !! j) as [t|]; [|reflexivity].
    unfold Registry.updateDSI.
    destruct (getTabState_timers t now w) as (H1 & _).
    destruct (getTabState t now w) as [state w0]. cbn in H1.
    destruct (Engine.updateDSI t now state) as [state' es].
    destruct (performAll_timers es (set_tabState t state' w0)) as (-> & _).
    cbn. congruence.
  - unfold Registry.onMessage. destruct (N.eqb t 0); [reflexivity|].
    destruct (getTabState_timers t now w) as (H1 & _).
    destruct (getTabState t now w) as [state w0]. cbn in H1.
    destruct (Engine.onMessage t now m state) as [state' es].
    destruct (performAll_timers es (set_tabState t state' w0)) as (-> & _).
    cbn. congruence.
  - assert (Hne : t <> tabId) by congruence.
    unfold onRemoved, stopDSITimer. cbn.
    destruct (updateIntervals w !! t) as [i0|]; [destruct (N.eqb i0 0)|];
      cbn; try reflexivity.
    apply lookup_delete_ne. exact Hne.
Qed.

(** X10 (a timer is started once).  Once a tab has a timer, no sequence of
    happenings other than the tab's own removal changes its entry in
    [updateIntervals], and a further [startDSITimer] for it (the tab is
    activated or reloaded) changes nothing: the state object and so the score
    are not reset. *)
Theorem timer_started_once tabId now hs w :
  is_Some (updateIntervals w !! tabId) ->
  Forall (fun h => h <> TabRemoved tabId) hs ->
  let w' := Worker.run hs w in
  updateIntervals w' !! tabId = updateIntervals w !! tabId /\
  happen (TabLoaded tabId now) w' = w'.
Proof.
  intros Hi Hhs. cbn zeta.
  assert (H : updateIntervals (Worker.run hs w) !! tabId =
              updateIntervals w !! tabId).
  { revert w Hi. induction Hhs as [|h hs Hh _ IH]; intros w Hi; cbn;
      [reflexivity|].
    pose proof (happen_keeps_interval tabId h w Hh Hi) as Hk.
    rewrite IH by (rewrite Hk; exact Hi). exact Hk. }
  split; [exact H|].
  cbn. unfold startDSITimer. rewrite H. destruct Hi as [i ->]. reflexivity.
Qed.

Lemma timer_started_once_witness :
  let w := happen (TabLoaded 7 1000) initial in
  let hs :=
    [MessageArrives 7 1200 (CONTENT_READY (Some "news"));
     IntervalFires 1 2000;
     MessageArrives 7 2500 (DEBUG_SET_DSI 50);
     TabLoaded 8 2600; TabRemoved 8; IntervalFires 1 3000] in
  let w' := Worker.run hs w in
  (dsi <$> tabStates w' !! 7%N = Some 50 /\
   pageType <$> tabStates w' !! 7%N = Some "news") /\
  updateIntervals w' !! 7%N = updateIntervals w !! 7%N /\
  happen (TabLoaded 7 3500) w' = w'.
Proof.
  split; [split; vm_compute; reflexivity|].
  apply (timer_started_once 7 3500).
  - vm_compute. eauto.
  - repeat constructor; discriminate.
Defined.

(** X12 (persisted snapshot).  After a tick outside the therapy lock,
    [chrome.storage.local] holds under the tab's four keys the score, the
    level, the entropy and the flow-zone flag of the state object as the
    tick left it. *)
Theorem standard_tick_snapshot tabId now w :
  isTherapyActive (fst (getTabState tabId now w)) = false ->
  let w' := Registry.updateDSI tabId now w in
  exists state',
    tabStates w' !! tabId = Some state' /\
    storage w' !! key "dsi_" tabId = Some (VNumber (dsi state')) /\
    storage w' !! key "level_" tabId = Some (VLevel (currentLevel state')) /\
    storage w' !! key "entropy_" tabId =
      Some (VNumber (entropyScore state')) /\
    storage w' !! key "inFlow_" tabId =
      Some (VBoolean (isInFlowZone (dsi state'))).
Proof.
  intros Ht. cbn zeta. unfold Registry.updateDSI.
  destruct (getTabState tabId now w) as [state w0]. cbn in Ht.
  pose proof (updateDSI_effects tabId now state Ht) as He.
  pose proof (updateDSI_level tabId now state Ht) as Hl.
  pose proof (updateDSI_entropyScore tabId now state) as Hen.
  cbn zeta in He.
  destruct (Engine.updateDSI tabId now state) as [state' es].
  cbn [fst snd] in He, Hl, Hen.
  exists state'. rewrite performAll_tabStates. cbn [tabStates set_tabState].
  split; [apply lookup_insert_eq|].
  rewrite He, performAll_app. cbn. unfold storage_set. cbn.
  rewrite <- Hl, <- Hen.
  repeat split.
  - rewrite !lookup_insert_ne by (apply key_prefix_ne; discriminate).
    apply lookup_insert_eq.
  - rewrite !lookup_insert_ne by (apply key_prefix_ne; discriminate).
    apply lookup_insert_eq.
  - rewrite !lookup_insert_ne by (apply key_prefix_ne; discriminate).
    apply lookup_insert_eq.
  - apply lookup_insert_eq.
Qed.

Lemma standard_tick_snapshot_witness :
  let w :=
    Worker.run
      [TabLoaded 7 1000;
       MessageArrives 7 1500 (BEHAVIOR_DATA
         (BehaviorData.mk (Some 4000) (Some 6) None (Some 3) (Some 0)
            (Some 1500)))] initial in
  let w' := Registry.updateDSI 7 2000 w in
  storage w' !! "dsi_7" = Some (VNumber 5) /\
  exists state',
    tabStates w' !! 7%N = Some state' /\
    storage w' !! key "dsi_" 7 = Some (VNumber (dsi state')) /\
    storage w' !! key "level_" 7 = Some (VLevel (currentLevel state')) /\
    storage w' !! key "entropy_" 7 =
      Some (VNumber (entropyScore state')) /\
    storage w' !! key "inFlow_" 7 =
      Some (VBoolean (isInFlowZone (dsi state'))).
Proof.
  split; [vm_compute; reflexivity|].
  apply (standard_tick_snapshot 7 2000). vm_compute. reflexivity.
Defined.

(** X13 (nothing is persisted under the therapy lock).  A tick of a tab
    whose therapy flag is set returns before the storage write and the badge
    update: storage is unchanged, and at most one [INTERVENTION] is sent. *)
Theorem therapy_tick_leaves_storage tabId now w state :
  tabStates w !! tabId = Some state -> isTherapyActive state = true ->
  let w' := Registry.updateDSI tabId now w in
  storage w' = storage w /\
  (sent w' = sent w \/
   exists payload, sent w' = sent w ++ [SendIntervention tabId payload]).
Proof.
  intros Hs Ht. cbn zeta. unfold Registry.updateDSI, getTabState. rewrite Hs.
  destruct (updateDSI_therapy tabId now state Ht) as (_ & _ & He).
  cbn zeta in He.
  destruct (Engine.updateDSI tabId now state) as [state' es]. cbn in He.
  destruct He as [->|[payload ->]]; cbn; eauto.
Qed.

Lemma therapy_tick_leaves_storage_witness :
  let w :=
    Worker.run
      [TabLoaded 7 1000; MessageArrives 7 1500 (DEBUG_SET_DSI 90);
       MessageArrives 7 1600 (THERAPY_ACTIVE true); IntervalFires 1 2000]
      initial in
  let w' := Registry.updateDSI 7 3000 w in
  (storage w !! "dsi_7" = Some (VNumber 90) /\
   dsi <$> tabStates w' !! 7%N = Some (82.5 - (3 + 82.5 * 0.05))) /\
  storage w' = storage w /\
  (sent w' = sent w \/
   exists payload, sent w' = sent w ++ [SendIntervention 7 payload]).
Proof.
  split; [split; vm_compute; reflexivity|].
  eapply (therapy_tick_leaves_storage 7 3000); vm_compute; reflexivity.
Defined.

(** A run of admissible happenings stays within the reachable registries. *)
Lemma worker_run_reachable hs :
  forall w, Worker.reachable w -> Forall Worker.admissible hs ->
  Worker.reachable (Worker.run hs w).
Proof.
  induction hs as [|h hs IH]; intros w Hw Ha; cbn; [exact Hw|].
  inversion Ha; subst. apply IH; [apply reachable_happen|]; assumption.
Qed.

Lemma every_session_within_limits_witness :
  let hs :=
    [TabLoaded 7 1000;
     MessageArrives 7 1500 (BEHAVIOR_DATA
       (BehaviorData.mk (Some nan) (Some (-6)) (Some "blog") (Some 3)
          (Some infinity) (Some 1500)));
     MessageArrives 7 1600 (BEHAVIOR_DATA
       (BehaviorData.mk (Some 4000) (Some 1) None (Some 3) (Some 0)
          (Some 1600)));
     IntervalFires 1 2000] in
  let state :=
    default (initTabState 0) (tabStates (Worker.run hs initial) !! 7%N) in
  Forall Worker.numeric hs /\
  within_limits_or_nan state /\
  (Forall Worker.numeric hs -> within_limits state).
Proof.
  intros hs state. split; [repeat constructor|].
  apply (every_session_within_limits hs 7 state).
  vm_compute. reflexivity.
Defined.

Lemma onRemoved_cancels_timer_witness :
  let w :=
    Worker.run [TabLoaded 7 1000; IntervalFires 1 2000; TabLoaded 8 2500]
      initial in
  let w' := onRemoved 7 w in
  (timers w !! 1%N = Some 7%N /\ timers w' !! 2%N = Some 8%N) /\
  updateIntervals w' !! 7%N = None /\
  tabStates w' !! 7%N = None /\
  forall intervalId, timers w' !! intervalId <> Some 7%N.
Proof.
  split; [split; vm_compute; reflexivity|].
  apply (onRemoved_cancels_timer _ 7).
  apply worker_run_reachable; [apply reachable_initial|].
  repeat constructor.
Defined.

End WorkerFacts.

(** ** Page types *)

Module PageTypeFacts.
Import DSI_CONFIG PageType.

(** X16 (detected page types).  Whatever the url and the lower-casing,
    [detectPageType] returns one of the six page types, each of which is a
    key of [CONTEXT_WEIGHTS], so that [getContextCoefficient] of a detected
    type is the table's weight and never the fallback; [DECAY_MULTIPLIERS]
    has no entry exactly for ['social'] and ['news']. *)
Theorem detected_type_has_weight toLowerCase url :
  let pageType := detectPageType toLowerCase url in
  In pageType ["social"; "news"; "video"; "document"; "shopping"; "other"] /\
  JS.Num <$> CONTEXT_WEIGHTS !! pageType =
    Some (Engine.getContextCoefficient pageType) /\
  (DECAY_MULTIPLIERS !! pageType = None <->
   pageType = "social" \/ pageType = "news").
Proof.
  unfold detectPageType. cbv zeta.
  repeat match goal with
         | |- context [if ?b then _ else _] => destruct b
         end;
    (split; [cbn; auto 10|]); (split; [vm_compute; reflexivity|]);
    vm_compute; split; intros H; try discriminate; auto;
    destruct H; discriminate.
Qed.

(** X17 (keyword priority).  The social keywords are tested first: a
    non-empty url whose lower-cased text contains ['bilibili'] is classified
    ['social'] (weight 1.3, decay multiplier 1.0), although ['bilibili'] is
    also listed in [VIDEO_DOMAINS]. *)
Theorem bilibili_is_social toLowerCase url :
  url <> "" -> includes (toLowerCase url) "bilibili" = true ->
  detectPageType toLowerCase url = "social" /\
  Engine.getContextCoefficient (detectPageType toLowerCase url) =
    JS.Num 1.3 /\
  Engine.pageDecayMultiplier (detectPageType toLowerCase url) = JS.Num 1.
Proof.
  intros Hurl Hb.
  assert (H : detectPageType toLowerCase url = "social").
  { unfold detectPageType. apply String.eqb_neq in Hurl. rewrite Hurl.
    cbv zeta. unfold SOCIAL_DOMAINS. cbn [existsb]. rewrite Hb.
    rewrite !orb_true_r. reflexivity. }
  rewrite H. repeat split; vm_compute; reflexivity.
Qed.

Lemma bilibili_is_social_witness :
  let url := "https://www.BiliBili.com/video/BV1GJ411x7h7" in
  (existsb (fun d => includes (toLowerCaseASCII url) d) VIDEO_DOMAINS = true) /\
  detectPageType toLowerCaseASCII url = "social" /\
  Engine.getContextCoefficient (detectPageType toLowerCaseASCII url) =
    JS.Num 1.3 /\
  Engine.pageDecayMultiplier (detectPageType toLowerCaseASCII url) =
    JS.Num 1.
Proof.
  split; [vm_compute; reflexivity|].
  apply bilibili_is_social; [discriminate | vm_compute; reflexivity].
Defined.

End PageTypeFacts.

(** ** The displays *)

Module DisplayFacts.
Import Number FloatFacts JS Display DSI_CONFIG Engine Session EngineFacts.

Lemma leb_const x a b : (a <=? b) = true -> (x <=? a) = true -> (x <=? b) = true.
Proof. intros Hab Hxa. exact (leb_trans x a b Hxa Hab). Qed.

(** X18 (the displays agree).  For every score ([NaN] included) the
    avatar's state, the bubble's status text, its emoji and its theme are one
    of five rows: the four functions cut the score at the same bounds. *)
Theorem displays_agree dsi :
  In (getStateByDSI dsi, getStatusText dsi, getStatusEmoji dsi, getTheme dsi)
    [(zen, "状态极佳", "😊", calm);
     (distract, "心流区间", "🌿", calm);
     (burnout, "压力上升", "⚡", warning);
     (sleep, "需要休息", "⚠️", alert);
     (healing, "高压预警", "🚨", alert)].
Proof.
  unfold getStateByDSI, getStatusText, getStatusEmoji, getTheme.
  destruct (dsi <=? 30) eqn:E30.
  - rewrite (leb_const dsi 30 50 eq_refl E30). cbn. auto.
  - destruct (dsi <=? 50) eqn:E50; [cbn; auto|].
    destruct (dsi <=? 70) eqn:E70; [cbn; auto|].
    destruct (dsi <=? 85) eqn:E85; cbn; auto 10.
Qed.

(** X19 (the sidebar's level).  The sidebar displays a level that it
    computes from the score with the bounds 30, 60 and 80.  After a tick in
    Standard mode that did not start at level 1, this level is never below
    the engine's level. *)
Theorem sidebar_level_at_least_engine_level tabId now state :
  isTherapyActive state = false -> isReaderModeActive state = false ->
  currentLevel state <> 1%nat ->
  let state' := fst (updateDSI tabId now state) in
  (currentLevel state' <= calculatedLevel (dsi state'))%nat.
Proof.
  intros Ht Hr Hl state'. subst state'.
  rewrite (updateDSI_level tabId now state Ht).
  set (d := dsi (fst (updateDSI tabId now state))). clearbody d.
  unfold deriveLevel. cbn [isReaderModeActive dsi set_dsi currentLevel].
  rewrite Hr. apply Nat.eqb_neq in Hl. rewrite Hl. cbn [andb].
  unfold calculatedLevel. cbv zeta.
  with_strategy transparent [JS.gt JS.ge or_else]
    (unfold JS.gt, JS.ge, or_else, truthy).
  unfold LEVEL_3_THRESHOLD, LEVEL_2_SUGGEST, LEVEL_2_THRESHOLD,
    LEVEL_1_THRESHOLD.
  assert (Hup : forall a b, (a <? b) = true -> (b <? d) = true ->
                            (a <=? d) = true).
  { intros a b Hab Hbd. apply ltb_leb. exact (ltb_trans a b d Hab Hbd). }
  destruct (negb (d =? 0) && negb (is_nan d)) eqn:Etr.
  - destruct (85 <? d) eqn:E85.
    { rewrite (Hup 80 85 eq_refl E85). cbn. lia. }
    destruct (72 <? d) eqn:E72.
    { rewrite (Hup 60 72 eq_refl E72). destruct (80 <=? d); cbn; lia. }
    destruct (65 <? d) eqn:E65.
    { rewrite (Hup 30 65 eq_refl E65). destruct (80 <=? d), (60 <=? d); cbn; lia. }
    destruct (35 <? d) eqn:E35.
    { rewrite (Hup 30 35 eq_refl E35). destruct (80 <=? d), (60 <=? d); cbn; lia. }
    cbn. lia.
  - assert (H35 : (35 <? d) = false).
    { apply andb_false_iff in Etr as [E|E].
      - apply negb_false_iff in E. 
        destruct (35 <? d) eqn:E35; [|reflexivity].
        exfalso. revert E E35.
        rewrite FloatAxioms.eqb_spec, FloatAxioms.ltb_spec.
        change (Prim2SF 0) with (S754_zero false).
        unfold SFeqb. destruct (Prim2SF d) as [s|s| |s m e]; cbn;
          try discriminate; intros H; destruct s; discriminate H.
      - apply negb_false_iff in E. apply ltb_nan_r. exact E. }
    assert (H : forall a, (35 <? a) = true -> (a <? d) = false).
    { intros a Ha. apply (gt_false_trans 35); assumption. }
    rewrite (H 85 eq_refl), (H 72 eq_refl), (H 65 eq_refl), H35. cbn. lia.
Qed.

Lemma sidebar_level_at_least_engine_level_witness :
  let state := run 7 [Receive 0 (DEBUG_SET_DSI 82)] (initTabState 0) in
  let state' := fst (updateDSI 7 1000 state) in
  (currentLevel state' = 2%nat /\ calculatedLevel (dsi state') = 3%nat) /\
  (currentLevel state' <= calculatedLevel (dsi state'))%nat.
Proof.
  split; [split; vm_compute; reflexivity|].
  apply (sidebar_level_at_least_engine_level 7 1000); vm_compute;
    congruence.
Defined.

End DisplayFacts.

(** ** The intervention manager *)

Module InterventionFacts.
Import Intervention.

(** X20 (interventions need consent).  Handling an [INTERVENTION] message
    never raises the manager's level, never turns a mode on and never
    reports a mode as turned on to the background script: the manager asks
    the user, or it turns modes off.  When the message's level is below the
    manager's, the level becomes the message's and no mode above it stays
    active. *)
Theorem intervention_needs_consent payload this :
  let this' := fst (handleIntervention payload this) in
  let out := snd (handleIntervention payload this) in
  (currentLevel this' <= currentLevel this)%nat /\
  (softModeActive this' = true -> softModeActive this = true) /\
  (readerModeActive this' = true -> readerModeActive this = true) /\
  (therapyActive this' = true -> therapyActive this = true) /\
  Forall (fun o => activates o = false) out /\
  ((iv_level payload < currentLevel this)%nat ->
   currentLevel this' = iv_level payload /\
   ((iv_level payload < 3)%nat -> therapyActive this' = false) /\
   ((iv_level payload < 2)%nat -> readerModeActive this' = false) /\
   ((iv_level payload < 1)%nat -> softModeActive this' = false)).
Proof.
  destruct this as [lvl soft reader therapy p5].
  unfold handleIntervention, clearHigherInterventions, deactivateAll,
    deactivateSoftMode, deactivateReaderMode, deactivateVisualTherapy.
  generalize (iv_level payload) (iv_dsi payload). intros n d.
  with_strategy opaque [Nat.ltb Nat.eqb] cbn.
  destruct (Nat.ltb_spec n lvl) as [E1|E1].
  - destruct (Nat.ltb_spec n 3), (Nat.ltb_spec n 2), (Nat.ltb_spec n 1);
      try lia; destruct therapy, reader, soft; cbn;
      repeat match goal with |- _ /\ _ => split end;
      intros; try lia; try congruence; repeat constructor.
  - destruct (Nat.eqb_spec n 0) as [E0|E0];
      [|destruct (Nat.ltb_spec lvl n)]; cbn;
      repeat match goal with |- _ /\ _ => split end;
      intros; try lia; try congruence; repeat constructor.
Qed.

(** X22 (reader mode that cannot start).  [executeIntervention] sets the
    level before it activates anything.  When the user accepts level 2 on a
    page from which no article can be extracted, the manager is at level 2
    with reader mode off, nothing is sent to the background script, and a
    further level-2 [INTERVENTION] does nothing (the user is not asked
    again). *)
Theorem unavailable_reader_mode_still_raises_level page this :
  extractable page = false -> readerModeActive this = false ->
  let this' := fst (executeIntervention page 2 this) in
  let out := snd (executeIntervention page 2 this) in
  currentLevel this' = 2%nat /\
  readerModeActive this' = false /\
  softModeActive this' = true /\
  out = [] /\
  (forall payload, iv_level payload = 2%nat ->
     handleIntervention payload this' = (this', [])).
Proof.
  intros He Hr. destruct this as [lvl soft reader therapy p5].
  cbn in Hr. subst reader.
  unfold executeIntervention, activateSoftMode, activateReaderMode.
  destruct soft; cbn; rewrite He; cbn; repeat split;
    intros payload Hp; unfold handleIntervention; rewrite Hp; reflexivity.
Qed.

Lemma unavailable_reader_mode_still_raises_level_witness :
  let page := {| extractable := false; p5Defined := true |} in
  let this' := fst (executeIntervention page 2 constructor) in
  let out := snd (executeIntervention page 2 constructor) in
  currentLevel this' = 2%nat /\
  readerModeActive this' = false /\
  softModeActive this' = true /\
  out = [] /\
  (forall payload, iv_level payload = 2%nat ->
     handleIntervention payload this' = (this', [])).
Proof.
  apply (unavailable_reader_mode_still_raises_level
           {| extractable := false; p5Defined := true |} constructor);
    reflexivity.
Defined.

End InterventionFacts.

(** ** The exchange between content script and background *)

Module DialogueFacts.
Import JS DSI_CONFIG Engine Intervention Dialogue EngineFacts.

(** One round of the exchange reproduces its starting condition. *)
Lemma round_echoing tabId now sys :
  echoing sys ->
  echoing (round tabId now sys) /\
  dsi (background (round tabId now sys)) = dsi (background sys).
Proof.
  destruct sys as [state mgr tc tb].
  intros (Hl & (payload & Htc & Hp) & Htb & Hd). cbn in Hl, Htc, Hp, Htb, Hd.
  subst tc tb. unfold round, contentReceives. cbn [toContent manager].
  unfold handleIntervention. rewrite Hp, Hl. cbn.
  assert (H40 : (40 <? dsi state) = false)
    by (apply (gt_false_trans 35); [vm_compute; reflexivity | exact Hd]).
  assert (H85 : (85 <? dsi state) = false)
    by (apply (gt_false_trans 35); [vm_compute; reflexivity | exact Hd]).
  assert (H65 : (65 <? dsi state) = false)
    by (apply (gt_false_trans 35); [vm_compute; reflexivity | exact Hd]).
  rewrite H40. cbn. rewrite H85, H65, Hd.
  split; [|reflexivity].
  unfold echoing. cbn. repeat split; eauto.
Qed.

(** X21 (an exchange that does not end).  [deactivateAll] always sends
    [READER_MODE_STATE] with [active: false], and [handleReaderModeExit]
    always answers with an [INTERVENTION].  So when a level-0 [INTERVENTION]
    reaches a manager whose level is 0 while the score is not above
    [LEVEL_1_THRESHOLD], the answer is again a level-0 [INTERVENTION]: after
    any number of rounds one is under way, the manager's level is 0 and the
    score is unchanged. *)
Theorem level_zero_exchange_never_ends tabId nows sys :
  echoing sys ->
  echoing (rounds tabId nows sys) /\
  dsi (background (rounds tabId nows sys)) = dsi (background sys).
Proof.
  unfold rounds. revert sys.
  induction nows as [|now nows IH]; intros sys H; cbn; [auto|].
  destruct (round_echoing tabId now sys H) as [H1 H2].
  destruct (IH _ H1) as [H3 H4]. split; [exact H3 | congruence].
Qed.

Lemma level_zero_exchange_never_ends_witness :
  let sys1 := backgroundReceives 7 100 (send (DEBUG_SET_DSI 40) (initial 0)) in
  let sys2 := contentReceives sys1 in
  let sys3 := backgroundReceives 7 200 (send (DEBUG_SET_DSI 0) sys2) in
  (iv_level <$> toContent sys1 = [1%nat] /\
   manager sys2 = constructor /\
   iv_level <$> toContent sys3 = [0%nat]) /\
  echoing (rounds 7 [300; 400; 500] sys3) /\
  dsi (background (rounds 7 [300; 400; 500] sys3)) = dsi (background sys3).
Proof.
  split; [repeat split; vm_compute; reflexivity|].
  apply level_zero_exchange_never_ends.
  repeat split; try (vm_compute; reflexivity).
  eexists. split; vm_compute; reflexivity.
Defined.

(** X25 (reader-mode round trip).  When the user accepts level 2 on a page
    with an article, nothing else being under way, the exchange comes to
    rest with reader mode on at both ends, the manager at level 2 and a
    score that is not below [LEVEL_2_THRESHOLD].  When the user then closes
    the reader overlay, the exchange comes to rest again with reader mode off
    at both ends, a score that is not above 40, and the same level, 0 or 1,
    at both ends. *)
Theorem reader_mode_round_trip tabId now1 now2 page sys :
  quiet sys -> extractable page = true ->
  readerModeActive (manager sys) = false ->
  therapyActive (manager sys) = false ->
  let opened :=
    contentReceives (backgroundReceives tabId now1 (userAccepts page 2 sys)) in
  let closed :=
    contentReceives (backgroundReceives tabId now2 (userClosesReader opened)) in
  (quiet opened /\
   readerModeActive (manager opened) = true /\
   isReaderModeActive (background opened) = true /\
   Intervention.currentLevel (manager opened) = 2%nat /\
   (dsi (background opened) <? LEVEL_2_THRESHOLD) = false) /\
  (quiet closed /\
   readerModeActive (manager closed) = false /\
   isReaderModeActive (background closed) = false /\
   Intervention.currentLevel (manager closed) =
     Engine.currentLevel (background closed) /\
   (Engine.currentLevel (background closed) <= 1)%nat /\
   (dsi (background closed) >? 40) = false).
Proof.
  destruct sys as [state mgr tc tb]. destruct mgr as [lvl soft reader therapy p5].
  intros [Htc Htb] Hex Hrd Hth. cbn in Htc, Htb, Hrd, Hth.
  subst tc tb reader therapy. cbv zeta.
  unfold userAccepts, executeIntervention, activateSoftMode, activateReaderMode.
  cbn. rewrite Hex. unfold quiet.
  destruct soft; cbn; destruct (dsi state <? LEVEL_2_THRESHOLD) eqn:E65; cbn;
    try (repeat split; (reflexivity || lia));
    (destruct (40 <? dsi state) eqn:E40; cbn;
     [ repeat split; try reflexivity; try lia; try assumption
     | assert (E85 : (85 <? dsi state) = false)
         by (apply (gt_false_trans 40); [vm_compute; reflexivity | exact E40]);
       assert (E65' : (65 <? dsi state) = false)
         by (apply (gt_false_trans 40); [vm_compute; reflexivity | exact E40]);
       rewrite E85, E65'; destruct (35 <? dsi state) eqn:E35; cbn;
       repeat split; try reflexivity; try lia; try assumption ]).
Qed.

Lemma reader_mode_round_trip_witness :
  let page := {| extractable := true; p5Defined := true |} in
  let sys :=
    contentReceives
      (backgroundReceives 7 100 (send (DEBUG_SET_DSI 75) (initial 0))) in
  let opened :=
    contentReceives (backgroundReceives 7 200 (userAccepts page 2 sys)) in
  let closed :=
    contentReceives (backgroundReceives 7 300 (userClosesReader opened)) in
  (dsi (background opened) = 75 /\ dsi (background closed) = 40 /\
   Engine.currentLevel (background closed) = 1%nat /\
   softModeActive (manager closed) = true) /\
  (quiet opened /\
   readerModeActive (manager opened) = true /\
   isReaderModeActive (background opened) = true /\
   Intervention.currentLevel (manager opened) = 2%nat /\
   (dsi (background opened) <? LEVEL_2_THRESHOLD) = false) /\
  (quiet closed /\
   readerModeActive (manager closed) = false /\
   isReaderModeActive (background closed) = false /\
   Intervention.currentLevel (manager closed) =
     Engine.currentLevel (background closed) /\
   (Engine.currentLevel (background closed) <= 1)%nat /\
   (dsi (background closed) >? 40) = false).
Proof.
  split; [repeat split; vm_compute; reflexivity|].
  apply (reader_mode_round_trip 7 200 300);
    try (vm_compute; reflexivity).
  split; vm_compute; reflexivity.
Defined.

(** *** The mode flags at both ends *)

Lemma flagsAfter_app l1 l2 f :
  flagsAfter (l1 ++ l2) f = flagsAfter l2 (flagsAfter l1 f).
Proof. unfold flagsAfter. apply foldl_app. Qed.

Lemma messages_app o1 o2 : messages (o1 ++ o2) = messages o1 ++ messages o2.
Proof. unfold messages. apply omap_app. Qed.

(** What a message does to the background script's mode flags. *)
Lemma onMessage_flags tabId now m state :
  let state' := fst (Engine.onMessage tabId now m state) in
  (isTherapyActive state', isReaderModeActive state') =
  flagsAfter [m] (isTherapyActive state, isReaderModeActive state).
Proof.
  destruct m as [payload| | |detected|detected| |active|active|v]; cbn;
    try reflexivity.
  - destruct (handleBehaviorData_frame now payload state)
      as (_ & _ & Ht & Hr & _). cbn zeta in Ht, Hr. rewrite Ht, Hr. reflexivity.
  - destruct detected; reflexivity.
  - destruct detected; reflexivity.
  - unfold handleTherapyCompletion. cbn. destruct (_ <? _); reflexivity.
  - unfold onReaderModeState, handleReaderModeExit. destruct active; cbn.
    + destruct (_ <? _); reflexivity.
    + destruct (_ <? _); reflexivity.
  - destruct (updateDSI_frame tabId now (set_dsi v state)) as (_ & _ & Ht & Hr).
    cbn zeta in Ht, Hr. rewrite Ht, Hr. reflexivity.
Qed.

(** What the manager's messages, once handled, do to them: they bring
    them to the manager's own flags. *)
Ltac manager_cases :=
  repeat match goal with
         | this : InterventionManager |- _ =>
             destruct this as [? [] [] [] []]
         | page : Page |- _ => destruct page as [[] []]
         | b : bool |- _ => destruct b
         end.

Lemma executeIntervention_flags page level this :
  flagsAfter (messages (snd (executeIntervention page level this))) (flags this) =
  flags (fst (executeIntervention page level this)).
Proof.
  destruct level as [|[|[|[|n]]]]; manager_cases; reflexivity.
Qed.

Lemma activateReaderMode_flags page this :
  flagsAfter (messages (snd (activateReaderMode page this))) (flags this) =
  flags (fst (activateReaderMode page this)).
Proof. manager_cases; reflexivity. Qed.

Lemma deactivateReaderMode_flags this :
  flagsAfter (messages (snd (deactivateReaderMode this))) (flags this) =
  flags (fst (deactivateReaderMode this)).
Proof. manager_cases; reflexivity. Qed.

Lemma deactivateVisualTherapy_flags completed this :
  flagsAfter (messages (snd (deactivateVisualTherapy completed this)))
    (flags this) =
  flags (fst (deactivateVisualTherapy completed this)).
Proof. manager_cases; reflexivity. Qed.

Lemma handleIntervention_flags payload this :
  flagsAfter (messages (snd (handleIntervention payload this))) (flags this) =
  flags (fst (handleIntervention payload this)).
Proof.
  unfold handleIntervention, clearHigherInterventions.
  destruct (iv_level payload <? currentLevel this)%nat.
  - destruct (iv_level payload <? 3)%nat, (iv_level payload <? 2)%nat,
      (iv_level payload <? 1)%nat; manager_cases; reflexivity.
  - destruct (Nat.eqb (iv_level payload) 0);
      [|destruct (currentLevel this <? iv_level payload)%nat];
      manager_cases; reflexivity.
Qed.

(** The same with flags that are set only where the manager's are. *)
Lemma executeIntervention_le page level this f :
  flags_le f (flags this) = true ->
  flags_le (flagsAfter (messages (snd (executeIntervention page level this))) f)
    (flags (fst (executeIntervention page level this))) = true.
Proof.
  destruct f as [[] []], level as [|[|[|[|n]]]]; manager_cases;
    intros H; try discriminate H; reflexivity.
Qed.

Lemma activateReaderMode_le page this f :
  flags_le f (flags this) = true ->
  flags_le (flagsAfter (messages (snd (activateReaderMode page this))) f)
    (flags (fst (activateReaderMode page this))) = true.
Proof.
  destruct f as [[] []]; manager_cases;
    intros H; try discriminate H; reflexivity.
Qed.

Lemma deactivateReaderMode_le this f :
  flags_le f (flags this) = true ->
  flags_le (flagsAfter (messages (snd (deactivateReaderMode this))) f)
    (flags (fst (deactivateReaderMode this))) = true.
Proof.
  destruct f as [[] []]; manager_cases;
    intros H; try discriminate H; reflexivity.
Qed.

Lemma deactivateVisualTherapy_le completed this f :
  flags_le f (flags this) = true ->
  flags_le
    (flagsAfter (messages (snd (deactivateVisualTherapy completed this))) f)
    (flags (fst (deactivateVisualTherapy completed this))) = true.
Proof.
  destruct f as [[] []]; manager_cases;
    intros H; try discriminate H; reflexivity.
Qed.

Lemma handleIntervention_le payload this f :
  flags_le f (flags this) = true ->
  flags_le (flagsAfter (messages (snd (handleIntervention payload this))) f)
    (flags (fst (handleIntervention payload this))) = true.
Proof.
  unfold handleIntervention, clearHigherInterventions.
  destruct (iv_level payload <? currentLevel this)%nat.
  - destruct (iv_level payload <? 3)%nat, (iv_level payload <? 2)%nat,
      (iv_level payload <? 1)%nat, f as [[] []]; manager_cases;
      intros H; try discriminate H; reflexivity.
  - destruct (Nat.eqb (iv_level payload) 0);
      [|destruct (currentLevel this <? iv_level payload)%nat];
      destruct f as [[] []]; manager_cases;
      intros H; try discriminate H; reflexivity.
Qed.

(** Handling the messages under way is monotone in the flags held now. *)
Lemma flagsAfter_le pending :
  forall f g, flags_le f g = true ->
  flags_le (flagsAfter pending f) (flagsAfter pending g) = true.
Proof.
  induction pending as [|m pending IH]; intros f g H; [exact H|].
  cbn. apply IH.
  destruct f as [[] []], g as [[] []], m as [ | | | | | |[]|[]| ];
    try discriminate H; reflexivity.
Qed.

Lemma flags_le_trans f g h :
  flags_le f g = true -> flags_le g h = true -> flags_le f h = true.
Proof.
  destruct f as [[] []], g as [[] []], h as [[] []];
    intros H1 H2; try discriminate H1; try discriminate H2; reflexivity.
Qed.

(** Every move of the manager keeps the two ends in step. *)
Lemma manager_step_mirrored state this tc tb this' out :
  mirrored (mkSystem state this tc tb) ->
  flagsAfter (messages out) (flags this) = flags this' ->
  forall tc', mirrored (mkSystem state this' tc' (tb ++ messages out)).
Proof.
  unfold mirrored, flags. cbn -[flagsAfter]. intros H Hf tc'.
  rewrite flagsAfter_app, H. exact Hf.
Qed.

Lemma manager_step_covered state this tc tb this' out :
  covered (mkSystem state this tc tb) ->
  (forall f, flags_le f (flags this) = true ->
             flags_le (flagsAfter (messages out) f) (flags this') = true) ->
  forall tc', covered (mkSystem state this' tc' (tb ++ messages out)).
Proof.
  unfold covered. cbn -[flagsAfter flags_le flags]. intros H Hf tc'.
  rewrite flagsAfter_app. apply Hf, H.
Qed.

(** A move other than a re-initialisation keeps the flags mirrored. *)
Lemma move_mirrored tabId m sys :
  reinitialises m = false -> mirrored sys -> mirrored (move tabId sys m).
Proof.
  destruct sys as [state this tc tb]. intros Hm H.
  destruct m as [ | now | now | page level | page | | completed | payload | v
                | | | now ];
    try discriminate Hm; cbn [move].
  - unfold contentReceives. cbn -[handleIntervention].
    destruct tc as [|payload rest]; [exact H|].
    pose proof (handleIntervention_flags payload this) as Hf.
    destruct (handleIntervention payload this) as [this' out].
    apply (manager_step_mirrored state this (payload :: rest)); assumption.
  - unfold backgroundReceives. cbn -[Engine.onMessage].
    destruct tb as [|m rest]; [exact H|].
    pose proof (onMessage_flags tabId now m state) as Hf. cbn zeta in Hf.
    destruct (Engine.onMessage tabId now m state) as [state' effects].
    unfold mirrored in *. cbn -[flagsAfter] in *. rewrite Hf.
    rewrite <- flagsAfter_app. exact H.
  - unfold timerFires. cbn -[Engine.updateDSI].
    destruct (updateDSI_frame tabId now state) as (_ & _ & Ht & Hr).
    cbn zeta in Ht, Hr.
    destruct (Engine.updateDSI tabId now state) as [state' effects].
    unfold mirrored in *. cbn -[flagsAfter] in *. rewrite Ht, Hr. exact H.
  - unfold userAccepts. cbn -[executeIntervention].
    pose proof (executeIntervention_flags page level this) as Hf.
    destruct (executeIntervention page level this) as [this' out].
    apply (manager_step_mirrored state this tc); assumption.
  - unfold userOpensReader. cbn -[activateReaderMode].
    pose proof (activateReaderMode_flags page this) as Hf.
    destruct (activateReaderMode page this) as [this' out].
    apply (manager_step_mirrored state this tc); assumption.
  - unfold userClosesReader. cbn -[deactivateReaderMode].
    pose proof (deactivateReaderMode_flags this) as Hf.
    destruct (deactivateReaderMode this) as [this' out].
    apply (manager_step_mirrored state this tc); assumption.
  - unfold therapyEnds. cbn -[deactivateVisualTherapy].
    pose proof (deactivateVisualTherapy_flags completed this) as Hf.
    destruct (deactivateVisualTherapy completed this) as [this' out].
    apply (manager_step_mirrored state this tc); assumption.
  - unfold send, mirrored in *. cbn -[flagsAfter] in *.
    rewrite flagsAfter_app, H. reflexivity.
  - unfold send, mirrored in *. cbn -[flagsAfter] in *.
    rewrite flagsAfter_app, H. reflexivity.
  - unfold send, mirrored in *. cbn -[flagsAfter] in *.
    rewrite flagsAfter_app, H. reflexivity.
Qed.

(** Every move, a re-initialisation included, keeps the background's
    flags covered by the manager's. *)
Lemma move_covered tabId m sys : covered sys -> covered (move tabId sys m).
Proof.
  destruct sys as [state this tc tb]. intros H.
  destruct m as [ | now | now | page level | page | | completed | payload | v
                | | | now ]; cbn [move].
  - unfold contentReceives. cbn -[handleIntervention].
    destruct tc as [|payload rest]; [exact H|].
    pose proof (handleIntervention_le payload this) as Hf.
    destruct (handleIntervention payload this) as [this' out].
    apply (manager_step_covered state this (payload :: rest)); assumption.
  - unfold backgroundReceives. cbn -[Engine.onMessage].
    destruct tb as [|m rest]; [exact H|].
    pose proof (onMessage_flags tabId now m state) as Hf. cbn zeta in Hf.
    destruct (Engine.onMessage tabId now m state) as [state' effects].
    unfold covered in *. cbn -[flagsAfter flags_le flags] in *. rewrite Hf.
    rewrite <- flagsAfter_app. exact H.
  - unfold timerFires. cbn -[Engine.updateDSI].
    destruct (updateDSI_frame tabId now state) as (_ & _ & Ht & Hr).
    cbn zeta in Ht, Hr.
    destruct (Engine.updateDSI tabId now state) as [state' effects].
    unfold covered in *. cbn -[flagsAfter flags_le flags] in *.
    rewrite Ht, Hr. exact H.
  - unfold userAccepts. cbn -[executeIntervention].
    pose proof (executeIntervention_le page level this) as Hf.
    destruct (executeIntervention page level this) as [this' out].
    apply (manager_step_covered state this tc); assumption.
  - unfold userOpensReader. cbn -[activateReaderMode].
    pose proof (activateReaderMode_le page this) as Hf.
    destruct (activateReaderMode page this) as [this' out].
    apply (manager_step_covered state this tc); assumption.
  - unfold userClosesReader. cbn -[deactivateReaderMode].
    pose proof (deactivateReaderMode_le this) as Hf.
    destruct (deactivateReaderMode this) as [this' out].
    apply (manager_step_covered state this tc); assumption.
  - unfold therapyEnds. cbn -[deactivateVisualTherapy].
    pose proof (deactivateVisualTherapy_le completed this) as Hf.
    destruct (deactivateVisualTherapy completed this) as [this' out].
    apply (manager_step_covered state this tc); assumption.
  - unfold send, covered in *. cbn -[flagsAfter flags_le flags] in *.
    rewrite flagsAfter_app. exact H.
  - unfold send, covered in *. cbn -[flagsAfter flags_le flags] in *.
    rewrite flagsAfter_app. exact H.
  - unfold send, covered in *. cbn -[flagsAfter flags_le flags] in *.
    rewrite flagsAfter_app. exact H.
  - unfold send, covered in *. cbn -[flagsAfter flags_le flags] in *.
    rewrite flagsAfter_app. cbn. destruct (flags this) as [[] []]; reflexivity.
  - unfold timerStarts, covered in *. cbn -[flagsAfter flags_le flags] in *.
    refine (flags_le_trans _ _ _ (flagsAfter_le tb _ _ _) H).
    destruct (isTherapyActive state), (isReaderModeActive state); reflexivity.
Qed.

Lemma play_covered tabId moves :
  forall sys, covered sys -> covered (play tabId moves sys).
Proof.
  unfold play. induction moves as [|m moves IH]; intros sys Hs; cbn;
    [exact Hs|].
  apply IH, move_covered, Hs.
Qed.

Lemma play_mirrored tabId moves :
  forall sys, mirrored sys ->
  Forall (fun m => reinitialises m = false) moves ->
  mirrored (play tabId moves sys).
Proof.
  unfold play. induction moves as [|m moves IH]; intros sys Hs Hf; cbn;
    [exact Hs|].
  inversion Hf; subst. apply IH; [apply move_mirrored|]; assumption.
Qed.

(** X28 (the mode flags at both ends).  After any play of the exchange
    from a fresh tab (the manager receives interventions, the user accepts a
    level, opens or closes the reader, the therapy ends or is skipped, the
    timer fires, the monitor reports, the sidebar polls, its debug slider
    sets the score, its reset button is pressed, the timer is started, the
    background script receives messages in the order sent), whenever no
    message to the background script is under way: a mode flag of the
    background script is set only if the manager's is; the flags are equal if
    the play contains no re-initialisation (neither the reset button nor a
    start of the timer); and the reset button breaks the agreement: once its
    [RESET_DSI] is handled both flags of the background script are off while
    the manager is as it was, modes included. *)
Theorem mode_flags_mirror_the_manager tabId now0 moves :
  let sys := play tabId moves (initial now0) in
  toBackground sys = [] ->
  (isTherapyActive (background sys) = true ->
   therapyActive (manager sys) = true) /\
  (isReaderModeActive (background sys) = true ->
   readerModeActive (manager sys) = true) /\
  (Forall (fun m => reinitialises m = false) moves ->
   isTherapyActive (background sys) = therapyActive (manager sys) /\
   isReaderModeActive (background sys) = readerModeActive (manager sys)) /\
  (forall now,
     let sys' := play tabId [UserResets; BackgroundReceives now] sys in
     isTherapyActive (background sys') = false /\
     isReaderModeActive (background sys') = false /\
     manager sys' = manager sys /\ toBackground sys' = []).
Proof.
  cbn zeta.
  pose proof (play_covered tabId moves (initial now0) eq_refl) as Hc.
  pose proof (play_mirrored tabId moves (initial now0) eq_refl) as Hm.
  set (sys := play tabId moves (initial now0)) in *. clearbody sys.
  intros Htb.
  unfold covered, mirrored, flags in *. rewrite Htb in *. cbn in Hc, Hm.
  repeat split.
  - intros H. rewrite H in Hc.
    destruct (therapyActive (manager sys)); [reflexivity | discriminate Hc].
  - intros H. rewrite H in Hc.
    destruct (isTherapyActive (background sys)),
      (therapyActive (manager sys)), (readerModeActive (manager sys));
      try reflexivity; discriminate Hc.
  - apply Hm in H. injection H as H1 H2. exact H1.
  - apply Hm in H. injection H as H1 H2. exact H2.
  - destruct sys as [state this tc tb]. cbn in Htb. subst tb. reflexivity.
  - destruct sys as [state this tc tb]. cbn in Htb. subst tb. reflexivity.
  - destruct sys as [state this tc tb]. cbn in Htb. subst tb. reflexivity.
  - destruct sys as [state this tc tb]. cbn in Htb. subst tb. reflexivity.
Qed.

Lemma mode_flags_mirror_the_manager_witness :
  let page := {| extractable := true; p5Defined := true |} in
  let moves :=
    [UserOpensReader page; BackgroundReceives 100; TimerFires 1000;
     UserResets; BackgroundReceives 1200; TimerFires 2000] in
  let sys := play 7 moves (initial 0) in
  (readerModeActive (manager sys) = true /\
   isReaderModeActive (background sys) = false /\
   Engine.currentLevel (background sys) = 0%nat) /\
  (isTherapyActive (background sys) = true ->
   therapyActive (manager sys) = true) /\
  (isReaderModeActive (background sys) = true ->
   readerModeActive (manager sys) = true) /\
  (Forall (fun m => reinitialises m = false) moves ->
   isTherapyActive (background sys) = therapyActive (manager sys) /\
   isReaderModeActive (background sys) = readerModeActive (manager sys)) /\
  (forall now,
     let sys' := play 7 [UserResets; BackgroundReceives now] sys in
     isTherapyActive (background sys') = false /\
     isReaderModeActive (background sys') = false /\
     manager sys' = manager sys /\ toBackground sys' = []).
Proof.
  split; [repeat split; vm_compute; reflexivity|].
  apply (mode_flags_mirror_the_manager 7 0). vm_compute. reflexivity.
Defined.

End DialogueFacts.

(** ** Reports on their way from the monitor to the engine *)

Module ReportingFacts.
Import JS DSI_CONFIG Monitor.

(** X26 (a second report erases the rage clicks).  The monitor reports
    every 500 ms, the engine ticks every 1000 ms, and [handleBehaviorData]
    stores the reported counts as they are.  When a second report reaches the
    engine before the tick and no event came in between, the rage-click
    count that the first report carried is overwritten by 0 (the callback
    of the first report reset it) and the direction-change count by its
    decayed value: the tick does not see the rage clicks. *)
Theorem second_report_erases_rage_clicks now1 now2 t1 t2 this p1 p2 state :
  reportBehavior true now1 this = Some p1 ->
  reportBehavior true now2 (snd (reportInterval true now1 this)) = Some p2 ->
  let state' :=
    Engine.handleBehaviorData t2 p2 (Engine.handleBehaviorData t1 p1 state) in
  BehaviorData.rageClickCount p1 = Some (rageClickCount this) /\
  Engine.rageClickCount state' = 0 /\
  (Engine.rageClickCount state' >? RAGE_CLICK_THRESHOLD) = false /\
  Engine.directionChanges state' = Math_max 0 (directionChanges this - 1).
Proof.
  intros H1 H2. unfold reportInterval in H2. rewrite H1 in H2. cbn [snd] in H2.
  unfold reportBehavior in H1, H2. cbn [negb] in H1, H2. cbv zeta in H1, H2.
  destruct (_ || _) in H1; [|discriminate]. injection H1 as <-.
  destruct (_ || _) in H2; [|discriminate]. injection H2 as <-.
  cbn. repeat split; reflexivity.
Qed.

Lemma second_report_erases_rage_clicks_witness :
  let this :=
    handleClick 1480 5 5 (handleClick 1450 5 5 (handleClick 1400 5 5
      (handleClick 1350 5 5
        (handleScroll 1300 100 (handleScroll 1200 0 (handleScroll 1100 100
          (handleScroll 1000 0 (constructor 0 0)))))))) in
  let p1 :=
    BehaviorData.mk (Some 1000) (Some 4) None (Some 2) (Some 3) (Some 1500) in
  let p2 :=
    BehaviorData.mk (Some 1000) (Some 4) None (Some 1) (Some 0) (Some 2000) in
  let state1 := Engine.handleBehaviorData 1501 p1 (Engine.initTabState 0) in
  let state' := Engine.handleBehaviorData 2001 p2 state1 in
  (Engine.dsi (fst (Engine.updateDSI 7 2100 state1)) = 8 /\
   Engine.dsi (fst (Engine.updateDSI 7 2100 state')) = 2) /\
  BehaviorData.rageClickCount p1 = Some (rageClickCount this) /\
  Engine.rageClickCount state' = 0 /\
  (Engine.rageClickCount state' >? RAGE_CLICK_THRESHOLD) = false /\
  Engine.directionChanges state' = Math_max 0 (directionChanges this - 1).
Proof.
  intros this p1 p2 state1 state'.
  split; [split; vm_compute; reflexivity|].
  apply (second_report_erases_rage_clicks 1500 2000 1501 2001 this p1 p2);
    vm_compute; reflexivity.
Defined.

End ReportingFacts.
